(** * my_ffs: a shallow embedding of the flash file system of my_ffs.c

    The engine stores every file as a chain of flash sectors.  This
    development embeds the storage engine of [my_ffs.c] / [my_ffs.h] in
    Rocq, function by function, and states the properties of its
    specification against that embedding.

    Conventions of the embedding.
    - [unsigned long] is 32 bits wide (the on-media fields are four
      bytes); every unsigned operation carries its wrap-around ([ulong]).
      [int] is the two's complement reading of the same 32 bits
      ([to_int]).  Bytes are integers in [0, 256).
    - On-media integers are little-endian.
    - A C string argument is the list of its characters; the list's end
      (or its first NUL) is the terminator.
    - Loops that the C code does not bound take a [fuel]; an exhausted
      fuel is the outcome [OutOfFuel], never a result.
    - Behaviour the C standard leaves undefined (indexing the descriptor
      table outside its bounds, overrunning a buffer, using a local that
      no successful read has filled) is the outcome [Fault]. *)

From Stdlib Require Import ZArith List Lia Bool.
Import ListNotations.
Open Scope Z_scope.

Set Implicit Arguments.

(* ------------------------------------------------------------------ *)
(** ** Machine integers *)

Definition ulong (x : Z) : Z := x mod 2 ^ 32.

Definition to_int (x : Z) : Z :=
  let y := x mod 2 ^ 32 in if y <? 2 ^ 31 then y else y - 2 ^ 32.

Definition uchar (x : Z) : Z := x mod 256.

(** [(unsigned long)-1], the end-of-chain and "no sector" marker. *)
Definition MINUS_ONE : Z := 0xFFFFFFFF.

(* ------------------------------------------------------------------ *)
(** ** Constants of my_ffs.h *)

Definition FFS_MAX_FILENAME_LENGTH : Z := 64.
Definition FFS_FILE_SYSTEM_VERSION : Z := 1.

Definition FFS_SECTOR_HEADER_KEY : Z := 0x6d666673.

Definition FFS_SECTOR_HEADER_INUSE : Z := 0x0f.
Definition FFS_SECTOR_HEADER_INUSE_FILENODE : Z := 0xf0.
Definition FFS_SECTOR_HEADER_FREE : Z := 0xff.
Definition FFS_SECTOR_HEADER_FREE_DIRTY : Z := 0x00.

Definition FFS_MAX_FILE_DESCRIPTORS : Z := 2.

Definition FFS_RDONLY : Z := 0x0000.
Definition FFS_WRONLY : Z := 0x0001.
Definition FFS_RDWR : Z := 0x0002.
Definition FFS_CREATE : Z := 0x0100.

Definition CHECK_SECTOR_NOTSEEN : Z := 0x00.
Definition CHECK_SECTOR_BAD : Z := 0x01.
Definition CHECK_SECTOR_FNODE : Z := 0x02.
Definition CHECK_SECTOR_FREE : Z := 0x04.
Definition CHECK_SECTOR_INUSE : Z := 0x08.

Definition FFS_RC_TOO_MANY_OPEN_FILES : Z := -1.
Definition FFS_RC_FILE_DOES_NOT_EXIST : Z := -2.
Definition FFS_RC_INVALID_FILE_DESCRIPTOR : Z := -3.
Definition FFS_RC_INVALID_FILE_POSITION : Z := -4.
Definition FFS_RC_INVALID_SECTOR_NUMBER : Z := -5.
Definition FFS_RC_OUT_OF_SPACE : Z := -6.
Definition FFS_RC_FILE_NOT_FOUND : Z := -7.
Definition FFS_RC_NEW_NAME_EXISTS : Z := -8.

(* ------------------------------------------------------------------ *)
(** ** Structures of my_ffs.h *)

Record FFS_SECTOR_HEADER := mkHeader {
  Key : Z;
  Next : Z;
  EraseCount : Z;
  Version : Z;
  Status : Z;
  SectorChecksum : Z;
  SectorLength : Z;
  DataOffset : Z
}.

(** [Filename] is the raw 65-byte array; [FnodePad] is the two bytes the
    compiler inserts after it to align [FileSize] on a word. *)
Record FFS_FILE_NODE := mkFnode {
  Permissions : Z;
  Filename : list Z;
  FnodePad : list Z;
  FileSize : Z;
  DataTime : Z;
  Count : Z
}.

Record FFS_FILE_DESCRIPTOR := mkFdesc {
  InUse : Z;
  Flags : Z;
  DeleteOldFile : Z;
  WriteFnode : Z;
  FnodeSector : Z;
  OldFnodeSector : Z;
  Position : Z;
  Fnode : FFS_FILE_NODE
}.

(** An entry of the flash section table.  The three function pointers of
    the C structure are the section driver, modelled below. *)
Module FlashSection.
Record t := mk {
  Device : Z;
  Start : Z;
  Count : Z;
  SectorSize : Z
}.
End FlashSection.
Abbreviation FFS_FLASH_SECTION := FlashSection.t.

(** [sizeof(FFS_SECTOR_HEADER)] and [sizeof(FFS_FILE_NODE)] with four-byte
    words and natural alignment, and the offsets the code computes by
    pointer subtraction. *)
Definition sizeof_FFS_SECTOR_HEADER : Z := 24.
Definition sizeof_FFS_FILE_NODE : Z := 80.
Definition sizeof_Filename : Z := 65.
Definition offsetof_Next : Z := 4.
Definition offsetof_Version : Z := 12.

(* ------------------------------------------------------------------ *)
(** ** Sector header and file-node codec (the memory image of the structs) *)

Definition le16 (v : Z) : list Z := [v mod 256; (v / 256) mod 256].

Definition le32 (v : Z) : list Z :=
  [v mod 256; (v / 256) mod 256; (v / 65536) mod 256; (v / 16777216) mod 256].

Definition byte_at (l : list Z) (i : nat) : Z := nth i l 0.

Definition rd16 (l : list Z) (i : nat) : Z :=
  byte_at l i + 256 * byte_at l (i + 1).

Definition rd32 (l : list Z) (i : nat) : Z :=
  byte_at l i + 256 * byte_at l (i + 1)
  + 65536 * byte_at l (i + 2) + 16777216 * byte_at l (i + 3).

Definition header_bytes (h : FFS_SECTOR_HEADER) : list Z :=
  le32 (Key h) ++ le32 (Next h) ++ le32 (EraseCount h)
  ++ [uchar (Version h); uchar (Status h)] ++ le16 (SectorChecksum h)
  ++ le32 (SectorLength h) ++ le32 (DataOffset h).

Definition header_of_bytes (l : list Z) : FFS_SECTOR_HEADER :=
  mkHeader (rd32 l 0) (rd32 l 4) (rd32 l 8) (byte_at l 12) (byte_at l 13)
           (rd16 l 14) (rd32 l 16) (rd32 l 20).

(** [fit n l]: exactly [n] bytes of an array, zero-filled when [l] is
    shorter. *)
Definition fit (n : nat) (l : list Z) : list Z :=
  firstn n (l ++ repeat 0 n).

Definition fnode_bytes (f : FFS_FILE_NODE) : list Z :=
  [uchar (Permissions f)] ++ fit 65 (Filename f) ++ fit 2 (FnodePad f)
  ++ le32 (FileSize f) ++ le32 (DataTime f) ++ le32 (Count f).

Definition fnode_of_bytes (l : list Z) : FFS_FILE_NODE :=
  mkFnode (byte_at l 0) (firstn 65 (skipn 1 l)) (firstn 2 (skipn 66 l))
          (rd32 l 68) (rd32 l 72) (rd32 l 76).

(* ------------------------------------------------------------------ *)
(** ** C strings *)

(** The characters of a C string: everything before the first NUL. *)
Fixpoint c_str (s : list Z) : list Z :=
  match s with
  | [] => []
  | c :: r => if c =? 0 then [] else c :: c_str r
  end.

(** The string held in a character array, or [None] when the array holds
    no NUL (the C library would run past the array). *)
Fixpoint array_str (a : list Z) : option (list Z) :=
  match a with
  | [] => None
  | c :: r =>
      if c =? 0 then Some []
      else match array_str r with
           | Some s => Some (c :: s)
           | None => None
           end
  end.

Definition strlen (s : list Z) : Z := Z.of_nat (length (c_str s)).

Definition toupper (c : Z) : Z :=
  if (97 <=? c) && (c <=? 122) then c - 32 else c.

(** [StringToUpperCase] on the characters of a string. *)
Definition StringToUpperCase (s : list Z) : list Z := map toupper s.

Fixpoint str_eqb (a b : list Z) : bool :=
  match a, b with
  | [], [] => true
  | x :: a', y :: b' => (x =? y) && str_eqb a' b'
  | _, _ => false
  end.

(** [strcpy(dst, src)] into an array already holding [dst]: the characters
    and the NUL replace the front of the array, the rest stays. *)
Definition strcpy (dst : list Z) (src : list Z) : list Z :=
  let s := c_str src ++ [0] in
  s ++ skipn (length s) dst.

(** [memcpy(dst, src, n)] followed by [dst[n] = 0], the truncating branch. *)
Definition memcpy_name (dst : list Z) (src : list Z) (n : nat) : list Z :=
  firstn n (c_str src) ++ [0] ++ skipn (n + 1) dst.

(* ------------------------------------------------------------------ *)
(** ** The flash device and the section drivers *)

(** The medium: the byte at (section index, sector relative to the
    section, offset in the sector). *)
Definition flash := nat -> Z -> Z -> Z.

(** Modelled from the spec: the negative code a section driver returns
    when an access leaves the sector; the drivers are external to the
    repository and the spec only says the code is negative. *)
Definition DRIVER_RC_ERROR : Z := -128.

Definition in_sector (s : FFS_FLASH_SECTION) (rel off len : Z) : bool :=
  (0 <=? rel) && (rel <? FlashSection.Count s)
  && (0 <=? off) && (0 <=? len) && (off + len <=? FlashSection.SectorSize s).

Definition within (off len o : Z) : bool := (off <=? o) && (o <? off + len).

(** Modelled from the spec: the section driver's [Read] primitive, an
    arbitrary-length read within one sector. *)
Definition drv_Read (f : flash) (k : nat) (s : FFS_FLASH_SECTION)
           (rel off len : Z) : Z * option (list Z) :=
  if in_sector s rel off len
  then (len, Some (map (fun i => f k rel (off + Z.of_nat i))
                       (seq 0 (Z.to_nat len))))
  else (DRIVER_RC_ERROR, None).

(** Modelled from the spec: the section driver's [Write] primitive on NOR
    flash; a write can only clear bits, so the stored byte becomes the
    conjunction of the old byte and the written one. *)
Definition drv_Write (f : flash) (k : nat) (s : FFS_FLASH_SECTION)
           (rel off : Z) (buf : list Z) (len : Z) : Z * flash :=
  if in_sector s rel off len
  then (len,
        fun k' r' o' =>
          if Nat.eqb k' k && (r' =? rel) && within off len o'
          then Z.land (f k' r' o') (nth (Z.to_nat (o' - off)) buf 0xFF)
          else f k' r' o')
  else (DRIVER_RC_ERROR, f).

(** Modelled from the spec: the section driver's [Erase] primitive, which
    returns the whole sector to 0xFF. *)
Definition drv_Erase (f : flash) (k : nat) (s : FFS_FLASH_SECTION)
           (rel : Z) : Z * flash :=
  if (0 <=? rel) && (rel <? FlashSection.Count s)
  then (0, fun k' r' o' => if Nat.eqb k' k && (r' =? rel) then 0xFF else f k' r' o')
  else (DRIVER_RC_ERROR, f).

(** What the engine asks of the medium, in program order. *)
Inductive io_event :=
| IoErase (Sector : Z)
| IoWrite (Sector Offset : Z) (Data : list Z).

Record device := mkDevice {
  cells : flash;
  journal : list io_event
}.

(* ------------------------------------------------------------------ *)
(** ** Outcomes *)

Inductive fault :=
| TableIndexOutOfRange (i : Z)
| SectorArrayOutOfRange (i : Z)
| BufferOverrun
| IndeterminateValue.

Inductive outcome (A : Type) :=
| Ret (a : A)
| Fault (f : fault)
| OutOfFuel.
Arguments Ret {A} a.
Arguments Fault {A} f.
Arguments OutOfFuel {A}.

Definition bind {A B : Type} (m : outcome A) (k : A -> outcome B) : outcome B :=
  match m with
  | Ret a => k a
  | Fault f => Fault f
  | OutOfFuel => OutOfFuel
  end.

Notation "x <- m ;; k" := (bind m (fun x => k))
  (at level 61, m at next level, right associativity).
Notation "' p <- m ;; k" := (bind m (fun p => k))
  (at level 61, p pattern, m at next level, right associativity).

(** The value of a local that a read was meant to fill. *)
Definition need {A : Type} (o : option A) : outcome A :=
  match o with
  | Some a => Ret a
  | None => Fault IndeterminateValue
  end.

(* ------------------------------------------------------------------ *)
(** ** The global object *)

Record FFS_GLOBALS := mkGlobals {
  initializationComplete : bool;
  FileDescriptors : Z -> FFS_FILE_DESCRIPTOR;
  ErrorSectorCount : Z;
  TotalSectors : Z;
  TotalCrossChain : Z
}.

Record world := mkWorld {
  globals : FFS_GLOBALS;
  dev : device
}.

Definition zero_fnode : FFS_FILE_NODE :=
  mkFnode 0 (repeat 0 65%nat) [0; 0] 0 0 0.

(** A descriptor after [memset(.., 0, ..)]. *)
Definition zero_descriptor : FFS_FILE_DESCRIPTOR :=
  mkFdesc 0 0 0 0 0 0 0 zero_fnode.

Definition set_InUse (v : Z) (e : FFS_FILE_DESCRIPTOR) :=
  mkFdesc v (Flags e) (DeleteOldFile e) (WriteFnode e) (FnodeSector e)
          (OldFnodeSector e) (Position e) (Fnode e).
Definition set_Flags (v : Z) (e : FFS_FILE_DESCRIPTOR) :=
  mkFdesc (InUse e) v (DeleteOldFile e) (WriteFnode e) (FnodeSector e)
          (OldFnodeSector e) (Position e) (Fnode e).
Definition set_DeleteOldFile (v : Z) (e : FFS_FILE_DESCRIPTOR) :=
  mkFdesc (InUse e) (Flags e) v (WriteFnode e) (FnodeSector e)
          (OldFnodeSector e) (Position e) (Fnode e).
Definition set_WriteFnode (v : Z) (e : FFS_FILE_DESCRIPTOR) :=
  mkFdesc (InUse e) (Flags e) (DeleteOldFile e) v (FnodeSector e)
          (OldFnodeSector e) (Position e) (Fnode e).
Definition set_FnodeSector (v : Z) (e : FFS_FILE_DESCRIPTOR) :=
  mkFdesc (InUse e) (Flags e) (DeleteOldFile e) (WriteFnode e) v
          (OldFnodeSector e) (Position e) (Fnode e).
Definition set_OldFnodeSector (v : Z) (e : FFS_FILE_DESCRIPTOR) :=
  mkFdesc (InUse e) (Flags e) (DeleteOldFile e) (WriteFnode e) (FnodeSector e)
          v (Position e) (Fnode e).
Definition set_Position (v : Z) (e : FFS_FILE_DESCRIPTOR) :=
  mkFdesc (InUse e) (Flags e) (DeleteOldFile e) (WriteFnode e) (FnodeSector e)
          (OldFnodeSector e) v (Fnode e).
Definition set_Fnode (v : FFS_FILE_NODE) (e : FFS_FILE_DESCRIPTOR) :=
  mkFdesc (InUse e) (Flags e) (DeleteOldFile e) (WriteFnode e) (FnodeSector e)
          (OldFnodeSector e) (Position e) v.

Definition set_Permissions (v : Z) (f : FFS_FILE_NODE) :=
  mkFnode v (Filename f) (FnodePad f) (FileSize f) (DataTime f) (Count f).
Definition set_Filename (v : list Z) (f : FFS_FILE_NODE) :=
  mkFnode (Permissions f) v (FnodePad f) (FileSize f) (DataTime f) (Count f).
Definition set_FileSize (v : Z) (f : FFS_FILE_NODE) :=
  mkFnode (Permissions f) (Filename f) (FnodePad f) v (DataTime f) (Count f).
Definition set_Count (v : Z) (f : FFS_FILE_NODE) :=
  mkFnode (Permissions f) (Filename f) (FnodePad f) (FileSize f) (DataTime f) v.

Definition set_Status (v : Z) (h : FFS_SECTOR_HEADER) :=
  mkHeader (Key h) (Next h) (EraseCount h) (Version h) v (SectorChecksum h)
           (SectorLength h) (DataOffset h).

Definition set_dev (d : device) (w : world) : world := mkWorld (globals w) d.

Definition set_FileDescriptors (t : Z -> FFS_FILE_DESCRIPTOR) (w : world) : world :=
  mkWorld (mkGlobals (initializationComplete (globals w)) t
                     (ErrorSectorCount (globals w)) (TotalSectors (globals w))
                     (TotalCrossChain (globals w)))
          (dev w).

Definition set_ErrorSectorCount (v : Z) (w : world) : world :=
  mkWorld (mkGlobals (initializationComplete (globals w))
                     (FileDescriptors (globals w)) v
                     (TotalSectors (globals w)) (TotalCrossChain (globals w)))
          (dev w).

Definition set_check_totals (total cross errors : Z) (w : world) : world :=
  mkWorld (mkGlobals (initializationComplete (globals w))
                     (FileDescriptors (globals w)) errors total cross)
          (dev w).

(** [FileDescriptors[fd]]: the table has [FFS_MAX_FILE_DESCRIPTORS]
    entries, and indexing it anywhere else is a fault. *)
Definition table_entry (w : world) (fd : Z) : outcome FFS_FILE_DESCRIPTOR :=
  if (0 <=? fd) && (fd <? FFS_MAX_FILE_DESCRIPTORS)
  then Ret (FileDescriptors (globals w) fd)
  else Fault (TableIndexOutOfRange fd).

Definition put_entry (w : world) (fd : Z) (e : FFS_FILE_DESCRIPTOR) : world :=
  set_FileDescriptors
    (fun i => if i =? fd then e else FileDescriptors (globals w) i) w.

(** The four bytes at [&SecHead.Version]: Version, Status, SectorChecksum. *)
Definition status_word (h : FFS_SECTOR_HEADER) : list Z :=
  [uchar (Version h); uchar (Status h)] ++ le16 (SectorChecksum h).

(** The entry standing for whatever follows the table's last entry. *)
Definition END_OF_TABLE : FFS_FLASH_SECTION := FlashSection.mk 0xff 0 0 0.

Section Engine.

(** [extern FFS_FLASH_SECTION FlashSectionTable[]]: the entries before the
    terminating one. *)
Variable FlashSectionTable : list FFS_FLASH_SECTION.

(* ------------------------------------------------------------------ *)
(** ** Flash section registry *)

(** [GetFlashSectionEntry]'s loop: [tbl] is the table from [*Section] on,
    [idx] the index of [*Section].  After stepping to the next entry the
    code subtracts the [Count] of the entry it has just stepped to. *)
Fixpoint GetFlashSectionEntry_from (tbl : list FFS_FLASH_SECTION) (idx : nat)
         (Sector : Z) : option (nat * FFS_FLASH_SECTION * Z) :=
  match tbl with
  | [] => None
  | s :: rest =>
      if FlashSection.Device s =? 0xff then None
      else if Sector <? FlashSection.Count s then Some (idx, s, Sector)
      else GetFlashSectionEntry_from rest (S idx)
             (ulong (Sector - FlashSection.Count (hd END_OF_TABLE rest)))
  end.

Definition GetFlashSectionEntry (Sector : Z)
  : option (nat * FFS_FLASH_SECTION * Z) :=
  GetFlashSectionEntry_from FlashSectionTable 0 Sector.

Definition ValidSector (Sector : Z) : bool :=
  match GetFlashSectionEntry Sector with Some _ => true | None => false end.

Definition ReadSector (d : device) (Sector Offset Length : Z)
  : Z * option (list Z) :=
  match GetFlashSectionEntry Sector with
  | None => (FFS_RC_INVALID_SECTOR_NUMBER, None)
  | Some (k, s, rel) => drv_Read (cells d) k s rel Offset Length
  end.

Definition WriteSector (d : device) (Sector Offset : Z) (Buffer : list Z)
           (Length : Z) : Z * device :=
  match GetFlashSectionEntry Sector with
  | None => (FFS_RC_INVALID_SECTOR_NUMBER, d)
  | Some (k, s, rel) =>
      let '(rc, f) := drv_Write (cells d) k s rel Offset Buffer Length in
      (rc, mkDevice f (journal d ++ [IoWrite Sector Offset (firstn (Z.to_nat Length) Buffer)]))
  end.

Definition EraseSector (d : device) (Sector : Z) : Z * device :=
  match GetFlashSectionEntry Sector with
  | None => (FFS_RC_INVALID_SECTOR_NUMBER, d)
  | Some (k, s, rel) =>
      let '(rc, f) := drv_Erase (cells d) k s rel in
      (rc, mkDevice f (journal d ++ [IoErase Sector]))
  end.

(* ------------------------------------------------------------------ *)
(** ** Typed reads: a structure is filled only by a successful read *)

Definition read_header (d : device) (Sector : Z)
           (SecHead : option FFS_SECTOR_HEADER)
  : Z * option FFS_SECTOR_HEADER :=
  match ReadSector d Sector 0 sizeof_FFS_SECTOR_HEADER with
  | (rc, Some b) => (rc, Some (header_of_bytes b))
  | (rc, None) => (rc, SecHead)
  end.

Definition read_fnode (d : device) (Sector : Z) (Fn : option FFS_FILE_NODE)
  : Z * option FFS_FILE_NODE :=
  match ReadSector d Sector sizeof_FFS_SECTOR_HEADER sizeof_FFS_FILE_NODE with
  | (rc, Some b) => (rc, Some (fnode_of_bytes b))
  | (rc, None) => (rc, Fn)
  end.

Definition write_dev (w : world) (Sector Offset : Z) (Buffer : list Z)
           (Length : Z) : world :=
  set_dev (snd (WriteSector (dev w) Sector Offset Buffer Length)) w.

Definition erase_dev (w : world) (Sector : Z) : world :=
  set_dev (snd (EraseSector (dev w) Sector)) w.

(* ------------------------------------------------------------------ *)
(** ** File table *)

Definition Initialize (w : world) : world :=
  mkWorld (mkGlobals true (FileDescriptors (globals w))
                     (ErrorSectorCount (globals w)) (TotalSectors (globals w))
                     (TotalCrossChain (globals w)))
          (dev w).

(** [GetDescriptor]: [fd] runs from [fd0] over [k] entries. *)
Fixpoint GetDescriptor_from (k : nat) (fd : Z) (w : world) : Z * world :=
  match k with
  | O => (FFS_RC_TOO_MANY_OPEN_FILES, w)
  | S k' =>
      if InUse (FileDescriptors (globals w) fd) =? 0
      then (fd, put_entry w fd (set_InUse 1 zero_descriptor))
      else GetDescriptor_from k' (fd + 1) w
  end.

Definition GetDescriptor (w : world) : Z * world :=
  GetDescriptor_from (Z.to_nat FFS_MAX_FILE_DESCRIPTORS) 0 w.

(** [FreeDescriptor] is only called with a descriptor that passed the
    table access of its caller. *)
Definition FreeDescriptor (fd : Z) (w : world) : world :=
  put_entry w fd (set_InUse 0 (FileDescriptors (globals w) fd)).

(* ------------------------------------------------------------------ *)
(** ** Locating a file node *)

Fixpoint LocateFileNode_loop (fuel : nat) (d : device) (CompName : list Z)
         (Sector : Z) (SecHead : option FFS_SECTOR_HEADER)
         (Fn : option FFS_FILE_NODE) : outcome (option (Z * FFS_FILE_NODE)) :=
  match fuel with
  | O => OutOfFuel
  | S fuel' =>
      if ValidSector Sector then
        let SecHead := snd (read_header d Sector SecHead) in
        h <- need SecHead ;;
        if Status h =? FFS_SECTOR_HEADER_INUSE_FILENODE then
          let Fn := snd (read_fnode d Sector Fn) in
          fnode <- need Fn ;;
          match array_str (Filename fnode) with
          | None => Fault BufferOverrun
          | Some FnodeName =>
              if str_eqb (StringToUpperCase FnodeName) CompName
              then Ret (Some (Sector, fnode))
              else LocateFileNode_loop fuel' d CompName (ulong (Sector + 1))
                                       SecHead Fn
          end
        else LocateFileNode_loop fuel' d CompName (ulong (Sector + 1))
                                 SecHead Fn
      else Ret None
  end.

(** [LocateFileNode]: [Some (Sector, Fnode)] is the return value 1 with
    both outputs filled; [None] is the return value 0, which leaves
    [*RtnFnode] alone and stores -1 in [*RtnSector].  [CompName] has
    room for 64 characters and the NUL. *)
Definition LocateFileNode (fuel : nat) (d : device) (filename : list Z)
  : outcome (option (Z * FFS_FILE_NODE)) :=
  if strlen filename >? FFS_MAX_FILENAME_LENGTH then Fault BufferOverrun
  else LocateFileNode_loop fuel d (StringToUpperCase (c_str filename)) 0
                           None None.

(* ------------------------------------------------------------------ *)
(** ** Free-sector allocator *)

(** [FindFreeSector]: the result is (return value, *Sector, *SecHeader,
    *Section).  A sector without the key is taken as never used; the
    local [ErrorCount] is then 1. *)
Fixpoint FindFreeSector_loop (fuel : nat) (w : world) (Sector : Z)
         (SecHeader : option FFS_SECTOR_HEADER)
  : outcome (Z * Z * option FFS_SECTOR_HEADER * FFS_FLASH_SECTION * world) :=
  match fuel with
  | O => OutOfFuel
  | S fuel' =>
      match GetFlashSectionEntry Sector with
      | None => Ret (0, Sector, SecHeader, END_OF_TABLE, w)
      | Some (_, Section, _) =>
          let SecHeader := snd (read_header (dev w) Sector SecHeader) in
          h <- need SecHeader ;;
          if Key h =? FFS_SECTOR_HEADER_KEY then
            if (Status h =? FFS_SECTOR_HEADER_FREE)
               || (Status h =? FFS_SECTOR_HEADER_FREE_DIRTY)
            then Ret (1, Sector, SecHeader, Section, w)
            else FindFreeSector_loop fuel' w (ulong (Sector + 1)) SecHeader
          else
            let w := if 1 >? ErrorSectorCount (globals w)
                     then set_ErrorSectorCount 1 w else w in
            Ret (1, Sector, SecHeader, Section, w)
      end
  end.

Definition FindFreeSector (fuel : nat) (w : world)
           (SecHeader : option FFS_SECTOR_HEADER) :=
  FindFreeSector_loop fuel w 0 SecHeader.

(** The header [AllocateSector] and [AllocateSectorWithFilenode] build
    over the one just read. *)
Definition fresh_header (old : FFS_SECTOR_HEADER) (Section : FFS_FLASH_SECTION)
           (status offset : Z) : FFS_SECTOR_HEADER :=
  mkHeader FFS_SECTOR_HEADER_KEY MINUS_ONE (ulong (EraseCount old + 1))
           FFS_FILE_SYSTEM_VERSION status 0xffff
           (ulong (FlashSection.SectorSize Section)) offset.

Definition allocate (fuel : nat) (w : world)
           (SecHeader : option FFS_SECTOR_HEADER) (status offset : Z)
  : outcome (Z * Z * option FFS_SECTOR_HEADER * world) :=
  ' (found, NewSector, SecHeader, Section, w) <- FindFreeSector fuel w SecHeader ;;
  if found =? 0 then Ret (FFS_RC_OUT_OF_SPACE, NewSector, SecHeader, w)
  else
    old <- need SecHeader ;;
    let h := fresh_header old Section status offset in
    let w := erase_dev w NewSector in
    let w := write_dev w NewSector 0 (header_bytes h) sizeof_FFS_SECTOR_HEADER in
    Ret (0, NewSector, Some h, w).

Definition AllocateSector (fuel : nat) (w : world)
           (SecHeader : option FFS_SECTOR_HEADER) :=
  allocate fuel w SecHeader FFS_SECTOR_HEADER_INUSE sizeof_FFS_SECTOR_HEADER.

Definition AllocateSectorWithFilenode (fuel : nat) (w : world)
           (SecHeader : option FFS_SECTOR_HEADER) :=
  allocate fuel w SecHeader FFS_SECTOR_HEADER_INUSE_FILENODE
           (sizeof_FFS_SECTOR_HEADER + sizeof_FFS_FILE_NODE).

(* ------------------------------------------------------------------ *)
(** ** Chain manager *)

Fixpoint FreeSectors_loop (fuel : nat) (w : world) (Sector : Z)
         (SecHead : option FFS_SECTOR_HEADER) : outcome world :=
  match fuel with
  | O => OutOfFuel
  | S fuel' =>
      if Sector =? MINUS_ONE then Ret w
      else
        let SecHead := snd (read_header (dev w) Sector SecHead) in
        h <- need SecHead ;;
        let NextSector := Next h in
        let h := set_Status FFS_SECTOR_HEADER_FREE_DIRTY h in
        let w := write_dev w Sector offsetof_Version (status_word h) 4 in
        FreeSectors_loop fuel' w NextSector (Some h)
  end.

Definition FreeSectors (fuel : nat) (w : world) (Sector : Z) : outcome world :=
  FreeSectors_loop fuel w Sector None.

(** [LocatePosition]: the result is (return value, *Sector, *SecHead,
    *Offset); [SecHead] and [Offset] come in as the caller holds them. *)
Fixpoint LocatePosition_loop (fuel : nat) (d : device) (Position : Z)
         (Sector : Z) (SecHead : option FFS_SECTOR_HEADER) (Offset : option Z)
         (Count : Z)
  : outcome (Z * Z * option FFS_SECTOR_HEADER * option Z) :=
  match fuel with
  | O => OutOfFuel
  | S fuel' =>
      let '(rc, SecHead) := read_header d Sector SecHead in
      if rc <? 0 then Ret (rc, Sector, SecHead, Offset)
      else
        h <- need SecHead ;;
        let payload := ulong (SectorLength h - DataOffset h) in
        if Position <? ulong (Count + payload)
        then Ret (0, Sector, SecHead,
                  Some (ulong (DataOffset h + ulong (Position - Count))))
        else LocatePosition_loop fuel' d Position (Next h) SecHead Offset
                                 (ulong (Count + payload))
  end.

Definition LocatePosition (fuel : nat) (d : device) (Fdesc : FFS_FILE_DESCRIPTOR)
           (Position : Z) (SecHead : option FFS_SECTOR_HEADER)
           (Offset : option Z) :=
  LocatePosition_loop fuel d Position (FnodeSector Fdesc) SecHead Offset 0.

(* ------------------------------------------------------------------ *)
(** ** File operations *)

(** The sanity check [fd > FFS_MAX_FILE_DESCRIPTORS ||
    !FileDescriptors[fd].InUse] shared by [close], [read] and [write]:
    [None] when it rejects the descriptor. *)
Definition sanity_check (w : world) (fd : Z)
  : outcome (option FFS_FILE_DESCRIPTOR) :=
  if fd >? FFS_MAX_FILE_DESCRIPTORS then Ret None
  else
    e <- table_entry w fd ;;
    if InUse e =? 0 then Ret None else Ret (Some e).

(** The caller's buffer is a list and a cursor into it. *)
Definition peek (buf : list Z) (p len : Z) : outcome (list Z) :=
  if (0 <=? len) && (p + len <=? Z.of_nat (length buf))
  then Ret (firstn (Z.to_nat len) (skipn (Z.to_nat p) buf))
  else Fault BufferOverrun.

Definition poke (buf : list Z) (p : Z) (data : list Z) : outcome (list Z) :=
  if p + Z.of_nat (length data) <=? Z.of_nat (length buf)
  then Ret (firstn (Z.to_nat p) buf ++ data
            ++ skipn (Z.to_nat p + length data) buf)
  else Fault BufferOverrun.

Definition open (fuel : nat) (filename : list Z) (flags permissions : Z)
           (w : world) : outcome (Z * world) :=
  let w := if initializationComplete (globals w) then w else Initialize w in
  let '(fd, w) := GetDescriptor w in
  if fd <? 0 then Ret (fd, w)
  else
    Fdesc <- table_entry w fd ;;
    found <- LocateFileNode fuel (dev w) filename ;;
    let Fdesc :=
      match found with
      | Some (Sector, fnode) => set_FnodeSector Sector (set_Fnode fnode Fdesc)
      | None => set_FnodeSector MINUS_ONE Fdesc
      end in
    if (Z.land flags FFS_CREATE =? 0) && (FnodeSector Fdesc =? MINUS_ONE)
    then Ret (FFS_RC_FILE_DOES_NOT_EXIST, FreeDescriptor fd (put_entry w fd Fdesc))
    else
      let Fdesc :=
        if negb (flags =? 0) && negb (FFS_CREATE =? 0) then
          let '(CreateCount, Fdesc) :=
            if negb (FnodeSector Fdesc =? MINUS_ONE) then
              (ulong (Count (Fnode Fdesc) + 1),
               set_OldFnodeSector (FnodeSector Fdesc)
                                  (set_DeleteOldFile 1 Fdesc))
            else
              (0,
               set_Fnode
                 (set_Filename
                    (if strlen filename >=? sizeof_Filename
                     then memcpy_name (Filename (Fnode Fdesc)) filename 64
                     else strcpy (Filename (Fnode Fdesc)) filename)
                    (Fnode Fdesc))
                 Fdesc) in
          let Fdesc := set_FnodeSector MINUS_ONE Fdesc in
          set_Fnode (set_Count CreateCount
                       (set_Permissions (uchar permissions)
                          (set_FileSize 0 (Fnode Fdesc))))
                    Fdesc
        else Fdesc in
      let Fdesc := set_Flags (uchar flags) Fdesc in
      Ret (fd, put_entry w fd Fdesc).

Definition close (fuel : nat) (fd : Z) (w : world) : outcome (Z * world) :=
  chk <- sanity_check w fd ;;
  match chk with
  | None => Ret (FFS_RC_INVALID_FILE_DESCRIPTOR, w)
  | Some Fdesc =>
      let w := if negb (WriteFnode Fdesc =? 0)
               then write_dev w (FnodeSector Fdesc) sizeof_FFS_SECTOR_HEADER
                              (fnode_bytes (Fnode Fdesc)) sizeof_FFS_FILE_NODE
               else w in
      w <- (if negb (DeleteOldFile Fdesc =? 0)
            then FreeSectors fuel w (OldFnodeSector Fdesc)
            else Ret w) ;;
      Ret (0, FreeDescriptor fd w)
  end.

(** The [while( n )] loop of [read]; the result is the return value, the
    descriptor as the loop leaves it and the caller's buffer. *)
Fixpoint read_loop (fuel : nat) (d : device) (Fdesc : FFS_FILE_DESCRIPTOR)
         (Sector : Z) (SecHead : FFS_SECTOR_HEADER) (Offset : Z)
         (buf : list Z) (p : Z) (n : Z) (TotalRead : Z)
  : outcome (Z * FFS_FILE_DESCRIPTOR * list Z) :=
  match fuel with
  | O => OutOfFuel
  | S fuel' =>
      if n =? 0 then Ret (TotalRead, Fdesc, buf)
      else
        let RemLen := ulong (SectorLength SecHead - Offset) in
        let RemLen := if ulong n <? RemLen then ulong n else RemLen in
        buf <- match snd (ReadSector d Sector Offset (to_int RemLen)) with
               | Some data => poke buf p data
               | None => Ret buf
               end ;;
        let n := to_int (ulong n - RemLen) in
        let Fdesc := set_Position (ulong (Position Fdesc + RemLen)) Fdesc in
        let TotalRead := to_int (TotalRead + RemLen) in
        if n =? 0 then Ret (TotalRead, Fdesc, buf)
        else
          let p := p + RemLen in
          let Sector := Next SecHead in
          let '(rc, SecHead') := read_header d Sector (Some SecHead) in
          if rc <? 0 then Ret (rc, Fdesc, buf)
          else
            h <- need SecHead' ;;
            read_loop fuel' d Fdesc Sector h (DataOffset h) buf p n TotalRead
  end.

Definition read (fuel : nat) (fd : Z) (buf : list Z) (n : Z) (w : world)
  : outcome (Z * list Z * world) :=
  chk <- sanity_check w fd ;;
  match chk with
  | None => Ret (FFS_RC_INVALID_FILE_DESCRIPTOR, buf, w)
  | Some Fdesc =>
      if Position Fdesc >=? FileSize (Fnode Fdesc)
      then Ret (FFS_RC_INVALID_FILE_POSITION, buf, w)
      else
        ' (rc, Sector, SecHead, Offset) <-
            LocatePosition fuel (dev w) Fdesc (Position Fdesc) None None ;;
        if rc <? 0 then Ret (rc, buf, w)
        else
          h <- need SecHead ;;
          off <- need Offset ;;
          let left := ulong (FileSize (Fnode Fdesc) - Position Fdesc) in
          let n := if ulong n >? left then to_int left else n in
          ' (rc, Fdesc, buf) <- read_loop fuel (dev w) Fdesc Sector h off buf 0 n 0 ;;
          Ret (rc, buf, put_entry w fd Fdesc)
  end.

(** The [while( n )] loop of [write]. *)
Fixpoint write_loop (fuel : nat) (w : world) (Fdesc : FFS_FILE_DESCRIPTOR)
         (Sector : Z) (SecHead : FFS_SECTOR_HEADER) (Offset : Z)
         (buf : list Z) (p : Z) (n : Z) (TotalWritten : Z)
  : outcome (Z * FFS_FILE_DESCRIPTOR * world) :=
  match fuel with
  | O => OutOfFuel
  | S fuel' =>
      if n =? 0 then Ret (TotalWritten, Fdesc, w)
      else
        let RemLen := ulong (SectorLength SecHead - Offset) in
        let RemLen := if ulong n <? RemLen then ulong n else RemLen in
        data <- peek buf p (to_int RemLen) ;;
        let w := write_dev w Sector Offset data (to_int RemLen) in
        let n := to_int (ulong n - RemLen) in
        let Fdesc := set_Position (ulong (Position Fdesc + RemLen)) Fdesc in
        let TotalWritten := to_int (TotalWritten + RemLen) in
        let Fdesc :=
          if Position Fdesc >? FileSize (Fnode Fdesc)
          then set_Fnode (set_FileSize (Position Fdesc) (Fnode Fdesc)) Fdesc
          else Fdesc in
        if n =? 0 then Ret (TotalWritten, Fdesc, w)
        else
          let p := p + RemLen in
          ' (rc, NewSector, SecHead', w) <- AllocateSector fuel w (Some SecHead) ;;
          if negb (rc =? 0) then Ret (rc, Fdesc, w)
          else
            h <- need SecHead' ;;
            let w := write_dev w Sector offsetof_Next (le32 NewSector) 4 in
            write_loop fuel' w Fdesc NewSector h sizeof_FFS_SECTOR_HEADER
                       buf p n TotalWritten
  end.

Definition write (fuel : nat) (fd : Z) (buf : list Z) (n : Z) (w : world)
  : outcome (Z * world) :=
  chk <- sanity_check w fd ;;
  match chk with
  | None => Ret (FFS_RC_INVALID_FILE_DESCRIPTOR, w)
  | Some Fdesc =>
      if FnodeSector Fdesc =? MINUS_ONE then
        ' (rc, Sector, SecHead, w) <- AllocateSectorWithFilenode fuel w None ;;
        if negb (rc =? 0) then Ret (rc, w)
        else
          h <- need SecHead ;;
          let Fdesc := set_FnodeSector Sector (set_WriteFnode 1 Fdesc) in
          ' (rc, Fdesc, w) <-
              write_loop fuel w Fdesc Sector h
                         (sizeof_FFS_SECTOR_HEADER + sizeof_FFS_FILE_NODE)
                         buf 0 n 0 ;;
          Ret (rc, put_entry w fd Fdesc)
      else
        ' (rc, Sector, SecHead, Offset) <-
            LocatePosition fuel (dev w) Fdesc (Position Fdesc) None None ;;
        if rc <? 0 then Ret (rc, w)
        else
          h <- need SecHead ;;
          off <- need Offset ;;
          ' (rc, Fdesc, w) <- write_loop fuel w Fdesc Sector h off buf 0 n 0 ;;
          Ret (rc, put_entry w fd Fdesc)
  end.

Definition Erase (fuel : nat) (filename : list Z) (w : world)
  : outcome (Z * world) :=
  let w := if initializationComplete (globals w) then w else Initialize w in
  found <- LocateFileNode fuel (dev w) filename ;;
  match found with
  | None => Ret (FFS_RC_FILE_NOT_FOUND, w)
  | Some (Sector, _) =>
      w <- FreeSectors fuel w Sector ;;
      Ret (0, w)
  end.

(** The copy loop of [Rename]: [Buffer] is the 100-byte local. *)
Fixpoint Rename_copy (fuel : nat) (w : world) (Sector NewSector : Z)
         (Offset Length : Z) (Buffer : option (list Z)) : outcome world :=
  match fuel with
  | O => OutOfFuel
  | S fuel' =>
      if Length =? 0 then Ret w
      else
        let n := if Length <? 100 then to_int Length else 100 in
        let Buffer :=
          match snd (ReadSector (dev w) Sector Offset n) with
          | Some data => Some (data ++ skipn (length data)
                                        (match Buffer with
                                         | Some b => b
                                         | None => []
                                         end))
          | None => Buffer
          end in
        data <- need Buffer ;;
        let w := write_dev w NewSector Offset data n in
        Rename_copy fuel' w Sector NewSector (ulong (Offset + n))
                    (ulong (Length - n)) Buffer
  end.

Definition Rename (fuel : nat) (filename new_filename : list Z) (w : world)
  : outcome (Z * world) :=
  let w := if initializationComplete (globals w) then w else Initialize w in
  found <- LocateFileNode fuel (dev w) filename ;;
  match found with
  | None => Ret (FFS_RC_FILE_NOT_FOUND, w)
  | Some (Sector, fnode) =>
      found_new <- LocateFileNode fuel (dev w) new_filename ;;
      match found_new with
      | Some _ => Ret (FFS_RC_NEW_NAME_EXISTS, w)
      | None =>
          SecHead <- need (snd (read_header (dev w) Sector None)) ;;
          let Length := ulong (SectorLength SecHead - DataOffset SecHead) in
          let NextSector := Next SecHead in
          ' (rc, NewSector, SecHead', w) <-
              AllocateSectorWithFilenode fuel w (Some SecHead) ;;
          if negb (rc =? 0) then Ret (rc, w)
          else
            SecHead <- need SecHead' ;;
            if negb (Length =? ulong (SectorLength SecHead - DataOffset SecHead))
            then
              w <- FreeSectors fuel w NewSector ;;
              Ret (FFS_RC_OUT_OF_SPACE, w)
            else
              w <- Rename_copy fuel w Sector NewSector (DataOffset SecHead)
                               Length None ;;
              let fnode :=
                set_Filename
                  (if strlen new_filename >=? sizeof_Filename
                   then memcpy_name (Filename fnode) new_filename 64
                   else strcpy (Filename fnode) new_filename)
                  fnode in
              let w := write_dev w NewSector sizeof_FFS_SECTOR_HEADER
                                 (fnode_bytes fnode) sizeof_FFS_FILE_NODE in
              let w := if negb (NextSector =? MINUS_ONE)
                       then write_dev w NewSector offsetof_Next
                                      (le32 NextSector) 4
                       else w in
              let SecHead := set_Status FFS_SECTOR_HEADER_FREE_DIRTY SecHead in
              let w := write_dev w Sector offsetof_Version
                                 (status_word SecHead) 4 in
              Ret (0, w)
      end
  end.

(* ------------------------------------------------------------------ *)
(** ** Checker *)

(** The byte-per-sector map allocated by [Check]; it has [TotalSectors]
    entries. *)
Definition sector_array := Z -> Z.

Definition array_get (total : Z) (a : sector_array) (i : Z) : outcome Z :=
  if (0 <=? i) && (i <? total) then Ret (a i)
  else Fault (SectorArrayOutOfRange i).

Definition array_or (a : sector_array) (i flag : Z) : sector_array :=
  fun j => if j =? i then Z.lor (a j) flag else a j.

Definition has_flag (v flag : Z) : bool := negb (Z.land v flag =? 0).

(** [TotalSectors]: the sum of [Count] over the entries before the
    terminating one. *)
Fixpoint count_sectors (tbl : list FFS_FLASH_SECTION) (total : Z) : Z :=
  match tbl with
  | [] => total
  | s :: rest =>
      if FlashSection.Device s =? 0xff then total
      else count_sectors rest (ulong (total + FlashSection.Count s))
  end.

(** [StringToUpperCase] applied to a character array in place. *)
Definition upper_array (a : list Z) : outcome (list Z) :=
  match array_str a with
  | Some s => Ret (StringToUpperCase s ++ skipn (length s) a)
  | None => Fault BufferOverrun
  end.

Definition strcmp_eq (a b : list Z) : bool := str_eqb (c_str a) (c_str b).

Definition add_cross_chain (w : world) : world :=
  set_check_totals (TotalSectors (globals w))
                   (ulong (TotalCrossChain (globals w) + 1))
                   (ErrorSectorCount (globals w)) w.

(** The chain walk of the first pass of [Check]. *)
Fixpoint Check_chain (fuel : nat) (w : world) (a : sector_array)
         (NextSector : Z) (SecHeader : option FFS_SECTOR_HEADER)
  : outcome (sector_array * option FFS_SECTOR_HEADER * world) :=
  match fuel with
  | O => OutOfFuel
  | S fuel' =>
      if NextSector =? MINUS_ONE then Ret (a, SecHeader, w)
      else
        let SecHeader := snd (read_header (dev w) NextSector SecHeader) in
        v <- array_get (TotalSectors (globals w)) a NextSector ;;
        let w := if has_flag v CHECK_SECTOR_FREE || has_flag v CHECK_SECTOR_FNODE
                    || has_flag v CHECK_SECTOR_BAD
                 then add_cross_chain w else w in
        let a := array_or a NextSector CHECK_SECTOR_INUSE in
        h <- need SecHeader ;;
        Check_chain fuel' w a (Next h) SecHeader
  end.

(** First pass: classify every sector; [k] sectors remain from [Sector]. *)
Fixpoint Check_classify (k : nat) (fuel : nat) (w : world) (a : sector_array)
         (Sector : Z) (SecHeader : option FFS_SECTOR_HEADER)
         (Fn : option FFS_FILE_NODE)
  : outcome (sector_array * option FFS_SECTOR_HEADER * option FFS_FILE_NODE
             * world) :=
  match k with
  | O => Ret (a, SecHeader, Fn, w)
  | S k' =>
      let SecHeader := snd (read_header (dev w) Sector SecHeader) in
      h <- need SecHeader ;;
      let a :=
        if negb (Key h =? FFS_SECTOR_HEADER_KEY)
           && negb (Status h =? FFS_SECTOR_HEADER_FREE)
           && negb (Status h =? FFS_SECTOR_HEADER_FREE_DIRTY)
        then array_or a Sector CHECK_SECTOR_BAD else a in
      ' (a, SecHeader, Fn, w) <-
        (if (Status h =? FFS_SECTOR_HEADER_FREE)
            || (Status h =? FFS_SECTOR_HEADER_FREE_DIRTY)
         then Ret (array_or a Sector CHECK_SECTOR_FREE, SecHeader, Fn, w)
         else if Status h =? FFS_SECTOR_HEADER_INUSE
         then Ret (a, SecHeader, Fn, w)
         else if Status h =? FFS_SECTOR_HEADER_INUSE_FILENODE
         then
           let Fn := snd (read_fnode (dev w) Sector Fn) in
           fnode <- need Fn ;;
           if (FileSize fnode =? 0) || (FileSize fnode =? MINUS_ONE)
           then Ret (array_or a Sector CHECK_SECTOR_BAD, SecHeader, Fn, w)
           else
             ' (a, SecHeader, w) <-
               Check_chain fuel w (array_or a Sector CHECK_SECTOR_FNODE)
                           (Next h) SecHeader ;;
             Ret (a, SecHeader, Fn, w)
         else Ret (a, SecHeader, Fn, w)) ;;
      Check_classify k' fuel w a (ulong (Sector + 1)) SecHeader Fn
  end.

(** Second pass: reclaim the sectors no chain accounts for. *)
Fixpoint Check_reclaim (k : nat) (w : world) (a : sector_array) (Sector : Z)
         (SecHeader : option FFS_SECTOR_HEADER) (TotalFixedSectors : Z)
  : outcome (option FFS_SECTOR_HEADER * Z * world) :=
  match k with
  | O => Ret (SecHeader, TotalFixedSectors, w)
  | S k' =>
      let v := a Sector in
      if negb (has_flag v CHECK_SECTOR_INUSE)
         && negb (has_flag v CHECK_SECTOR_FNODE)
         && negb (has_flag v CHECK_SECTOR_FREE)
      then
        if negb (has_flag v CHECK_SECTOR_BAD) then
          let SecHeader := snd (read_header (dev w) Sector SecHeader) in
          h <- need SecHeader ;;
          let h := set_Status FFS_SECTOR_HEADER_FREE_DIRTY h in
          let w := write_dev w Sector 0 (header_bytes h)
                             sizeof_FFS_SECTOR_HEADER in
          Check_reclaim k' w a (ulong (Sector + 1)) (Some h)
                        (to_int (TotalFixedSectors + 1))
        else
          let w := erase_dev w Sector in
          Check_reclaim k' w a (ulong (Sector + 1)) SecHeader
                        (to_int (TotalFixedSectors + 1))
      else Check_reclaim k' w a (ulong (Sector + 1)) SecHeader TotalFixedSectors
  end.

(** The deletion loop of the third pass.  It keeps its position in
    [NextSector], the variable that also drives the enclosing [for]; the
    result carries [NextSector] as the loop leaves it. *)
Fixpoint Check_delete (fuel : nat) (w : world) (DeleteSector NextSector : Z)
         (SecHeader : option FFS_SECTOR_HEADER) (TotalFixedSectors : Z)
  : outcome (Z * option FFS_SECTOR_HEADER * Z * world) :=
  match fuel with
  | O => OutOfFuel
  | S fuel' =>
      if DeleteSector =? MINUS_ONE
      then Ret (NextSector, SecHeader, TotalFixedSectors, w)
      else
        let SecHeader := snd (read_header (dev w) DeleteSector SecHeader) in
        h <- need SecHeader ;;
        let NextSector := Next h in
        let h := set_Status FFS_SECTOR_HEADER_FREE_DIRTY h in
        let w := write_dev w DeleteSector offsetof_Version (status_word h) 4 in
        Check_delete fuel' w NextSector NextSector (Some h)
                     (to_int (TotalFixedSectors + 1))
  end.

(** The inner [for] of the third pass, from [NextSector] on. *)
Fixpoint Check_duplicates_of (fuel : nat) (w : world) (Sector : Z)
         (fnode : FFS_FILE_NODE) (NextSector : Z)
         (SecHeader : option FFS_SECTOR_HEADER)
         (NextFnode : option FFS_FILE_NODE) (TotalFixedSectors : Z)
  : outcome (option FFS_SECTOR_HEADER * FFS_FILE_NODE * option FFS_FILE_NODE
             * Z * world) :=
  match fuel with
  | O => OutOfFuel
  | S fuel' =>
      if NextSector <? TotalSectors (globals w) then
        let SecHeader := snd (read_header (dev w) NextSector SecHeader) in
        h <- need SecHeader ;;
        if Status h =? FFS_SECTOR_HEADER_INUSE_FILENODE then
          let NextFnode := snd (read_fnode (dev w) NextSector NextFnode) in
          nf <- need NextFnode ;;
          name <- upper_array (Filename fnode) ;;
          next_name <- upper_array (Filename nf) ;;
          let fnode := set_Filename name fnode in
          let nf := set_Filename next_name nf in
          if strcmp_eq name next_name then
            let DeleteSector :=
              if Count fnode <? Count nf then Sector else NextSector in
            ' (NextSector, SecHeader, TotalFixedSectors, w) <-
              Check_delete fuel w DeleteSector NextSector SecHeader
                           TotalFixedSectors ;;
            if Count fnode <? Count nf
            then Ret (SecHeader, fnode, Some nf, TotalFixedSectors, w)
            else Check_duplicates_of fuel' w Sector fnode
                                     (ulong (NextSector + 1)) SecHeader
                                     (Some nf) TotalFixedSectors
          else Check_duplicates_of fuel' w Sector fnode (ulong (NextSector + 1))
                                   SecHeader (Some nf) TotalFixedSectors
        else Check_duplicates_of fuel' w Sector fnode (ulong (NextSector + 1))
                                 SecHeader NextFnode TotalFixedSectors
      else Ret (SecHeader, fnode, NextFnode, TotalFixedSectors, w)
  end.

(** Third pass: the outer [for] over the file nodes. *)
Fixpoint Check_duplicates (k : nat) (fuel : nat) (w : world) (Sector : Z)
         (SecHeader : option FFS_SECTOR_HEADER) (Fn NextFnode : option FFS_FILE_NODE)
         (TotalFixedSectors : Z) : outcome (Z * world) :=
  match k with
  | O => Ret (TotalFixedSectors, w)
  | S k' =>
      let SecHeader := snd (read_header (dev w) Sector SecHeader) in
      h <- need SecHeader ;;
      if Status h =? FFS_SECTOR_HEADER_INUSE_FILENODE then
        let Fn := snd (read_fnode (dev w) Sector Fn) in
        fnode <- need Fn ;;
        ' (SecHeader, fnode, NextFnode, TotalFixedSectors, w) <-
          Check_duplicates_of fuel w Sector fnode (ulong (Sector + 1))
                              SecHeader NextFnode TotalFixedSectors ;;
        Check_duplicates k' fuel w (ulong (Sector + 1)) SecHeader (Some fnode)
                         NextFnode TotalFixedSectors
      else Check_duplicates k' fuel w (ulong (Sector + 1)) SecHeader Fn
                            NextFnode TotalFixedSectors
  end.

Definition Check (fuel : nat) (w : world) : outcome (Z * world) :=
  let w := if initializationComplete (globals w) then w else Initialize w in
  let total := count_sectors FlashSectionTable 0 in
  let w := set_check_totals total 0 0 w in
  let k := Z.to_nat total in
  ' (a, SecHeader, Fn, w) <- Check_classify k fuel w (fun _ => 0) 0 None None ;;
  ' (SecHeader, fixed, w) <- Check_reclaim k w a 0 SecHeader 0 ;;
  Check_duplicates k fuel w 0 SecHeader Fn None fixed.

End Engine.

(* ------------------------------------------------------------------ *)
(** * Volumes and sessions used by the statements *)

(** Flash as it leaves the factory or a full erase: every byte 0xFF. *)
Definition virgin : flash := fun _ _ _ => 0xFF.

(** The global object at start-up (static storage is zeroed) over a
    medium [f]. *)
Definition power_on (f : flash) : world :=
  mkWorld (mkGlobals false (fun _ => zero_descriptor) 0 0 0) (mkDevice f []).

(** One section of four 128-byte sectors. *)
Definition small_table : list FFS_FLASH_SECTION := [FlashSection.mk 0 0 4 128].

(** Two sections, of two and of three 128-byte sectors. *)
Definition two_sections : list FFS_FLASH_SECTION :=
  [FlashSection.mk 0 0 2 128; FlashSection.mk 1 0 3 128].

Definition name_a : list Z := [97].
Definition name_b : list Z := [98].
Definition name_f : list Z := [102].

(** [open(name, CREATE)], one [write] of [data], [close]. *)
Definition create_file (tbl : list FFS_FLASH_SECTION) (fuel : nat)
           (name data : list Z) (w : world) : outcome world :=
  ' (fd, w) <- open tbl fuel name FFS_CREATE 0 w ;;
  ' (_, w) <- write tbl fuel fd data (Z.of_nat (length data)) w ;;
  ' (_, w) <- close tbl fuel fd w ;;
  Ret w.

(** [close] interrupted by a power loss after it has written the file
    node and before it frees the old chain. *)
Definition close_interrupted (tbl : list FFS_FLASH_SECTION) (fd : Z) (w : world)
  : outcome world :=
  e <- table_entry w fd ;;
  Ret (write_dev tbl w (FnodeSector e) sizeof_FFS_SECTOR_HEADER
                 (fnode_bytes (Fnode e)) sizeof_FFS_FILE_NODE).

(** The header fields and file-node fields found on the medium. *)
Definition status_on_media (tbl : list FFS_FLASH_SECTION) (w : world) (g : Z)
  : option Z :=
  option_map Status (snd (read_header tbl (dev w) g None)).

Definition fnode_on_media (tbl : list FFS_FLASH_SECTION) (w : world) (g : Z)
  : option FFS_FILE_NODE :=
  snd (read_fnode tbl (dev w) g None).

(** File "f" created three times over; the third [close] is interrupted.
    The first version went to sector 0, the second to sector 1 (and
    sector 0 was freed), the third to sector 0 again: sector 0 now holds
    generation 2, sector 1 generation 1, both named "f". *)
Definition volume_newer_first : outcome world :=
  w <- create_file small_table 8 name_f [1] (power_on virgin) ;;
  w <- create_file small_table 8 name_f [2] w ;;
  ' (fd, w) <- open small_table 8 name_f FFS_CREATE 0 w ;;
  ' (_, w) <- write small_table 8 fd [3] 1 w ;;
  close_interrupted small_table fd w.

(** File "a" holding three bytes. *)
Definition volume_with_a : outcome world :=
  create_file small_table 8 name_a [1; 2; 3] (power_on virgin).

(** A file created on a virgin volume and filled to the last byte of its
    head sector (128 - 24 - 80 = 24 bytes), still open. *)
Definition session_head_full : outcome (Z * world) :=
  ' (fd, w) <- open small_table 8 name_a FFS_CREATE 0 (power_on virgin) ;;
  ' (_, w) <- write small_table 8 fd (repeat 7 24) 24 w ;;
  Ret (fd, w).

(* ------------------------------------------------------------------ *)
(** * Notions used by the statements *)

(** Two media that hold the same bytes. *)
Definition same_cells (f f' : flash) : Prop := forall k r o, f k r o = f' k r o.

(** The header decoded from the first 24 bytes [f 0 .. f 23] of a sector. *)
Definition header_at (f : Z -> Z) : FFS_SECTOR_HEADER :=
  header_of_bytes (map (fun i => f (0 + Z.of_nat i)) (seq 0 24)).

(** Bytes 12 to 15 of a sector (Version, Status, SectorChecksum) as the
    status write of [FreeSectors] leaves them. *)
Definition settled (f : flash) (k : nat) (r : Z) : Prop :=
  0 <= f k r 12 < 256 /\ f k r 13 = 0
  /\ 0 <= f k r 14 < 256 /\ 0 <= f k r 15 < 256.

Section Chains.
Variable T : list FFS_FLASH_SECTION.

(** Sector [g] can be read and its header names [n] as the next sector. *)
Definition link (d : device) (g n : Z) : Prop :=
  exists rc h, read_header T d g None = (rc, Some h) /\ Next h = n.

(** A well-formed chain: the sectors met from a head by following Next,
    every one readable, up to the end-of-chain marker. *)
Inductive chain (d : device) : Z -> list Z -> Prop :=
| chain_end : chain d MINUS_ONE []
| chain_step g n l :
    g <> MINUS_ONE -> link d g n -> chain d n l -> chain d g (g :: l).

Definition settled_at (d : device) (g : Z) : Prop :=
  forall k s r, GetFlashSectionEntry T g = Some (k, s, r) -> settled (cells d) k r.

(** The status write of [FreeSectors] on the header it has just read. *)
Definition mark (w : world) (g : Z) (h : FFS_SECTOR_HEADER) : world :=
  write_dev T w g offsetof_Version
            (status_word (set_Status FFS_SECTOR_HEADER_FREE_DIRTY h)) 4.

End Chains.

(** The journal of the loop of [write] from a current sector [cur]: the
    data written to [cur]; then, when data remains, the erase and the
    header of a new sector, the patch of [cur]'s Next field, and the
    journal of the loop continuing in the new sector. *)
Inductive chained_writes : Z -> list io_event -> Prop :=
| cw_none cur : chained_writes cur []
| cw_last cur off data : chained_writes cur [IoWrite cur off data]
| cw_more cur off data new h rest :
    Status h = FFS_SECTOR_HEADER_INUSE ->
    Next h = MINUS_ONE ->
    chained_writes new rest ->
    chained_writes cur
      (IoWrite cur off data
       :: IoErase new :: IoWrite new 0 (header_bytes h)
       :: IoWrite cur offsetof_Next (le32 new)
       :: rest).

(** The journal of one [write]: the loop's journal, after the erase and
    the header of the head sector when the file had none. *)
Definition write_events (evs : list io_event) : Prop :=
  (exists cur, chained_writes cur evs)
  \/ (exists cur h rest,
         evs = IoErase cur :: IoWrite cur 0 (header_bytes h) :: rest
         /\ Status h = FFS_SECTOR_HEADER_INUSE_FILENODE
         /\ chained_writes cur rest).

(** "Filled, then chained": once a sector's Next field has been patched
    to point at [new], no data is written to [new] any more. *)
Definition filled_before_chained (evs : list io_event) : Prop :=
  forall pre post cur new,
    evs = pre ++ IoWrite cur offsetof_Next (le32 new) :: post ->
    forall off data,
      sizeof_FFS_SECTOR_HEADER <= off -> ~ In (IoWrite new off data) post.

Definition is_write_to (g : Z) (e : io_event) : Prop :=
  exists o d, e = IoWrite g o d.

(** File "a" just opened for creation on a virgin volume, and the same
    session after a [write] of 30 bytes, which needs a second sector. *)
Definition session_opened : world :=
  match open small_table 8 name_a FFS_CREATE 0 (power_on virgin) with
  | Ret (_, w) => w
  | _ => power_on virgin
  end.

Definition session_two_sectors : world :=
  match write small_table 8 0 (repeat 7 30) 30 session_opened with
  | Ret (_, w) => w
  | _ => session_opened
  end.

(** The volume holding file "a", and the same after [Rename("a", "b")]. *)
Definition volume_a : world :=
  match volume_with_a with Ret w => w | _ => power_on virgin end.

Definition volume_a_renamed : world :=
  match Rename small_table 8 name_a name_b volume_a with
  | Ret (_, w) => w
  | _ => volume_a
  end.

Unset Implicit Arguments.

(* ------------------------------------------------------------------ *)
(** * Views of the medium, layouts and sessions used by the round-trip proofs *)

(** Every sector holds a header and a file node, and its size fits an [int]. *)
Definition table_ok (T : list FFS_FLASH_SECTION) : Prop :=
  Forall (fun s => sizeof_FFS_SECTOR_HEADER + sizeof_FFS_FILE_NODE
                   <= FlashSection.SectorSize s < 2 ^ 31) T.

(** Every cell of the medium holds a byte. *)
Definition flash_ok (f : flash) : Prop := forall k r o, 0 <= f k r o < 256.

Definition is_byte (b : Z) : Prop := 0 <= b < 256.

Section ViewDefs.
Variable T : list FFS_FLASH_SECTION.

(** The byte at offset [o] of global sector [g], and the sector's size. *)
Definition sector_byte (d : device) (g o : Z) : Z :=
  match GetFlashSectionEntry T g with
  | Some (k, _, rel) => cells d k rel o
  | None => 0xFF
  end.

Definition sector_size (g : Z) : Z :=
  match GetFlashSectionEntry T g with
  | Some (_, s, _) => FlashSection.SectorSize s
  | None => 0
  end.

Definition header_of (d : device) (g : Z) : FFS_SECTOR_HEADER :=
  header_at (sector_byte d g).

Definition fnode_of (d : device) (g : Z) : FFS_FILE_NODE :=
  fnode_of_bytes (map (fun i => sector_byte d g (sizeof_FFS_SECTOR_HEADER + Z.of_nat i))
                      (seq 0 80)).

End ViewDefs.

Definition is_u32 (v : Z) : Prop := 0 <= v < 2 ^ 32.

Definition header_ok (h : FFS_SECTOR_HEADER) : Prop :=
  is_u32 (Key h) /\ is_u32 (Next h) /\ is_u32 (EraseCount h)
  /\ is_byte (Version h) /\ is_byte (Status h)
  /\ 0 <= SectorChecksum h < 65536
  /\ is_u32 (SectorLength h) /\ is_u32 (DataOffset h).

Definition fnode_ok (f : FFS_FILE_NODE) : Prop :=
  is_byte (Permissions f)
  /\ length (Filename f) = 65%nat /\ Forall is_byte (Filename f)
  /\ length (FnodePad f) = 2%nat /\ Forall is_byte (FnodePad f)
  /\ is_u32 (FileSize f) /\ is_u32 (DataTime f) /\ is_u32 (Count f).

Section ScanDefs.
Variable T : list FFS_FLASH_SECTION.

(** What the directory scan sees in sector [g]: no file node, or the
    upper-cased name of its file node. *)
Definition name_at (d : device) (g : Z) : outcome (option (list Z)) :=
  if Status (header_of T d g) =? FFS_SECTOR_HEADER_INUSE_FILENODE
  then match array_str (Filename (fnode_of T d g)) with
       | Some s => Ret (Some (StringToUpperCase s))
       | None => Fault BufferOverrun
       end
  else Ret None.

(** The scan for [CompName] passes over sector [g]. *)
Definition passes (d : device) (CompName : list Z) (g : Z) : Prop :=
  name_at d g = Ret None
  \/ exists s, name_at d g = Ret (Some s) /\ str_eqb s CompName = false.

(** The scan for [CompName] stops at sector [g]. *)
Definition hits (d : device) (CompName : list Z) (g : Z) : Prop :=
  exists s, name_at d g = Ret (Some s) /\ str_eqb s CompName = true.

(** The allocator passes over sector [g]: it has the key and is in use. *)
Definition busy (d : device) (g : Z) : Prop :=
  Key (header_of T d g) = FFS_SECTOR_HEADER_KEY
  /\ Status (header_of T d g) <> FFS_SECTOR_HEADER_FREE
  /\ Status (header_of T d g) <> FFS_SECTOR_HEADER_FREE_DIRTY.

End ScanDefs.

Section ScanShapes.
Variable T : list FFS_FLASH_SECTION.

Definition scan_result (d : device) (cn : list Z) (j : Z) (m : nat)
           (r : option (Z * FFS_FILE_NODE)) : Prop :=
  match r with
  | None => ValidSector T (ulong (j + Z.of_nat m)) = false
  | Some (g, f) =>
      g = ulong (j + Z.of_nat m) /\ ValidSector T g = true
      /\ hits T d cn g /\ f = fnode_of T d g
  end.

Definition scan_prefix (P : Z -> Prop) (j : Z) (m : nat) : Prop :=
  forall i : nat, (i < m)%nat ->
    ValidSector T (ulong (j + Z.of_nat i)) = true /\ P (ulong (j + Z.of_nat i)).

End ScanShapes.

Section LayoutDefs.
Variable T : list FFS_FLASH_SECTION.

(** Where the payload of sector [g] of a new file starts: after the
    header and the file node in the head sector 0, after the header
    elsewhere. *)
Definition data_off (g : Z) : Z :=
  if g =? 0
  then sizeof_FFS_SECTOR_HEADER + sizeof_FFS_FILE_NODE
  else sizeof_FFS_SECTOR_HEADER.

Definition capacity (g : Z) : Z := sector_size T g - data_off g.

(** The file position at which the payload of sector [n] starts when the
    file occupies sectors 0, 1, 2, ... in this order. *)
Fixpoint base_n (n : nat) : Z :=
  match n with
  | O => 0
  | S n' => base_n n' + capacity (Z.of_nat n')
  end.

Definition base (g : Z) : Z := base_n (Z.to_nat g).

(** The header of sector [g] when the file occupies sectors 0 .. k-1. *)
Definition header_img (k g : Z) : FFS_SECTOR_HEADER :=
  mkHeader FFS_SECTOR_HEADER_KEY
           (if g + 1 <? k then g + 1 else MINUS_ONE)
           0 FFS_FILE_SYSTEM_VERSION
           (if g =? 0 then FFS_SECTOR_HEADER_INUSE_FILENODE
            else FFS_SECTOR_HEADER_INUSE)
           0xffff (sector_size T g) (data_off g).

(** The medium after [D] has been written to a new file on a virgin
    volume: sectors 0 .. k-1 carry their headers and the data, the file
    node area of sector 0 and everything else is still erased. *)
Definition image (k : Z) (D : list Z) (g o : Z) : Z :=
  if (0 <=? g) && (g <? k) && (0 <=? o) then
    if o <? sizeof_FFS_SECTOR_HEADER
    then nth (Z.to_nat o) (header_bytes (header_img k g)) 0xFF
    else if o <? data_off g then 0xFF
    else if (o <? sector_size T g)
            && (base g + (o - data_off g) <? Z.of_nat (length D))
         then nth (Z.to_nat (base g + (o - data_off g))) D 0xFF
         else 0xFF
  else 0xFF.

(** The same once [close] has written the file node [fn]. *)
Definition image_closed (k : Z) (D : list Z) (fn : FFS_FILE_NODE) (g o : Z) : Z :=
  if (g =? 0) && (sizeof_FFS_SECTOR_HEADER <=? o) && (o <? data_off 0)
  then nth (Z.to_nat (o - sizeof_FFS_SECTOR_HEADER)) (fnode_bytes fn) 0xFF
  else image k D g o.

Definition shows (d : device) (img : Z -> Z -> Z) : Prop :=
  forall g o, 0 <= g < 2 ^ 32 -> ValidSector T g = true ->
              sector_byte T d g o = img g o.

Definition prefix_valid (k : Z) : Prop :=
  forall i, 0 <= i < k -> ValidSector T i = true.

End LayoutDefs.

(** The descriptor after the cursor and the file size have moved to [P]. *)
Definition advance (P : Z) (e : FFS_FILE_DESCRIPTOR) : FFS_FILE_DESCRIPTOR :=
  set_Fnode (set_FileSize P (Fnode e)) (set_Position P e).

Section HoldsDef.
Variable T : list FFS_FLASH_SECTION.

(** What reading needs of the medium: the headers of sectors 0 .. k-1 and
    the bytes of [D] in their payloads. *)
Definition holds (d : device) (k : Z) (D : list Z) : Prop :=
  (forall g, 0 <= g < k -> header_of T d g = header_img T k g)
  /\ (forall g o, 0 <= g < k -> data_off g <= o < sector_size T g ->
        base T g + (o - data_off g) < Z.of_nat (length D) ->
        sector_byte T d g o
        = nth (Z.to_nat (base T g + (o - data_off g))) D 0xFF).

End HoldsDef.

(** The file node [open] prepares for a new file and [close] writes. *)
Definition new_fnode (name : list Z) (perms size : Z) : FFS_FILE_NODE :=
  mkFnode (uchar perms) (strcpy (repeat 0 65%nat) name) [0; 0] size 0 0.

Section SessionDefs.
Variable T : list FFS_FLASH_SECTION.
Variable F : nat.

(** Descriptor [fd] is writing a new file [name] whose bytes so far are
    [D], on a volume that held nothing before. *)
Definition writing (name : list Z) (perms : Z) (fd : Z) (w : world)
           (D : list Z) : Prop :=
  let e := FileDescriptors (globals w) fd in
  0 <= fd < FFS_MAX_FILE_DESCRIPTORS
  /\ InUse e <> 0 /\ DeleteOldFile e = 0
  /\ Position e = Z.of_nat (length D)
  /\ Fnode e = new_fnode name perms (Z.of_nat (length D))
  /\ ((FnodeSector e = MINUS_ONE /\ D = [] /\ shows T (dev w) (image T 0 []))
      \/ (FnodeSector e = 0 /\ WriteFnode e = 1
          /\ exists k, 1 <= k <= Z.of_nat F /\ prefix_valid T k
               /\ shows T (dev w) (image T k D)
               /\ base T (k - 1) <= Z.of_nat (length D) <= base T k)).

(** A run of successful [write] calls on descriptor [fd], one per buffer. *)
Inductive written (fd : Z) : list (list Z) -> world -> world -> Prop :=
| written_nil w : written fd [] w w
| written_cons buf bufs w w1 w2 :
    write T F fd buf (Z.of_nat (length buf)) w
    = Ret (Z.of_nat (length buf), w1) ->
    written fd bufs w1 w2 ->
    written fd (buf :: bufs) w w2.

End SessionDefs.

(** The session of [session_two_sectors] closed. *)
Definition session_closed : world :=
  match close small_table 8 0 session_two_sectors with
  | Ret (_, w) => w
  | _ => session_two_sectors
  end.

(** File "a" created with one [write] of no bytes, closed and opened
    again for reading. *)
Definition session_empty_written : world :=
  match write small_table 8 0 [] 0 session_opened with
  | Ret (_, w) => w
  | _ => session_opened
  end.

Definition session_empty_closed : world :=
  match close small_table 8 0 session_empty_written with
  | Ret (_, w) => w
  | _ => session_empty_written
  end.

Definition session_empty_reopened : world :=
  match open small_table 8 name_a FFS_RDONLY 0 session_empty_closed with
  | Ret (_, w) => w
  | _ => session_empty_closed
  end.

(** [lia] reads [mod] and [/] through their defining equations. *)
Ltac Zify.zify_post_hook ::= Z.div_mod_to_equations.

(* ------------------------------------------------------------------ *)
(** * Files, chains and media that read alike, used by the Rename proofs *)

(** Two headers that send a reader the same way. *)
Definition same_route (h h' : FFS_SECTOR_HEADER) : Prop :=
  SectorLength h = SectorLength h' /\ DataOffset h = DataOffset h'
  /\ Next h = Next h'.

Section FileDefs.
Variable T : list FFS_FLASH_SECTION.

(** The sectors a reader comes to from sector [g] by following [Next]
    through valid sectors. *)
Inductive follows (d : device) : Z -> Z -> Prop :=
| follows_here g : follows d g g
| follows_next g g' :
    ValidSector T g = true ->
    follows d (Next (header_of T d g)) g' ->
    follows d g g'.

(** The head sector [S] of a file carries the key, its own length and
    the payload offset of a head sector. *)
Definition head_ok (d : device) (S : Z) : Prop :=
  Key (header_of T d S) = FFS_SECTOR_HEADER_KEY
  /\ SectorLength (header_of T d S) = sector_size T S
  /\ DataOffset (header_of T d S)
     = sizeof_FFS_SECTOR_HEADER + sizeof_FFS_FILE_NODE.

(** Every sector chained behind the head [S] is in use. *)
Definition tail_in_use (d : device) (S : Z) : Prop :=
  forall g, follows d (Next (header_of T d S)) g ->
            ValidSector T g = true -> busy T d g.

(** No sector but [S] holds a file node with the name [cn]. *)
Definition only_at (d : device) (cn : list Z) (S : Z) : Prop :=
  forall g, 0 <= g < 2 ^ 32 -> ValidSector T g = true ->
            hits T d cn g -> g = S.

(** Sector [g] of [d] and sector [g1] of [d1] agree from offset [from]. *)
Definition agree_from (d d1 : device) (g g1 from : Z) : Prop :=
  forall o, from <= o < sector_size T g ->
            sector_byte T d g o = sector_byte T d1 g1 o.

(** Sector [g] of [d] reads like sector [g1] of [d1]: the headers route
    alike, and the sectors agree everywhere or, with a head sector's
    payload offset, in the payload. *)
Definition alike (d d1 : device) (g g1 : Z) : Prop :=
  0 <= g < 2 ^ 32 /\ 0 <= g1 < 2 ^ 32
  /\ ValidSector T g = ValidSector T g1
  /\ (ValidSector T g = true ->
      sector_size T g = sector_size T g1
      /\ same_route (header_of T d g) (header_of T d1 g1)
      /\ ((forall o, sector_byte T d g o = sector_byte T d1 g1 o)
          \/ (DataOffset (header_of T d g) = 104
              /\ SectorLength (header_of T d g) = sector_size T g
              /\ agree_from d d1 g g1 104))).

End FileDefs.

Section HandedDef.
Variable T : list FFS_FLASH_SECTION.
Variables d d1 : device.
Variable P : Z -> Prop.

(** What [LocatePosition] hands to the read loop on both media. *)
Definition handed (G G1 : Z) (hh hh1 : FFS_SECTOR_HEADER) (Off : Z) : Prop :=
  0 <= G < 2 ^ 32 /\ 0 <= G1 < 2 ^ 32
  /\ ValidSector T G = true /\ ValidSector T G1 = true
  /\ sector_size T G = sector_size T G1
  /\ hh = header_of T d G /\ hh1 = header_of T d1 G1
  /\ same_route hh hh1
  /\ P (Next hh)
  /\ agree_from T d d1 G G1 Off.

End HandedDef.

(** The header of the new head sector once [Rename] has patched its
    chain pointer. *)
Definition rechained (h : FFS_SECTOR_HEADER) (next : Z) : FFS_SECTOR_HEADER :=
  mkHeader (Key h) next (EraseCount h) (Version h) (Status h) (SectorChecksum h)
           (SectorLength h) (DataOffset h).

(** The descriptor [open(.., FFS_RDONLY)] fills for a file found in
    sector [S] with file node [f]. *)
Definition opened (S : Z) (f : FFS_FILE_NODE) : FFS_FILE_DESCRIPTOR :=
  set_Flags (uchar FFS_RDONLY)
    (set_FnodeSector S (set_Fnode f (set_InUse 1 zero_descriptor))).

(** The world after the [if( initializationComplete == false ) Initialize()]
    that opens every API call. *)
Definition started (w : world) : world :=
  if initializationComplete (globals w) then w else Initialize w.

(** The medium after the events of a journal. *)
Definition replay (T : list FFS_FLASH_SECTION) (evs : list io_event) (w : world)
  : world :=
  fold_left (fun w e =>
               match e with
               | IoErase g => erase_dev T w g
               | IoWrite g o data => write_dev T w g o data (Z.of_nat (length data))
               end) evs w.

(** File "a" of [volume_a] opened and read before the renaming. *)
Definition volume_a_opened : world :=
  match open small_table 8 name_a FFS_RDONLY 0 volume_a with
  | Ret (_, w) => w
  | _ => volume_a
  end.

Definition volume_a_read : world :=
  match read small_table 8 0 (repeat 0 5) 5 volume_a_opened with
  | Ret (_, _, w) => w
  | _ => volume_a_opened
  end.

(* ------------------------------------------------------------------ *)
(** * Directory listing and space accounting *)


Section Listing.
Variable FlashSectionTable : list FFS_FLASH_SECTION.









End Listing.


(** File a opened a second time, which takes the last descriptor. *)
Definition volume_a_opened_twice : world :=
  match open small_table 8 name_a FFS_RDONLY 0 volume_a_opened with
  | Ret (_, w) => w
  | _ => volume_a_opened
  end.

(** File a opened for reading and closed again. *)
Definition volume_a_reclosed : world :=
  match close small_table 8 0 volume_a_opened with
  | Ret (_, w) => w
  | _ => volume_a_opened
  end.


(** The volume holding file a after [Erase("a")]. *)
Definition volume_a_erased : world :=
  match Erase small_table 8 name_a volume_a with
  | Ret (_, w) => w
  | _ => volume_a
  end.

(** File a opened with FFS_CREATE, and closed without a [write]. *)
Definition volume_a_recreated : world :=
  match open small_table 8 name_a FFS_CREATE 0 volume_a with
  | Ret (_, w) => w
  | _ => volume_a
  end.





(* ------------------------------------------------------------------ *)
(** * Properties *)

(** ** Flash section registry *)

(** C4 (violated by the code): with sections of 2 and 3 sectors, global
    sector 2 is the first sector of section 1, yet the lookup does not
    find it and [ReadSector], [WriteSector] and [EraseSector] answer
    INVALID_SECTOR_NUMBER; global sector 3 is mapped to relative sector 0
    instead of 1; and sector 5, past the last section, is accepted as
    sector 2 of section 1.  The loop subtracts the count of the section it
    has stepped to, not of the one it leaves. *)
Theorem GetFlashSectionEntry_subtracts_next_count :
  GetFlashSectionEntry two_sections 2 = None
  /\ fst (ReadSector two_sections (dev (power_on virgin)) 2 0 4)
     = FFS_RC_INVALID_SECTOR_NUMBER
  /\ fst (WriteSector two_sections (dev (power_on virgin)) 2 0 [0] 1)
     = FFS_RC_INVALID_SECTOR_NUMBER
  /\ fst (EraseSector two_sections (dev (power_on virgin)) 2)
     = FFS_RC_INVALID_SECTOR_NUMBER
  /\ GetFlashSectionEntry two_sections 3
     = Some (1%nat, FlashSection.mk 1 0 3 128, 0)
  /\ GetFlashSectionEntry two_sections 5
     = Some (1%nat, FlashSection.mk 1 0 3 128, 2)
  /\ fst (ReadSector two_sections (dev (power_on virgin)) 5 0 4) = 4.
Proof. repeat split; reflexivity. Qed.

(** ** Descriptor sanity check *)

(** C8 (violated by the code): for [fd] equal to
    FFS_MAX_FILE_DESCRIPTORS, and for a negative [fd], the sanity check
    of [close], [read] and [write] does not reject the descriptor: it
    goes on to index the File Table at [fd], outside the table. *)
Theorem sanity_check_indexes_outside_table :
  forall (tbl : list FFS_FLASH_SECTION) (fuel : nat) (w : world)
         (buf : list Z) (n : Z),
    close tbl fuel FFS_MAX_FILE_DESCRIPTORS w
    = Fault (TableIndexOutOfRange FFS_MAX_FILE_DESCRIPTORS)
    /\ read tbl fuel FFS_MAX_FILE_DESCRIPTORS buf n w
       = Fault (TableIndexOutOfRange FFS_MAX_FILE_DESCRIPTORS)
    /\ write tbl fuel FFS_MAX_FILE_DESCRIPTORS buf n w
       = Fault (TableIndexOutOfRange FFS_MAX_FILE_DESCRIPTORS)
    /\ close tbl fuel (-1) w = Fault (TableIndexOutOfRange (-1))
    /\ read tbl fuel (-1) buf n w = Fault (TableIndexOutOfRange (-1))
    /\ write tbl fuel (-1) buf n w = Fault (TableIndexOutOfRange (-1)).
Proof. intros; repeat split; reflexivity. Qed.

(** ** open *)

(** C2 (violated by the code): file "a" exists in sector 0 with three
    bytes and generation 0; after [open("a", RDWR)], with the CREATE bit
    clear, the descriptor has lost the file-node sector (it holds -1),
    has FileSize 0 and Count 1, and the old file is scheduled for
    deletion at close: the create branch is guarded by
    [flags && FFS_CREATE]. *)
Theorem open_rdwr_takes_create_branch :
  Z.land FFS_RDWR FFS_CREATE = 0
  /\ (w <- volume_with_a ;;
      found <- LocateFileNode small_table 8 (dev w) name_a ;;
      Ret (option_map (fun r => (fst r, FileSize (snd r), Count (snd r))) found))
     = Ret (Some (0, 3, 0))
  /\ (w <- volume_with_a ;;
      ' (fd, w) <- open small_table 8 name_a FFS_RDWR 0 w ;;
      let e := FileDescriptors (globals w) fd in
      Ret (fd, FnodeSector e, FileSize (Fnode e), Count (Fnode e),
           DeleteOldFile e, OldFnodeSector e))
     = Ret (0, MINUS_ONE, 0, 1, 1, 0).
Proof. repeat split; vm_compute; reflexivity. Qed.

(** ** write at the end of a full chain *)

(** C5 (violated by the code): the file's only sector is exactly full and
    the cursor equals FileSize (24); [write] of one more byte appends
    nothing and returns INVALID_SECTOR_NUMBER, because [LocatePosition]
    follows the end-of-chain marker as if it were a sector. *)
Theorem write_at_end_of_full_chain_fails :
  match session_head_full with
  | Ret (fd, w) =>
      let e := FileDescriptors (globals w) fd in
      Position e = 24 /\ FileSize (Fnode e) = 24
      /\ option_map (fun h => (Next h, SectorLength h - DataOffset h))
                    (snd (read_header small_table (dev w) (FnodeSector e) None))
         = Some (MINUS_ONE, 24)
      /\ match write small_table 8 fd [9] 1 w with
         | Ret (rc, w') =>
             rc = FFS_RC_INVALID_SECTOR_NUMBER
             /\ journal (dev w') = journal (dev w)
         | _ => False
         end
  | _ => False
  end.
Proof. vm_compute. repeat split; reflexivity. Qed.

(** ** Duplicate resolution in Check *)

(** C3 (violated by the code): sectors 0 and 1 are the only file nodes,
    both named "f", with Count 2 in sector 0 and Count 1 in sector 1.
    [Check] frees sector 1, the older one, and then frees sector 0 as
    well: no file node survives.  The deletion loop stores its position in
    [NextSector], so the enclosing scan resumes at sector 0 and compares
    the survivor with itself. *)
Theorem Check_deletes_both_duplicates :
  match volume_newer_first with
  | Ret w =>
      map (status_on_media small_table w) [0; 1; 2; 3]
      = [Some FFS_SECTOR_HEADER_INUSE_FILENODE;
         Some FFS_SECTOR_HEADER_INUSE_FILENODE;
         Some FFS_SECTOR_HEADER_FREE; Some FFS_SECTOR_HEADER_FREE]
      /\ map (fun g => option_map
                         (fun f => (c_str (Filename f), Count f, FileSize f))
                         (fnode_on_media small_table w g)) [0; 1]
         = [Some (name_f, 2, 1); Some (name_f, 1, 1)]
      /\ match Check small_table 8 w with
         | Ret (fixed, w') =>
             fixed = 2
             /\ map (status_on_media small_table w') [0; 1; 2; 3]
                = [Some FFS_SECTOR_HEADER_FREE_DIRTY;
                   Some FFS_SECTOR_HEADER_FREE_DIRTY;
                   Some FFS_SECTOR_HEADER_FREE; Some FFS_SECTOR_HEADER_FREE]
         | _ => False
         end
  | _ => False
  end.
Proof. vm_compute. repeat split; reflexivity. Qed.
Section Facts.
Variable T : list FFS_FLASH_SECTION.

Lemma in_sector_true s rel off len :
  in_sector s rel off len = true <->
  0 <= rel < FlashSection.Count s /\ 0 <= off /\ 0 <= len
  /\ off + len <= FlashSection.SectorSize s.
Proof. unfold in_sector. rewrite !andb_true_iff. lia. Qed.

Lemma within_true off len o : within off len o = true <-> off <= o < off + len.
Proof. unfold within. rewrite andb_true_iff. lia. Qed.

Lemma read_header_eq d g sh :
  read_header T d g sh =
  match GetFlashSectionEntry T g with
  | None => (FFS_RC_INVALID_SECTOR_NUMBER, sh)
  | Some (k, s, rel) =>
      if in_sector s rel 0 sizeof_FFS_SECTOR_HEADER
      then (sizeof_FFS_SECTOR_HEADER,
            Some (header_of_bytes (map (fun i => cells d k rel (0 + Z.of_nat i)) (seq 0 24))))
      else (DRIVER_RC_ERROR, sh)
  end.
Proof.
  unfold read_header, ReadSector, drv_Read.
  destruct (GetFlashSectionEntry T g) as [[[k s] rel]|]; [|reflexivity].
  destruct (in_sector s rel 0 sizeof_FFS_SECTOR_HEADER); reflexivity.
Qed.

Lemma read_header_stale d g sh rc h :
  read_header T d g None = (rc, Some h) -> read_header T d g sh = (rc, Some h).
Proof.
  rewrite !read_header_eq.
  destruct (GetFlashSectionEntry T g) as [[[k s] rel]|]; [|discriminate].
  destruct (in_sector s rel 0 sizeof_FFS_SECTOR_HEADER); [auto|discriminate].
Qed.

Lemma cells_write_dev w g off buf len k' r' o' :
  cells (dev (write_dev T w g off buf len)) k' r' o' =
  match GetFlashSectionEntry T g with
  | Some (k, s, rel) =>
      if in_sector s rel off len && (Nat.eqb k' k && (r' =? rel) && within off len o')
      then Z.land (cells (dev w) k' r' o') (nth (Z.to_nat (o' - off)) buf 0xFF)
      else cells (dev w) k' r' o'
  | None => cells (dev w) k' r' o'
  end.
Proof.
  unfold write_dev, WriteSector, drv_Write.
  destruct (GetFlashSectionEntry T g) as [[[k s] rel]|]; [|reflexivity].
  destruct (in_sector s rel off len); simpl; reflexivity.
Qed.

Lemma globals_write_dev w g off buf len :
  globals (write_dev T w g off buf len) = globals w.
Proof. reflexivity. Qed.


Lemma header_at_fields f :
  header_at f =
  mkHeader (f 0 + 256 * f 1 + 65536 * f 2 + 16777216 * f 3)
           (f 4 + 256 * f 5 + 65536 * f 6 + 16777216 * f 7)
           (f 8 + 256 * f 9 + 65536 * f 10 + 16777216 * f 11)
           (f 12) (f 13) (f 14 + 256 * f 15)
           (f 16 + 256 * f 17 + 65536 * f 18 + 16777216 * f 19)
           (f 20 + 256 * f 21 + 65536 * f 22 + 16777216 * f 23).
Proof. reflexivity. Qed.

Lemma link_frame d d' g n :
  (forall k r o, 4 <= o < 8 -> cells d' k r o = cells d k r o) ->
  link T d g n -> link T d' g n.
Proof.
  intros Hf (rc & h & Hr & Hn).
  rewrite read_header_eq in Hr.
  unfold link. rewrite read_header_eq.
  destruct (GetFlashSectionEntry T g) as [[[k s] rel]|]; [|discriminate].
  destruct (in_sector s rel 0 sizeof_FFS_SECTOR_HEADER); [|discriminate].
  injection Hr as <- <-.
  eexists _, _. split; [reflexivity|]. rewrite <- Hn.
  change (Next (header_at (cells d' k rel)) = Next (header_at (cells d k rel))).
  rewrite !header_at_fields. simpl.
  rewrite !Hf by lia. reflexivity.
Qed.

Lemma chain_frame d d' g l :
  (forall k r o, 4 <= o < 8 -> cells d' k r o = cells d k r o) ->
  chain T d g l -> chain T d' g l.
Proof.
  intros Hf Hc. induction Hc; econstructor; eauto using link_frame.
Qed.

Lemma land_byte_bounds a b : 0 <= b < 256 -> 0 <= Z.land a b < 256.
Proof.
  intros Hb.
  assert (E : Z.land a b = Z.land a b mod 2 ^ 8).
  { rewrite <- Z.land_ones by lia. rewrite <- Z.land_assoc.
    rewrite (Z.land_ones b) by lia. rewrite Z.mod_small; [reflexivity|].
    change (2 ^ 8) with 256. lia. }
  rewrite E. change (2 ^ 8) with 256. apply Z.mod_pos_bound. lia.
Qed.

Lemma land_mod_self a : Z.land a (a mod 256) = a mod 256.
Proof.
  change 256 with (2 ^ 8). rewrite <- Z.land_ones by lia.
  rewrite Z.land_assoc, Z.land_diag. reflexivity.
Qed.

Lemma settled_same f f' k r :
  same_cells f f' -> settled f k r -> settled f' k r.
Proof. unfold settled. intros H. rewrite <- !H. auto. Qed.

Lemma mark_outside w g h k r o :
  ~ (12 <= o < 16) -> cells (dev (mark T w g h)) k r o = cells (dev w) k r o.
Proof.
  intros Ho. unfold mark. rewrite cells_write_dev.
  destruct (GetFlashSectionEntry T g) as [[[k0 s] rel]|]; [|reflexivity].
  destruct (within offsetof_Version 4 o) eqn:E.
  - apply within_true in E. unfold offsetof_Version in E. lia.
  - rewrite !andb_false_r. reflexivity.
Qed.

Lemma mark_other w g h k0 s rel k r o :
  GetFlashSectionEntry T g = Some (k0, s, rel) ->
  (k, r) <> (k0, rel) ->
  cells (dev (mark T w g h)) k r o = cells (dev w) k r o.
Proof.
  intros Ha Hne. unfold mark. rewrite cells_write_dev, Ha.
  destruct (Nat.eqb k k0) eqn:E1; destruct (r =? rel) eqn:E2;
    simpl; rewrite ?andb_false_r; try reflexivity.
  apply Nat.eqb_eq in E1. apply Z.eqb_eq in E2. congruence.
Qed.

Lemma header_readable d g rc h :
  read_header T d g None = (rc, Some h) ->
  exists k s rel,
    GetFlashSectionEntry T g = Some (k, s, rel)
    /\ in_sector s rel 0 sizeof_FFS_SECTOR_HEADER = true
    /\ h = header_at (cells d k rel).
Proof.
  rewrite read_header_eq.
  destruct (GetFlashSectionEntry T g) as [[[k s] rel]|]; [|discriminate].
  destruct (in_sector s rel 0 sizeof_FFS_SECTOR_HEADER) eqn:E; [|discriminate].
  intros H. injection H as <- <-. eauto 6.
Qed.

Lemma status_word_eq h :
  status_word h =
  [Version h mod 256; Status h mod 256; SectorChecksum h mod 256;
   (SectorChecksum h / 256) mod 256].
Proof. reflexivity. Qed.

Lemma low_byte a b : 0 <= a < 256 -> (a + 256 * b) mod 256 = a.
Proof.
  intros. symmetry. apply (Z.mod_unique_pos _ _ b); lia.
Qed.

Lemma high_byte a b : 0 <= a < 256 -> (a + 256 * b) / 256 = b.
Proof.
  intros. symmetry. apply (Z.div_unique_pos _ _ _ a); lia.
Qed.

Lemma mark_cells w g h k0 s rel o :
  GetFlashSectionEntry T g = Some (k0, s, rel) ->
  in_sector s rel 0 sizeof_FFS_SECTOR_HEADER = true ->
  12 <= o < 16 ->
  cells (dev (mark T w g h)) k0 rel o =
  Z.land (cells (dev w) k0 rel o)
         (nth (Z.to_nat (o - 12))
              [Version h mod 256; 0; SectorChecksum h mod 256;
               (SectorChecksum h / 256) mod 256] 0xFF).
Proof.
  intros Ha Hin Ho.
  apply in_sector_true in Hin. unfold sizeof_FFS_SECTOR_HEADER in Hin.
  assert (Hin' : in_sector s rel offsetof_Version 4 = true).
  { apply in_sector_true. unfold offsetof_Version. lia. }
  assert (Hw : within offsetof_Version 4 o = true).
  { apply within_true. unfold offsetof_Version. lia. }
  unfold mark. rewrite cells_write_dev, Ha, Hin', Hw.
  rewrite Nat.eqb_refl, Z.eqb_refl. reflexivity.
Qed.

Lemma mark_settles w g rc h :
  read_header T (dev w) g None = (rc, Some h) ->
  settled_at T (dev (mark T w g h)) g.
Proof.
  intros Hr k s r Ha.
  pose proof Hr as Hx; apply header_readable in Hx;
    destruct Hx as (k0 & s0 & rel & Ha' & Hin & Hh).
  rewrite Ha in Ha'. injection Ha' as <- <- <-.
  unfold settled.
  rewrite !(mark_cells w _ h _ _ _ _ Ha Hin) by lia.
  change (Z.to_nat (12 - 12)) with 0%nat.
  change (Z.to_nat (13 - 12)) with 1%nat.
  change (Z.to_nat (14 - 12)) with 2%nat.
  change (Z.to_nat (15 - 12)) with 3%nat.
  cbn [nth].
  repeat split; try (apply land_byte_bounds; apply Z.mod_pos_bound; lia).
  apply Z.land_0_r.
Qed.

Lemma mark_settled_noop w g rc h :
  read_header T (dev w) g None = (rc, Some h) ->
  settled_at T (dev w) g ->
  same_cells (cells (dev (mark T w g h))) (cells (dev w)).
Proof.
  intros Hr Hs k r o.
  pose proof Hr as Hx; apply header_readable in Hx;
    destruct Hx as (k0 & s0 & rel & Ha & Hin & Hh).
  destruct (Hs _ _ _ Ha) as (H12 & H13 & H14 & H15).
  destruct (Z_lt_dec o 12); [apply mark_outside; lia|].
  destruct (Z_lt_dec o 16); [|apply mark_outside; lia].
  destruct (Nat.eq_dec k k0) as [->|Hk];
    [|apply (mark_other w _ h _ _ _ _ _ _ Ha); congruence].
  destruct (Z.eq_dec r rel) as [->|Hrel];
    [|apply (mark_other w _ h _ _ _ _ _ _ Ha); congruence].
  rewrite (mark_cells w _ h _ _ _ _ Ha Hin) by lia.
  rewrite Hh, header_at_fields. cbn [Version SectorChecksum].
  assert (Ho : o = 12 \/ o = 13 \/ o = 14 \/ o = 15) by lia.
  destruct Ho as [-> | [-> | [-> | ->]]].
  - change (Z.to_nat (12 - 12)) with 0%nat. cbn [nth].
    rewrite Z.mod_small by lia. apply Z.land_diag.
  - change (Z.to_nat (13 - 12)) with 1%nat. cbn [nth].
    rewrite H13. reflexivity.
  - change (Z.to_nat (14 - 12)) with 2%nat. cbn [nth].
    rewrite low_byte by lia. apply Z.land_diag.
  - change (Z.to_nat (15 - 12)) with 3%nat. cbn [nth].
    rewrite high_byte by lia. rewrite Z.mod_small by lia. apply Z.land_diag.
Qed.

Lemma mark_keeps_settled w g rc h k r :
  read_header T (dev w) g None = (rc, Some h) ->
  settled (cells (dev w)) k r -> settled (cells (dev (mark T w g h))) k r.
Proof.
  intros Hr Hs.
  pose proof Hr as Hx; apply header_readable in Hx;
    destruct Hx as (k0 & s0 & rel & Ha & Hin & Hh).
  destruct (Nat.eq_dec k k0) as [->|Hk].
  - destruct (Z.eq_dec r rel) as [->|Hrel].
    + exact (mark_settles w _ _ _ Hr _ _ _ Ha).
    + unfold settled. rewrite !(mark_other w _ h _ _ _ _ _ _ Ha) by congruence. exact Hs.
  - unfold settled. rewrite !(mark_other w _ h _ _ _ _ _ _ Ha) by congruence. exact Hs.
Qed.

Lemma FreeSectors_loop_step fuel w g sh rc h :
  g <> MINUS_ONE ->
  read_header T (dev w) g None = (rc, Some h) ->
  FreeSectors_loop T (S fuel) w g sh =
  FreeSectors_loop T fuel (mark T w g h) (Next h)
                   (Some (set_Status FFS_SECTOR_HEADER_FREE_DIRTY h)).
Proof.
  intros Hg Hr. cbn [FreeSectors_loop].
  destruct (g =? MINUS_ONE) eqn:E; [apply Z.eqb_eq in E; contradiction|].
  rewrite (read_header_stale _ _ sh _ _ Hr). reflexivity.
Qed.

Lemma chain_nil_inv d g : chain T d g [] -> g = MINUS_ONE.
Proof. intros H. inversion H. reflexivity. Qed.

Lemma chain_cons_inv d g x l :
  chain T d g (x :: l) ->
  g = x /\ g <> MINUS_ONE /\ exists n, link T d g n /\ chain T d n l.
Proof. intros H. inversion H; subst. eauto. Qed.

(** First pass: every sector of the chain is marked. *)
Lemma FreeSectors_loop_marks l :
  forall w g sh fuel,
    chain T (dev w) g l -> (length l < fuel)%nat ->
    exists w1,
      FreeSectors_loop T fuel w g sh = Ret w1
      /\ (forall k r o, ~ (12 <= o < 16) ->
                        cells (dev w1) k r o = cells (dev w) k r o)
      /\ (forall x, In x l -> settled_at T (dev w1) x)
      /\ (forall k r, settled (cells (dev w)) k r -> settled (cells (dev w1)) k r).
Proof.
  induction l as [|x l IH]; intros w g sh fuel Hc Hf.
  - apply chain_nil_inv in Hc. subst g.
    destruct fuel; [simpl in Hf; lia|]. exists w.
    split; [reflexivity|]. split; [auto|]. split; [intros y []|auto].
  - apply chain_cons_inv in Hc.
    destruct Hc as (-> & H1 & n & (rc & h & Hr & Hn) & Hc).
    destruct fuel as [|fuel]; [simpl in Hf; lia|]. simpl in Hf.
    rewrite (FreeSectors_loop_step fuel w _ sh _ _ H1 Hr).
    assert (Hc' : chain T (dev (mark T w x h)) (Next h) l).
    { apply chain_frame with (d := dev w); [|rewrite Hn; assumption].
      intros. apply mark_outside. lia. }
    destruct (IH (mark T w x h) (Next h)
                 (Some (set_Status FFS_SECTOR_HEADER_FREE_DIRTY h)) fuel Hc')
      as (w1 & Hrun & Hout & Hin & Hkeep); [lia|].
    exists w1. split; [assumption|]. split; [|split].
    + intros. rewrite Hout by assumption. apply mark_outside. assumption.
    + intros y [<-|Hy]; [|auto].
      intros k s r Ha. apply Hkeep. exact (mark_settles w _ _ _ Hr _ _ _ Ha).
    + intros. apply Hkeep. eapply mark_keeps_settled; eauto.
Qed.

Lemma chain_same d d' g l :
  same_cells (cells d') (cells d) -> chain T d g l -> chain T d' g l.
Proof. intros H. apply chain_frame. intros. apply H. Qed.

(** Second pass: marking marked sectors changes nothing. *)
Lemma FreeSectors_loop_settled l :
  forall w g sh fuel,
    chain T (dev w) g l -> (length l < fuel)%nat ->
    (forall x, In x l -> settled_at T (dev w) x) ->
    exists w2,
      FreeSectors_loop T fuel w g sh = Ret w2
      /\ same_cells (cells (dev w2)) (cells (dev w)).
Proof.
  induction l as [|x l IH]; intros w g sh fuel Hc Hf Hs.
  - apply chain_nil_inv in Hc. subst g.
    destruct fuel; [simpl in Hf; lia|]. exists w. cbn. split; [reflexivity|].
    intros k r o. reflexivity.
  - apply chain_cons_inv in Hc.
    destruct Hc as (-> & H1 & n & (rc & h & Hr & Hn) & Hc).
    destruct fuel as [|fuel]; [simpl in Hf; lia|]. simpl in Hf.
    rewrite (FreeSectors_loop_step fuel w _ sh _ _ H1 Hr).
    assert (Hsame : same_cells (cells (dev (mark T w x h))) (cells (dev w))).
    { eapply mark_settled_noop; eauto. apply Hs. left. reflexivity. }
    destruct (IH (mark T w x h) (Next h)
                 (Some (set_Status FFS_SECTOR_HEADER_FREE_DIRTY h)) fuel)
      as (w2 & Hrun & Heq).
    + apply chain_same with (d := dev w); [assumption|]. rewrite Hn. assumption.
    + lia.
    + intros y Hy k s r Ha.
      apply settled_same with (f := cells (dev w)).
      * intros k' r' o'. symmetry. apply Hsame.
      * apply (Hs y (or_intror Hy) k s r Ha).
    + exists w2. split; [assumption|].
      intros k r o. rewrite Heq. apply Hsame.
Qed.

(** C10. For a well-formed chain (every link readable, ending at the
    end-of-chain marker), [FreeSectors] returns, a second [FreeSectors]
    of the same head returns too, and it leaves every byte of the medium
    as the first call left it. *)
Theorem FreeSectors_twice_is_once :
  forall (w : world) (h : Z) (l : list Z) (fuel : nat),
    chain T (dev w) h l -> (length l < fuel)%nat ->
    exists w1 w2,
      FreeSectors T fuel w h = Ret w1
      /\ FreeSectors T fuel w1 h = Ret w2
      /\ forall k r o, cells (dev w2) k r o = cells (dev w1) k r o.
Proof.
  intros w h l fuel Hc Hf. unfold FreeSectors.
  destruct (FreeSectors_loop_marks l w h None fuel Hc Hf) as (w1 & H1 & Hout & Hset & _).
  assert (Hc1 : chain T (dev w1) h l).
  { apply chain_frame with (d := dev w); [|assumption].
    intros. apply Hout. lia. }
  destruct (FreeSectors_loop_settled l w1 h None fuel Hc1 Hf Hset) as (w2 & H2 & Heq).
  exists w1, w2. auto.
Qed.

End Facts.

Lemma FreeSectors_twice_is_once_witness :
  exists w1 w2,
    FreeSectors small_table 4 (power_on virgin) 0 = Ret w1
    /\ FreeSectors small_table 4 w1 0 = Ret w2
    /\ forall k r o, cells (dev w2) k r o = cells (dev w1) k r o.
Proof.
  apply (FreeSectors_twice_is_once small_table (power_on virgin) 0 [0] 4).
  - apply chain_step with (n := MINUS_ONE).
    + discriminate.
    + exists 24, (header_at (fun _ => 0xFF)). split; reflexivity.
    + apply chain_end.
  - simpl. lia.
Defined.
Section Journal.
Variable T : list FFS_FLASH_SECTION.

Lemma ValidSector_true g :
  ValidSector T g = true <-> exists k s rel, GetFlashSectionEntry T g = Some (k, s, rel).
Proof.
  unfold ValidSector.
  destruct (GetFlashSectionEntry T g) as [[[k s] rel]|]; split; intros H; eauto.
  - discriminate.
  - destruct H as (? & ? & ? & ?). discriminate.
Qed.

Lemma journal_write_dev w g off buf len :
  ValidSector T g = true ->
  journal (dev (write_dev T w g off buf len))
  = journal (dev w) ++ [IoWrite g off (firstn (Z.to_nat len) buf)].
Proof.
  intros H. apply ValidSector_true in H. destruct H as (k & s & rel & Ha).
  unfold write_dev, WriteSector. rewrite Ha.
  destruct (drv_Write (cells (dev w)) k s rel off buf len). reflexivity.
Qed.

Lemma journal_erase_dev w g :
  ValidSector T g = true ->
  journal (dev (erase_dev T w g)) = journal (dev w) ++ [IoErase g].
Proof.
  intros H. apply ValidSector_true in H. destruct H as (k & s & rel & Ha).
  unfold erase_dev, EraseSector. rewrite Ha.
  destruct (drv_Erase (cells (dev w)) k s rel). reflexivity.
Qed.

Lemma FindFreeSector_loop_dev fuel :
  forall w g sh found S sh' sec w',
    FindFreeSector_loop T fuel w g sh = Ret (found, S, sh', sec, w') ->
    dev w' = dev w
    /\ (found = 0 \/ (found = 1 /\ ValidSector T S = true /\ exists old, sh' = Some old)).
Proof.
  induction fuel as [|fuel IH]; intros w g sh found S sh' sec w' H; [discriminate|].
  cbn [FindFreeSector_loop] in H.
  destruct (GetFlashSectionEntry T g) as [[[k s] rel]|] eqn:Ha.
  - destruct (snd (read_header T (dev w) g sh)) as [h|] eqn:Hh; [|discriminate].
    cbn [need bind] in H.
    assert (Hv : ValidSector T g = true) by (apply ValidSector_true; eauto).
    destruct (Key h =? FFS_SECTOR_HEADER_KEY).
    + destruct ((Status h =? FFS_SECTOR_HEADER_FREE)
                || (Status h =? FFS_SECTOR_HEADER_FREE_DIRTY)).
      * injection H as <- <- <- <- <-. split; [reflexivity|]. right. eauto.
      * eapply IH; eauto.
    + injection H as <- <- <- <- <-. split.
      * destruct (1 >? ErrorSectorCount (globals w)); reflexivity.
      * right. eauto.
  - injection H as <- <- <- <- <-. auto.
Qed.

Lemma length_header_bytes h : length (header_bytes h) = 24%nat.
Proof. reflexivity. Qed.

Lemma firstn_header_bytes h : firstn (Z.to_nat sizeof_FFS_SECTOR_HEADER) (header_bytes h) = header_bytes h.
Proof. reflexivity. Qed.

Lemma allocate_journal fuel w sh st off rc N sh' w' :
  allocate T fuel w sh st off = Ret (rc, N, sh', w') ->
  (rc = FFS_RC_OUT_OF_SPACE /\ dev w' = dev w)
  \/ (rc = 0 /\ ValidSector T N = true
      /\ exists old sec,
          sh' = Some (fresh_header old sec st off)
          /\ journal (dev w')
             = journal (dev w)
               ++ [IoErase N; IoWrite N 0 (header_bytes (fresh_header old sec st off))]).
Proof.
  unfold allocate, FindFreeSector. intros H.
  destruct (FindFreeSector_loop T fuel w 0 sh) as [[[[[found S] sh1] sec] w1]| |] eqn:HF;
    try discriminate.
  cbn [bind] in H.
  apply FindFreeSector_loop_dev in HF. destruct HF as (Hd & Hfound).
  destruct Hfound as [->|(-> & Hv & old & ->)].
  - cbn in H. injection H as <- <- <- <-. left. auto.
  - change (1 =? 0) with false in H. cbn [bind need] in H.
    injection H as <- <- <- <-. right.
    split; [reflexivity|]. split; [assumption|].
    exists old, sec. split; [reflexivity|].
    rewrite journal_write_dev by assumption.
    rewrite journal_erase_dev by assumption.
    rewrite firstn_header_bytes, Hd, <- app_assoc. reflexivity.
Qed.


Lemma fresh_header_Status old sec st off : Status (fresh_header old sec st off) = st.
Proof. reflexivity. Qed.

Lemma fresh_header_Next old sec st off : Next (fresh_header old sec st off) = MINUS_ONE.
Proof. reflexivity. Qed.

Lemma write_loop_journal fuel :
  forall w Fdesc Sector h Offset buf p n tw rc Fdesc' w',
    ValidSector T Sector = true ->
    write_loop T fuel w Fdesc Sector h Offset buf p n tw = Ret (rc, Fdesc', w') ->
    exists evs,
      journal (dev w') = journal (dev w) ++ evs /\ chained_writes Sector evs.
Proof.
  induction fuel as [|fuel IH];
    intros w Fdesc Sector h Offset buf p n tw rc Fdesc' w' Hv H; [discriminate|].
  cbn [write_loop] in H.
  destruct (n =? 0).
  { injection H as <- <- <-. exists []. rewrite app_nil_r. split; [reflexivity|constructor]. }
  set (RemLen := if ulong n <? ulong (SectorLength h - Offset)
                 then ulong n else ulong (SectorLength h - Offset)) in *.
  destruct (peek buf p (to_int RemLen)) as [data| |]; try discriminate.
  cbn [bind] in H.
  set (w1 := write_dev T w Sector Offset data (to_int RemLen)) in *.
  assert (J1 : journal (dev w1)
               = journal (dev w) ++ [IoWrite Sector Offset (firstn (Z.to_nat (to_int RemLen)) data)]).
  { apply journal_write_dev. assumption. }
  destruct (to_int (ulong n - RemLen) =? 0).
  { injection H as <- <- <-. eexists. split; [exact J1|constructor]. }
  match type of H with
  | context [AllocateSector T ?fl w1 ?sh] =>
      destruct (AllocateSector T fl w1 sh) as [[[[rc2 N] sh2] w2]| |] eqn:HA;
        try discriminate
  end.
  cbn [bind] in H.
  apply allocate_journal in HA.
  destruct HA as [(-> & Hd)|(-> & HvN & old & sec & -> & J2)].
  - cbn in H. injection H as <- <- <-. eexists. rewrite Hd. split; [exact J1|constructor].
  - change (negb (0 =? 0)) with false in H. cbn [need bind] in H.
    match type of H with
    | write_loop T fuel ?w3 _ _ _ _ _ _ _ _ = _ =>
        assert (J3 : journal (dev w3) = journal (dev w2) ++ [IoWrite Sector offsetof_Next (le32 N)])
    end.
    { rewrite journal_write_dev by assumption. reflexivity. }
    apply IH in H; [|assumption].
    destruct H as (evs & J4 & Hcw).
    eexists. split.
    + rewrite J4, J3, J2, J1. rewrite <- !app_assoc. cbn [app]. reflexivity.
    + apply cw_more; auto.
Qed.

Lemma LocatePosition_loop_ok fuel :
  forall d pos g sh off cnt rc S sh' off',
    LocatePosition_loop T fuel d pos g sh off cnt = Ret (rc, S, sh', off') ->
    (rc <? 0) = false ->
    ValidSector T S = true /\ (exists h, sh' = Some h) /\ (exists o, off' = Some o).
Proof.
  induction fuel as [|fuel IH]; intros d pos g sh off cnt rc S sh' off' H Hrc;
    [discriminate|].
  cbn [LocatePosition_loop] in H.
  destruct (read_header T d g sh) as [rc1 sh1] eqn:Hr.
  destruct (rc1 <? 0) eqn:E1.
  { injection H as <- <- <- <-. congruence. }
  destruct sh1 as [h|]; [|discriminate]. cbn [need bind] in H.
  destruct (pos <? ulong (cnt + ulong (SectorLength h - DataOffset h))).
  - injection H as <- <- <- <-. repeat split; eauto.
    rewrite read_header_eq in Hr.
    apply ValidSector_true.
    destruct (GetFlashSectionEntry T g) as [[[k s] rel]|]; eauto.
    injection Hr as <- _. discriminate.
  - eapply IH; eauto.
Qed.

(** C9 (as the code does it). Every [write] that returns leaves in the
    journal: the header of a new file's head sector when this is the
    file's first write, then, sector by sector, the data written to the
    current sector and, when data remains, the erase and the header of a
    newly allocated sector followed by the patch of the current sector's
    Next field.  So a new sector's header is on the medium before its
    predecessor points at it, and its data is written after. *)
Theorem write_chains_after_header :
  forall (fuel : nat) (fd : Z) (buf : list Z) (n : Z) (w : world)
         (rc : Z) (w' : world),
    write T fuel fd buf n w = Ret (rc, w') ->
    exists evs,
      journal (dev w') = journal (dev w) ++ evs /\ write_events evs.
Proof.
  intros fuel fd buf n w rc w' H. unfold write in H.
  destruct (sanity_check w fd) as [[Fdesc|]| |]; try discriminate; cbn [bind] in H.
  2:{ injection H as <- <-. exists []. rewrite app_nil_r. split; [reflexivity|].
      left. exists 0. constructor. }
  destruct (FnodeSector Fdesc =? MINUS_ONE).
  - destruct (AllocateSectorWithFilenode T fuel w None)
      as [[[[rc2 N] sh2] w2]| |] eqn:HA; try discriminate.
    cbn [bind] in H. apply allocate_journal in HA.
    destruct HA as [(-> & Hd)|(-> & HvN & old & sec & -> & J2)].
    + cbn in H. injection H as <- <-. exists []. rewrite app_nil_r, Hd.
      split; [reflexivity|]. left. exists 0. constructor.
    + change (negb (0 =? 0)) with false in H. cbn [need bind] in H.
      match type of H with
      | context [write_loop T fuel w2 ?a ?b ?c ?d ?e ?f ?g ?h] =>
          destruct (write_loop T fuel w2 a b c d e f g h)
            as [[[rc3 Fd3] w3]| |] eqn:HW; try discriminate
      end.
      cbn [bind] in H. injection H as <- <-.
      apply write_loop_journal in HW; [|assumption].
      destruct HW as (evs & J3 & Hcw).
      eexists. split.
      * cbn [put_entry set_FileDescriptors dev]. rewrite J3, J2, <- app_assoc.
        cbn [app]. reflexivity.
      * right. eexists _, _, _. split; [reflexivity|]. split; [reflexivity|assumption].
  - destruct (LocatePosition T fuel (dev w) Fdesc (Position Fdesc) None None)
      as [[[[rc2 S] sh2] off2]| |] eqn:HL; try discriminate.
    cbn [bind] in H.
    destruct (rc2 <? 0) eqn:E.
    { injection H as <- <-. exists []. rewrite app_nil_r. split; [reflexivity|].
      left. exists 0. constructor. }
    apply LocatePosition_loop_ok in HL; [|assumption].
    destruct HL as (Hv & (h & ->) & (o & ->)). cbn [need bind] in H.
    match type of H with
    | context [write_loop T fuel w ?a ?b ?c ?d ?e ?f ?g ?h] =>
        destruct (write_loop T fuel w a b c d e f g h)
          as [[[rc3 Fd3] w3]| |] eqn:HW; try discriminate
    end.
    cbn [bind] in H. injection H as <- <-.
    apply write_loop_journal in HW; [|assumption].
    destruct HW as (evs & J3 & Hcw).
    exists evs. split; [exact J3|]. left. eauto.
Qed.

End Journal.

Lemma write_chains_after_header_witness :
  exists evs,
    journal (dev session_two_sectors) = journal (dev session_opened) ++ evs
    /\ write_events evs.
Proof.
  apply (write_chains_after_header small_table 8 0 (repeat 7 30) 30
           session_opened 30).
  vm_compute. reflexivity.
Defined.

(** C9 (counterexample to the claim as stated). The [write] of 30 bytes
    to a new file fills sector 0, allocates sector 1, patches sector 0's
    Next field to 1 and only then writes the remaining six bytes to
    sector 1: the data of the new sector follows the patch. *)
Lemma write_patches_Next_before_data :
  write small_table 8 0 (repeat 7 30) 30 session_opened
  = Ret (30, session_two_sectors)
  /\ ~ filled_before_chained (journal (dev session_two_sectors)).
Proof.
  split; [vm_compute; reflexivity|].
  intros H.
  refine (H [IoErase 0;
            IoWrite 0 0 (header_bytes (mkHeader FFS_SECTOR_HEADER_KEY MINUS_ONE 0 1
                                          FFS_SECTOR_HEADER_INUSE_FILENODE 0xffff 128 104));
            IoWrite 0 104 (repeat 7 24);
            IoErase 1;
            IoWrite 1 0 (header_bytes (mkHeader FFS_SECTOR_HEADER_KEY MINUS_ONE 0 1
                                          FFS_SECTOR_HEADER_INUSE 0xffff 128 24))]
           [IoWrite 1 24 (repeat 7 6)] 0 1 _ 24 (repeat 7 6) _ _).
  - vm_compute. reflexivity.
  - unfold sizeof_FFS_SECTOR_HEADER. lia.
  - left. reflexivity.
Qed.

Section RenameJournal.
Variable T : list FFS_FLASH_SECTION.

Lemma length_fit n l : length (fit n l) = n.
Proof.
  unfold fit. rewrite length_firstn, length_app, repeat_length. lia.
Qed.

Lemma length_fnode_bytes f : length (fnode_bytes f) = 80%nat.
Proof.
  unfold fnode_bytes. rewrite !length_app, !length_fit. reflexivity.
Qed.

Lemma firstn_fnode_bytes f :
  firstn (Z.to_nat sizeof_FFS_FILE_NODE) (fnode_bytes f) = fnode_bytes f.
Proof.
  apply firstn_all2. rewrite length_fnode_bytes. reflexivity.
Qed.

Lemma journal_write_dev_any w g off buf len :
  exists e, journal (dev (write_dev T w g off buf len)) = journal (dev w) ++ e.
Proof.
  destruct (ValidSector T g) eqn:E.
  - eexists. apply journal_write_dev. assumption.
  - exists []. rewrite app_nil_r. unfold write_dev, WriteSector.
    unfold ValidSector in E.
    destruct (GetFlashSectionEntry T g); [discriminate|reflexivity].
Qed.

Lemma Rename_copy_journal fuel :
  forall w S N off len buf w',
    ValidSector T N = true ->
    Rename_copy T fuel w S N off len buf = Ret w' ->
    exists evs,
      journal (dev w') = journal (dev w) ++ evs /\ Forall (is_write_to N) evs.
Proof.
  induction fuel as [|fuel IH]; intros w S N off len buf w' Hv H; [discriminate|].
  cbn [Rename_copy] in H.
  destruct (len =? 0).
  { injection H as <-. exists []. rewrite app_nil_r. auto. }
  match type of H with
  | bind (need ?b) _ = _ => destruct b as [data|]; [|discriminate]
  end.
  cbn [need bind] in H.
  apply IH in H; [|assumption].
  destruct H as (evs & J & HF).
  rewrite journal_write_dev in J by assumption.
  eexists. split.
  - rewrite J, <- app_assoc. reflexivity.
  - constructor; [|assumption]. eexists _, _. reflexivity.
Qed.

(** C7 (as the code does it). A [Rename] that succeeds erases a new head
    sector, writes its header, copies the payload of the old head into
    it and then writes there the source's file node under the new name:
    that file node carries the source's Count (and FileSize) unchanged. *)
Theorem Rename_inherits_Count :
  forall (fuel : nat) (old new : list Z) (w w' : world),
    Rename T fuel old new w = Ret (0, w') ->
    exists Sector fnode NewSector h copies fnode' tail,
      LocateFileNode T fuel (dev w) old = Ret (Some (Sector, fnode))
      /\ journal (dev w')
         = journal (dev w)
           ++ IoErase NewSector :: IoWrite NewSector 0 (header_bytes h)
           :: copies
           ++ IoWrite NewSector sizeof_FFS_SECTOR_HEADER (fnode_bytes fnode')
           :: tail
      /\ Status h = FFS_SECTOR_HEADER_INUSE_FILENODE
      /\ Forall (is_write_to NewSector) copies
      /\ Count fnode' = Count fnode
      /\ FileSize fnode' = FileSize fnode.
Proof.
  intros fuel old new w w' H. unfold Rename in H.
  set (w0 := if initializationComplete (globals w) then w else Initialize w) in *.
  assert (Hd0 : dev w0 = dev w).
  { unfold w0. destruct (initializationComplete (globals w)); reflexivity. }
  destruct (LocateFileNode T fuel (dev w0) old) as [[[Sector fnode]|]| |] eqn:HL1;
    try discriminate; cbn [bind] in H.
  destruct (LocateFileNode T fuel (dev w0) new) as [[?|]| |] eqn:HL2;
    try discriminate; cbn [bind] in H.
  destruct (snd (read_header T (dev w0) Sector None)) as [SecHead|];
    [|discriminate]; cbn [need bind] in H.
  destruct (AllocateSectorWithFilenode T fuel w0 (Some SecHead))
    as [[[[rc N] sh] w1]| |] eqn:HA; try discriminate; cbn [bind] in H.
  apply allocate_journal in HA.
  destruct HA as [(-> & _)|(-> & Hv & oldh & sec & -> & J1)].
  { cbn in H. discriminate. }
  change (negb (0 =? 0)) with false in H. cbn [need bind] in H.
  match type of H with
  | (if negb ?c then _ else _) = _ => destruct c
  end; cbn [negb] in H.
  2:{ destruct (FreeSectors T fuel w1 N); try discriminate. }
  match type of H with
  | bind ?c _ = _ => destruct c as [w2| |] eqn:HC; try discriminate
  end.
  cbn [bind] in H. injection H as <-.
  apply Rename_copy_journal in HC; [|assumption].
  destruct HC as (copies & J2 & HF).
  match goal with
  | |- context [write_dev T (if ?c then ?a else ?b) ?s ?o ?d ?l] =>
      destruct (journal_write_dev_any (if c then a else b) s o d l) as (e3 & J5);
      assert (J4 : exists e, journal (dev (if c then a else b))
                             = journal (dev w2)
                               ++ IoWrite N sizeof_FFS_SECTOR_HEADER
                                    (fnode_bytes
                                       (set_Filename
                                          (if strlen new >=? sizeof_Filename
                                           then memcpy_name (Filename fnode) new 64
                                           else strcpy (Filename fnode) new) fnode))
                               :: e)
  end.
  { destruct (negb (Next SecHead =? MINUS_ONE)).
    - rewrite !journal_write_dev by assumption.
      rewrite firstn_fnode_bytes, <- app_assoc. eexists. reflexivity.
    - rewrite journal_write_dev by assumption.
      rewrite firstn_fnode_bytes. eexists. reflexivity. }
  destruct J4 as (e4 & J4).
  exists Sector, fnode, N, (fresh_header oldh sec FFS_SECTOR_HEADER_INUSE_FILENODE
                               (sizeof_FFS_SECTOR_HEADER + sizeof_FFS_FILE_NODE)),
    copies. eexists _, (e4 ++ e3).
  split; [rewrite <- Hd0; exact HL1|].
  split.
  - rewrite J5, J4, J2, J1, Hd0. rewrite <- !app_assoc. cbn [app]. reflexivity.
  - repeat split; auto.
Qed.

End RenameJournal.


Lemma Rename_inherits_Count_witness :
  exists Sector fnode NewSector h copies fnode' tail,
    LocateFileNode small_table 8 (dev volume_a) name_a = Ret (Some (Sector, fnode))
    /\ journal (dev volume_a_renamed)
       = journal (dev volume_a)
         ++ IoErase NewSector :: IoWrite NewSector 0 (header_bytes h)
         :: copies
         ++ IoWrite NewSector sizeof_FFS_SECTOR_HEADER (fnode_bytes fnode')
         :: tail
    /\ Status h = FFS_SECTOR_HEADER_INUSE_FILENODE
    /\ Forall (is_write_to NewSector) copies
    /\ Count fnode' = Count fnode
    /\ FileSize fnode' = FileSize fnode.
Proof.
  apply (Rename_inherits_Count small_table 8 name_a name_b volume_a).
  vm_compute. reflexivity.
Defined.

(** C7 (counterexample to the claim as stated). File "a" has Count 0;
    after [Rename("a", "b")] the file node written to the new head
    sector 1 has Count 0, not 1. *)
Lemma Rename_keeps_Count_of_a :
  Rename small_table 8 name_a name_b volume_a = Ret (0, volume_a_renamed)
  /\ option_map (fun r => (fst r, Count (snd r)))
       match LocateFileNode small_table 8 (dev volume_a) name_a with
       | Ret r => r | _ => None end
     = Some (0, 0)
  /\ status_on_media small_table volume_a_renamed 1
     = Some FFS_SECTOR_HEADER_INUSE_FILENODE
  /\ option_map (fun f => (c_str (Filename f), Count f))
       (fnode_on_media small_table volume_a_renamed 1)
     = Some (name_b, 0)
  /\ In (IoWrite 1 sizeof_FFS_SECTOR_HEADER
           (fnode_bytes (mkFnode 0 (name_b ++ repeat 0 64) [0; 0] 3 0 0)))
        (journal (dev volume_a_renamed))
  /\ 0 <> ulong (0 + 1).
Proof.
  split; [vm_compute; reflexivity|]. split; [vm_compute; reflexivity|].
  split; [vm_compute; reflexivity|].
  split; [vm_compute; reflexivity|]. split; [|discriminate].
  vm_compute. tauto.
Qed.
(* ------------------------------------------------------------------ *)
(** ** Reading and writing through the sector view *)

Section Views.
Variable T : list FFS_FLASH_SECTION.
Hypothesis Tok : table_ok T.

Lemma from_in_table tbl :
  forall idx g k s rel,
    GetFlashSectionEntry_from tbl idx g = Some (k, s, rel) ->
    In s tbl /\ rel < FlashSection.Count s /\ (idx <= k)%nat
    /\ (0 <= g -> 0 <= rel).
Proof.
  induction tbl as [|s0 rest IH]; intros idx g k s rel H; [discriminate|].
  cbn [GetFlashSectionEntry_from] in H.
  destruct (FlashSection.Device s0 =? 255); [discriminate|].
  destruct (g <? FlashSection.Count s0) eqn:E.
  - injection H as <- <- <-. apply Z.ltb_lt in E. repeat split; auto. left; auto.
  - apply IH in H. destruct H as (Hin & Hlt & Hle & Hpos).
    repeat split; auto.
    + right. assumption.
    + lia.
    + intros _. apply Hpos. unfold ulong. apply Z.mod_pos_bound. lia.
Qed.

Lemma from_inj tbl :
  forall idx x y k s s' rel,
    0 <= x < 2 ^ 32 -> 0 <= y < 2 ^ 32 ->
    GetFlashSectionEntry_from tbl idx x = Some (k, s, rel) ->
    GetFlashSectionEntry_from tbl idx y = Some (k, s', rel) ->
    x = y.
Proof.
  induction tbl as [|s0 rest IH]; intros idx x y k s s' rel Hx Hy H1 H2; [discriminate|].
  cbn [GetFlashSectionEntry_from] in H1, H2.
  destruct (FlashSection.Device s0 =? 255); [discriminate|].
  destruct (x <? FlashSection.Count s0) eqn:Ex;
    destruct (y <? FlashSection.Count s0) eqn:Ey.
  - injection H1 as <- <- <-. injection H2; intros; lia.
  - injection H1 as <- <- <-. apply from_in_table in H2. lia.
  - injection H2 as <- <- <-. apply from_in_table in H1. lia.
  - assert (E : ulong (x - FlashSection.Count (hd END_OF_TABLE rest))
                = ulong (y - FlashSection.Count (hd END_OF_TABLE rest))).
    { eapply IH; eauto; unfold ulong; apply Z.mod_pos_bound; lia. }
    unfold ulong in E.
    set (c := FlashSection.Count (hd END_OF_TABLE rest)) in *.
    assert (Hd : (x - y) mod 2 ^ 32 = 0).
    { replace (x - y) with ((x - c) - (y - c)) by lia.
      rewrite Zminus_mod, E, Z.sub_diag. reflexivity. }
    apply Z.mod_divide in Hd; [|lia].
    destruct Hd as [q Hq]. lia.
Qed.

Lemma addr_inj x y k s s' rel :
  0 <= x < 2 ^ 32 -> 0 <= y < 2 ^ 32 ->
  GetFlashSectionEntry T x = Some (k, s, rel) ->
  GetFlashSectionEntry T y = Some (k, s', rel) ->
  x = y.
Proof. apply from_inj. Qed.

Lemma addr_ok g k s rel :
  0 <= g ->
  GetFlashSectionEntry T g = Some (k, s, rel) ->
  0 <= rel < FlashSection.Count s
  /\ 104 <= FlashSection.SectorSize s < 2 ^ 31.
Proof.
  intros Hg H. apply from_in_table in H. destruct H as (Hin & Hlt & _ & Hpos).
  split; [split; [auto|assumption]|].
  unfold table_ok in Tok. rewrite Forall_forall in Tok.
  apply Tok in Hin. unfold sizeof_FFS_SECTOR_HEADER, sizeof_FFS_FILE_NODE in Hin. lia.
Qed.

Lemma sector_size_ok g :
  0 <= g -> ValidSector T g = true -> 104 <= sector_size T g < 2 ^ 31.
Proof.
  unfold ValidSector, sector_size. intros Hg H.
  destruct (GetFlashSectionEntry T g) as [[[k s] rel]|] eqn:E; [|discriminate].
  eapply addr_ok; eauto.
Qed.

(** A read inside a valid sector succeeds and returns the sector's bytes. *)
Lemma ReadSector_view d g off len :
  0 <= g -> ValidSector T g = true ->
  0 <= off -> 0 <= len -> off + len <= sector_size T g ->
  ReadSector T d g off len
  = (len, Some (map (fun i => sector_byte T d g (off + Z.of_nat i))
                    (seq 0 (Z.to_nat len)))).
Proof.
  unfold ValidSector, sector_size, sector_byte, ReadSector, drv_Read.
  intros Hg Hv Ho Hl Hs.
  destruct (GetFlashSectionEntry T g) as [[[k s] rel]|] eqn:E; [|discriminate].
  destruct (addr_ok _ _ _ _ Hg E) as (Hrel & _).
  replace (in_sector s rel off len) with true; [reflexivity|].
  symmetry. unfold in_sector. rewrite !andb_true_iff.
  repeat split; try apply Z.leb_le; try apply Z.ltb_lt; lia.
Qed.

Lemma ReadSector_fail d g off len :
  0 <= g -> ValidSector T g = true ->
  ~ (0 <= off /\ 0 <= len /\ off + len <= sector_size T g) ->
  ReadSector T d g off len = (DRIVER_RC_ERROR, None).
Proof.
  unfold ValidSector, sector_size, ReadSector, drv_Read.
  intros Hg Hv Hn.
  destruct (GetFlashSectionEntry T g) as [[[k s] rel]|] eqn:E; [|discriminate].
  replace (in_sector s rel off len) with false; [reflexivity|].
  symmetry. apply not_true_is_false. intros H.
  unfold in_sector in H. rewrite !andb_true_iff in H.
  apply Hn. destruct H as ((((H1 & H2) & H3) & H4) & H5).
  apply Z.leb_le in H3, H4, H5. lia.
Qed.

Lemma ReadSector_invalid d g off len :
  ValidSector T g = false ->
  ReadSector T d g off len = (FFS_RC_INVALID_SECTOR_NUMBER, None).
Proof.
  unfold ValidSector, ReadSector.
  destruct (GetFlashSectionEntry T g) as [[[k s] rel]|]; [discriminate|reflexivity].
Qed.

Lemma read_header_view d g sh :
  0 <= g -> ValidSector T g = true ->
  read_header T d g sh = (sizeof_FFS_SECTOR_HEADER, Some (header_of T d g)).
Proof.
  intros Hg Hv. unfold read_header.
  pose proof (sector_size_ok g Hg Hv) as Hs.
  rewrite ReadSector_view by (try assumption; unfold sizeof_FFS_SECTOR_HEADER; lia).
  reflexivity.
Qed.

Lemma read_header_invalid d g sh :
  ValidSector T g = false ->
  read_header T d g sh = (FFS_RC_INVALID_SECTOR_NUMBER, sh).
Proof.
  intros Hv. unfold read_header. rewrite ReadSector_invalid by assumption. reflexivity.
Qed.

Lemma read_fnode_view d g fn :
  0 <= g -> ValidSector T g = true ->
  read_fnode T d g fn = (sizeof_FFS_FILE_NODE, Some (fnode_of T d g)).
Proof.
  intros Hg Hv. unfold read_fnode.
  pose proof (sector_size_ok g Hg Hv) as Hs.
  rewrite ReadSector_view
    by (try assumption; unfold sizeof_FFS_SECTOR_HEADER, sizeof_FFS_FILE_NODE; lia).
  reflexivity.
Qed.

(** Writing inside a valid sector: the touched bytes of that sector are
    and-ed with the data, every other byte of the medium stays. *)
Lemma write_view w g off buf len g' o :
  0 <= g < 2 ^ 32 -> ValidSector T g = true ->
  0 <= g' < 2 ^ 32 ->
  0 <= off -> 0 <= len -> off + len <= sector_size T g ->
  sector_byte T (dev (write_dev T w g off buf len)) g' o
  = if (g' =? g) && within off len o
    then Z.land (sector_byte T (dev w) g' o) (nth (Z.to_nat (o - off)) buf 0xFF)
    else sector_byte T (dev w) g' o.
Proof.
  intros Hg Hv Hg' Ho Hl Hs.
  unfold sector_byte at 1. unfold write_dev, WriteSector, drv_Write.
  unfold ValidSector in Hv. unfold sector_size in Hs.
  destruct (GetFlashSectionEntry T g) as [[[k s] rel]|] eqn:E; [|discriminate].
  destruct (addr_ok _ _ _ _ (proj1 Hg) E) as (Hrel & _).
  replace (in_sector s rel off len) with true
    by (symmetry; unfold in_sector; rewrite !andb_true_iff;
        repeat split; try apply Z.leb_le; try apply Z.ltb_lt; lia).
  cbn [dev set_dev snd cells].
  unfold sector_byte.
  destruct (GetFlashSectionEntry T g') as [[[k' s'] rel']|] eqn:E'.
  - destruct (Z.eqb_spec g' g) as [->|Hne].
    + rewrite E in E'. injection E' as <- <- <-.
      rewrite Nat.eqb_refl, Z.eqb_refl. reflexivity.
    + destruct (Nat.eqb_spec k' k) as [->|Hk]; [|reflexivity].
      destruct (Z.eqb_spec rel' rel) as [->|Hr]; [|reflexivity].
      exfalso. apply Hne. eapply addr_inj; eauto.
  - destruct (Z.eqb_spec g' g) as [->|Hne]; [congruence|reflexivity].
Qed.

Lemma erase_view w g g' o :
  0 <= g < 2 ^ 32 -> ValidSector T g = true ->
  0 <= g' < 2 ^ 32 ->
  sector_byte T (dev (erase_dev T w g)) g' o
  = if g' =? g then 0xFF else sector_byte T (dev w) g' o.
Proof.
  intros Hg Hv Hg'.
  unfold sector_byte at 1. unfold erase_dev, EraseSector, drv_Erase.
  unfold ValidSector in Hv.
  destruct (GetFlashSectionEntry T g) as [[[k s] rel]|] eqn:E; [|discriminate].
  destruct (addr_ok _ _ _ _ (proj1 Hg) E) as (Hrel & _).
  replace ((0 <=? rel) && (rel <? FlashSection.Count s)) with true
    by (symmetry; rewrite andb_true_iff; split;
        [apply Z.leb_le|apply Z.ltb_lt]; lia).
  cbn [dev set_dev snd cells].
  unfold sector_byte.
  destruct (GetFlashSectionEntry T g') as [[[k' s'] rel']|] eqn:E'.
  - destruct (Z.eqb_spec g' g) as [->|Hne].
    + rewrite E in E'. injection E' as <- <- <-.
      rewrite Nat.eqb_refl, Z.eqb_refl. reflexivity.
    + destruct (Nat.eqb_spec k' k) as [->|Hk]; [|reflexivity].
      destruct (Z.eqb_spec rel' rel) as [->|Hr]; [|reflexivity].
      exfalso. apply Hne. eapply addr_inj; eauto.
  - destruct (Z.eqb_spec g' g) as [->|Hne]; [congruence|reflexivity].
Qed.

(** A write that the driver refuses, or to no sector, changes nothing. *)
Lemma write_view_fail w g off buf len g' o :
  0 <= g ->
  ~ (ValidSector T g = true /\ 0 <= off /\ 0 <= len /\ off + len <= sector_size T g) ->
  sector_byte T (dev (write_dev T w g off buf len)) g' o = sector_byte T (dev w) g' o.
Proof.
  intros Hg Hn.
  unfold sector_byte at 1. unfold write_dev, WriteSector, drv_Write.
  unfold ValidSector, sector_size in Hn.
  destruct (GetFlashSectionEntry T g) as [[[k s] rel]|] eqn:E; [|reflexivity].
  destruct (in_sector s rel off len) eqn:Ein; [|reflexivity].
  exfalso. apply Hn. unfold in_sector in Ein. rewrite !andb_true_iff in Ein.
  destruct Ein as ((((H1 & H2) & H3) & H4) & H5).
  apply Z.leb_le in H3, H4, H5. auto.
Qed.

End Views.

(* ------------------------------------------------------------------ *)
(** ** The codec of headers and file nodes *)

Lemma le32_sum v :
  0 <= v < 2 ^ 32 ->
  v mod 256 + 256 * ((v / 256) mod 256) + 65536 * ((v / 65536) mod 256)
  + 16777216 * ((v / 16777216) mod 256) = v.
Proof. change (2 ^ 32) with 4294967296. intros. lia. Qed.

Lemma le16_sum v :
  0 <= v < 65536 -> v mod 256 + 256 * ((v / 256) mod 256) = v.
Proof. intros. lia. Qed.

Lemma le32_bytes v : Forall is_byte (le32 v).
Proof. unfold le32, is_byte. repeat constructor; apply Z.mod_pos_bound; lia. Qed.

Lemma rd32_bound f0 f1 f2 f3 :
  is_byte f0 -> is_byte f1 -> is_byte f2 -> is_byte f3 ->
  is_u32 (f0 + 256 * f1 + 65536 * f2 + 16777216 * f3).
Proof. unfold is_byte, is_u32. change (2 ^ 32) with 4294967296. lia. Qed.

Lemma header_roundtrip h : header_ok h -> header_of_bytes (header_bytes h) = h.
Proof.
  intros (HK & HN & HE & HV & HS & HC & HL & HD).
  destruct h as [K N E V S C L D]. cbn [Key Next EraseCount Version Status SectorChecksum SectorLength DataOffset] in *.
  unfold header_of_bytes, header_bytes, rd32, rd16, byte_at, le32, le16, uchar.
  cbn [app nth Nat.add Key Next EraseCount Version Status SectorChecksum SectorLength DataOffset].
  unfold is_byte in *.
  rewrite !le32_sum, le16_sum by assumption.
  rewrite !Z.mod_small by lia. reflexivity.
Qed.

Lemma header_bytes_bytes h : Forall is_byte (header_bytes h).
Proof.
  unfold header_bytes, le32, le16, uchar, is_byte. cbn [app].
  repeat constructor; apply Z.mod_pos_bound; lia.
Qed.

Lemma map_nth_seq (l : list Z) n :
  length l = n -> map (fun i => nth i l 0) (seq 0 n) = l.
Proof.
  intros <-. apply nth_ext with (d := 0) (d' := 0).
  - rewrite length_map, length_seq. reflexivity.
  - intros i Hi. rewrite length_map, length_seq in Hi.
    rewrite (nth_indep _ 0 (nth 0 l 0)) by (rewrite length_map, length_seq; lia).
    rewrite map_nth with (d := 0%nat). rewrite seq_nth by lia. reflexivity.
Qed.

Lemma header_at_written f h :
  header_ok h ->
  (forall o, 0 <= o < 24 -> f o = nth (Z.to_nat o) (header_bytes h) 0) ->
  header_at f = h.
Proof.
  intros Hok Hf. unfold header_at.
  transitivity (header_of_bytes (header_bytes h)); [|apply header_roundtrip; assumption].
  f_equal.
  rewrite <- (map_nth_seq (header_bytes h) 24) by reflexivity.
  apply map_ext_in. intros i Hi. apply in_seq in Hi.
  rewrite Hf by lia. f_equal. lia.
Qed.

Lemma In_firstn (A : Type) (x : A) n :
  forall l, In x (firstn n l) -> In x l.
Proof.
  induction n as [|n IH]; intros [|a l] H; cbn in H; try contradiction.
  destruct H as [H|H]; [left; assumption|right; auto].
Qed.

Lemma In_skipn (A : Type) (x : A) n :
  forall l, In x (skipn n l) -> In x l.
Proof.
  induction n as [|n IH]; intros [|a l] H; cbn in H; try contradiction; auto.
  right. auto.
Qed.

Lemma Forall_firstn (P : Z -> Prop) n l : Forall P l -> Forall P (firstn n l).
Proof.
  rewrite !Forall_forall. intros H x Hx. apply H. eapply In_firstn; eauto.
Qed.

Lemma Forall_skipn (P : Z -> Prop) n l : Forall P l -> Forall P (skipn n l).
Proof.
  rewrite !Forall_forall. intros H x Hx. apply H. eapply In_skipn; eauto.
Qed.

Lemma Forall_fit n l : Forall is_byte l -> Forall is_byte (fit n l).
Proof.
  intros H. unfold fit. apply Forall_forall. intros x Hx.
  apply In_firstn in Hx. apply in_app_or in Hx. destruct Hx as [Hx|Hx].
  - rewrite Forall_forall in H. auto.
  - apply repeat_spec in Hx. subst. unfold is_byte. lia.
Qed.

Lemma fit_exact n l : length l = n -> fit n l = l.
Proof.
  intros <-. unfold fit. rewrite firstn_app, Nat.sub_diag, firstn_all. cbn.
  apply app_nil_r.
Qed.

Lemma fnode_bytes_bytes f : Forall is_byte (Filename f) -> Forall is_byte (FnodePad f) ->
  Forall is_byte (fnode_bytes f).
Proof.
  intros H1 H2. unfold fnode_bytes.
  repeat (apply Forall_app; split); auto using Forall_fit, le32_bytes.
  constructor; [|constructor]. unfold uchar, is_byte. apply Z.mod_pos_bound. lia.
Qed.

Lemma fnode_roundtrip f : fnode_ok f -> fnode_of_bytes (fnode_bytes f) = f.
Proof.
  intros (HP & HL & HF & HPl & HPb & HS & HT & HC).
  destruct f as [P N Pd S Tm C].
  cbn [Permissions Filename FnodePad FileSize DataTime Count] in *.
  unfold fnode_bytes.
  cbn [Permissions Filename FnodePad FileSize DataTime Count].
  rewrite (fit_exact 65 N HL), (fit_exact 2 Pd HPl).
  do 65 (destruct N as [|? N]; [discriminate HL|]).
  destruct N; [|discriminate HL].
  do 2 (destruct Pd as [|? Pd]; [discriminate HPl|]).
  destruct Pd; [|discriminate HPl].
  unfold fnode_of_bytes, rd32, byte_at, le32, uchar.
  cbn [app nth Nat.add firstn skipn].
  unfold is_byte in HP.
  rewrite !le32_sum by assumption. rewrite Z.mod_small by lia. reflexivity.
Qed.

Section Written.
Variable T : list FFS_FLASH_SECTION.

Lemma header_of_written d g h :
  header_ok h ->
  (forall o, 0 <= o < 24 -> sector_byte T d g o = nth (Z.to_nat o) (header_bytes h) 0) ->
  header_of T d g = h.
Proof. intros. apply header_at_written; assumption. Qed.

Lemma fnode_of_written d g f :
  fnode_ok f ->
  (forall i, 0 <= i < 80 ->
             sector_byte T d g (24 + i) = nth (Z.to_nat i) (fnode_bytes f) 0) ->
  fnode_of T d g = f.
Proof.
  intros Hok Hf. unfold fnode_of.
  transitivity (fnode_of_bytes (fnode_bytes f)); [|apply fnode_roundtrip; assumption].
  f_equal.
  rewrite <- (map_nth_seq (fnode_bytes f) 80) by apply length_fnode_bytes.
  apply map_ext_in. intros i Hi. apply in_seq in Hi.
  unfold sizeof_FFS_SECTOR_HEADER. rewrite Hf by lia. f_equal. lia.
Qed.

End Written.

(* ------------------------------------------------------------------ *)
(** ** The scans of LocateFileNode and FindFreeSector *)

Section Scans.
Variable T : list FFS_FLASH_SECTION.
Hypothesis Tok : table_ok T.

Lemma ulong_nonneg x : 0 <= ulong x < 2 ^ 32.
Proof. unfold ulong. apply Z.mod_pos_bound. lia. Qed.

Lemma ulong_small x : 0 <= x < 2 ^ 32 -> ulong x = x.
Proof. intros. unfold ulong. apply Z.mod_small. assumption. Qed.

Lemma ulong_succ j i : ulong (ulong (j + 1) + i) = ulong (j + (1 + i)).
Proof.
  unfold ulong. rewrite Zplus_mod_idemp_l. f_equal. lia.
Qed.

Lemma LocateFileNode_loop_step fuel d cn g sh fn :
  0 <= g -> ValidSector T g = true ->
  LocateFileNode_loop T (S fuel) d cn g sh fn =
  match name_at T d g with
  | Ret (Some s) =>
      if str_eqb s cn then Ret (Some (g, fnode_of T d g))
      else LocateFileNode_loop T fuel d cn (ulong (g + 1))
                               (Some (header_of T d g)) (Some (fnode_of T d g))
  | Ret None =>
      LocateFileNode_loop T fuel d cn (ulong (g + 1)) (Some (header_of T d g)) fn
  | Fault f => Fault f
  | OutOfFuel => OutOfFuel
  end.
Proof.
  intros Hg Hv. cbn [LocateFileNode_loop]. rewrite Hv.
  rewrite (read_header_view T Tok d g sh Hg Hv). cbn [snd need bind].
  unfold name_at.
  destruct (Status (header_of T d g) =? FFS_SECTOR_HEADER_INUSE_FILENODE); [|reflexivity].
  rewrite (read_fnode_view T Tok d g fn Hg Hv). cbn [snd need bind].
  destruct (array_str (Filename (fnode_of T d g))); reflexivity.
Qed.

Lemma LocateFileNode_loop_stop fuel d cn g sh fn :
  ValidSector T g = false ->
  LocateFileNode_loop T (S fuel) d cn g sh fn = Ret None.
Proof. intros Hv. cbn [LocateFileNode_loop]. rewrite Hv. reflexivity. Qed.

Lemma scan_prefix_S (P : Z -> Prop) j m :
  0 <= j < 2 ^ 32 ->
  ValidSector T j = true -> P j ->
  scan_prefix T P (ulong (j + 1)) m -> scan_prefix T P j (S m).
Proof.
  intros Hj Hv Hp Hpre [|i] Hi.
  - rewrite Z.add_0_r, ulong_small by assumption. auto.
  - rewrite Nat2Z.inj_succ. unfold Z.succ.
    replace (j + (Z.of_nat i + 1)) with (j + (1 + Z.of_nat i)) by lia.
    rewrite <- ulong_succ. apply Hpre. lia.
Qed.

Lemma scan_prefix_inv (P : Z -> Prop) j m :
  0 <= j < 2 ^ 32 ->
  scan_prefix T P j (S m) ->
  ValidSector T j = true /\ P j /\ scan_prefix T P (ulong (j + 1)) m.
Proof.
  intros Hj H.
  pose proof (H 0%nat ltac:(lia)) as H0.
  rewrite Z.add_0_r, ulong_small in H0 by assumption.
  destruct H0 as (Hv & Hp). split; [exact Hv|]. split; [exact Hp|].
  intros i Hi. rewrite ulong_succ.
  replace (j + (1 + Z.of_nat i)) with (j + Z.of_nat (S i)) by lia.
  apply H. lia.
Qed.

Lemma scan_shift j m : ulong (ulong (j + 1) + Z.of_nat m) = ulong (j + Z.of_nat (S m)).
Proof. rewrite ulong_succ. f_equal. lia. Qed.

(** What a scan that returns has met. *)
Lemma LocateFileNode_loop_run fuel :
  forall d cn j sh fn r,
    0 <= j < 2 ^ 32 ->
    LocateFileNode_loop T fuel d cn j sh fn = Ret r ->
    exists m : nat,
      (m < fuel)%nat
      /\ scan_prefix T (passes T d cn) j m
      /\ scan_result T d cn j m r.
Proof.
  induction fuel as [|fuel IH]; intros d cn j sh fn r Hj H; [discriminate|].
  destruct (ValidSector T j) eqn:Hv.
  - rewrite LocateFileNode_loop_step in H by (try assumption; lia).
    assert (Hnext : forall sh' fn',
               LocateFileNode_loop T fuel d cn (ulong (j + 1)) sh' fn' = Ret r ->
               passes T d cn j ->
               exists m : nat,
                 (m < S fuel)%nat
                 /\ scan_prefix T (passes T d cn) j m
                 /\ scan_result T d cn j m r).
    { intros sh' fn' H' Hp.
      apply IH in H'; [|apply ulong_nonneg].
      destruct H' as (m & Hm & Hpre & Hr).
      exists (S m). split; [lia|]. split.
      - apply scan_prefix_S; assumption.
      - unfold scan_result in *. rewrite <- scan_shift. exact Hr. }
    destruct (name_at T d j) as [[s|]| |] eqn:Hn; try discriminate.
    + destruct (str_eqb s cn) eqn:Es.
      * injection H as <-. exists 0%nat. split; [lia|]. split.
        -- intros i Hi. lia.
        -- unfold scan_result. rewrite Z.add_0_r, ulong_small by assumption.
           repeat split; auto. exists s. auto.
      * eapply Hnext; eauto. right. eauto.
    + eapply Hnext; eauto. left. assumption.
  - rewrite LocateFileNode_loop_stop in H by assumption. injection H as <-.
    exists 0%nat. split; [lia|]. split.
    + intros i Hi. lia.
    + unfold scan_result. rewrite Z.add_0_r, ulong_small by assumption. assumption.
Qed.

(** A scan with enough fuel returns what it meets. *)
Lemma LocateFileNode_loop_build m :
  forall fuel d cn j sh fn r,
    0 <= j < 2 ^ 32 ->
    (m < fuel)%nat ->
    scan_prefix T (passes T d cn) j m ->
    scan_result T d cn j m r ->
    LocateFileNode_loop T fuel d cn j sh fn = Ret r.
Proof.
  induction m as [|m IH]; intros fuel d cn j sh fn r Hj Hm Hpre Hr;
    (destruct fuel as [|fuel]; [lia|]).
  - unfold scan_result in Hr. rewrite Z.add_0_r, ulong_small in Hr by assumption.
    destruct r as [[g f]|].
    + destruct Hr as (-> & Hv & (s & Hn & Es) & ->).
      rewrite LocateFileNode_loop_step by (try assumption; lia).
      rewrite Hn, Es. reflexivity.
    + apply LocateFileNode_loop_stop. assumption.
  - apply scan_prefix_inv in Hpre; [|assumption].
    destruct Hpre as (Hv & Hp & Hpre).
    rewrite LocateFileNode_loop_step by (try assumption; lia).
    assert (Hgo : forall sh' fn',
               LocateFileNode_loop T fuel d cn (ulong (j + 1)) sh' fn' = Ret r).
    { intros. apply IH; try assumption; try lia; [apply ulong_nonneg|].
      unfold scan_result in *. rewrite scan_shift. exact Hr. }
    destruct Hp as [Hn|(s & Hn & Es)]; rewrite Hn; [|rewrite Es]; apply Hgo.
Qed.

(** The allocator's scan. *)
Lemma FindFreeSector_loop_step fuel w g sh :
  0 <= g -> ValidSector T g = true ->
  FindFreeSector_loop T (S fuel) w g sh =
  let h := header_of T (dev w) g in
  match GetFlashSectionEntry T g with
  | None => Ret (0, g, sh, END_OF_TABLE, w)
  | Some (_, Section, _) =>
      if Key h =? FFS_SECTOR_HEADER_KEY then
        if (Status h =? FFS_SECTOR_HEADER_FREE)
           || (Status h =? FFS_SECTOR_HEADER_FREE_DIRTY)
        then Ret (1, g, Some h, Section, w)
        else FindFreeSector_loop T fuel w (ulong (g + 1)) (Some h)
      else Ret (1, g, Some h, Section,
                if 1 >? ErrorSectorCount (globals w)
                then set_ErrorSectorCount 1 w else w)
  end.
Proof.
  intros Hg Hv. cbn [FindFreeSector_loop].
  destruct (GetFlashSectionEntry T g) as [[[k s] rel]|]; [|reflexivity].
  rewrite (read_header_view T Tok (dev w) g sh Hg Hv). reflexivity.
Qed.

Lemma busy_dec d g :
  {busy T d g} + {~ busy T d g}.
Proof.
  unfold busy.
  destruct (Z.eq_dec (Key (header_of T d g)) FFS_SECTOR_HEADER_KEY);
    destruct (Z.eq_dec (Status (header_of T d g)) FFS_SECTOR_HEADER_FREE);
    destruct (Z.eq_dec (Status (header_of T d g)) FFS_SECTOR_HEADER_FREE_DIRTY);
    tauto.
Qed.

Lemma FindFreeSector_loop_run fuel :
  forall w j sh found N sh' sec w',
    0 <= j < 2 ^ 32 ->
    FindFreeSector_loop T fuel w j sh = Ret (found, N, sh', sec, w') ->
    exists m : nat,
      (m < fuel)%nat
      /\ scan_prefix T (busy T (dev w)) j m
      /\ N = ulong (j + Z.of_nat m)
      /\ dev w' = dev w
      /\ FileDescriptors (globals w') = FileDescriptors (globals w)
      /\ ((found = 0 /\ ValidSector T N = false)
          \/ (found = 1 /\ ValidSector T N = true /\ ~ busy T (dev w) N
              /\ sh' = Some (header_of T (dev w) N)
              /\ FlashSection.SectorSize sec = sector_size T N)).
Proof.
  induction fuel as [|fuel IH]; intros w j sh found N sh' sec w' Hj H; [discriminate|].
  destruct (ValidSector T j) eqn:Hv.
  - rewrite FindFreeSector_loop_step in H by (try assumption; lia).
    cbv zeta in H.
    assert (Hz : forall m : nat, m = 0%nat -> ulong (j + Z.of_nat m) = j).
    { intros m ->. rewrite Z.add_0_r. apply ulong_small. assumption. }
    unfold ValidSector in Hv.
    destruct (GetFlashSectionEntry T j) as [[[k s] rel]|] eqn:Ea; [|discriminate].
    assert (Hsz : FlashSection.SectorSize s = sector_size T j).
    { unfold sector_size. rewrite Ea. reflexivity. }
    assert (Hv' : ValidSector T j = true) by (unfold ValidSector; rewrite Ea; reflexivity).
    destruct (Key (header_of T (dev w) j) =? FFS_SECTOR_HEADER_KEY) eqn:EK.
    + destruct ((Status (header_of T (dev w) j) =? FFS_SECTOR_HEADER_FREE)
                || (Status (header_of T (dev w) j) =? FFS_SECTOR_HEADER_FREE_DIRTY)) eqn:ES.
      * injection H as <- <- <- <- <-. exists 0%nat.
        split; [lia|]. split; [intros i Hi; lia|].
        split; [symmetry; apply Hz; reflexivity|].
        split; [reflexivity|]. split; [reflexivity|]. right.
        repeat split; auto. unfold busy. intros (_ & H1 & H2).
        apply orb_true_iff in ES. destruct ES as [E|E]; apply Z.eqb_eq in E; auto.
      * apply IH in H; [|apply ulong_nonneg].
        destruct H as (m & Hm & Hpre & HN & Hd & Hfd & Hres).
        exists (S m). split; [lia|]. split.
        -- apply scan_prefix_S; try assumption.
           apply orb_false_iff in ES. destruct ES as [E1 E2].
           apply Z.eqb_eq in EK. apply Z.eqb_neq in E1, E2.
           unfold busy. auto.
        -- rewrite <- scan_shift. auto.
    + injection H as <- <- <- <- <-. exists 0%nat.
      split; [lia|]. split; [intros i Hi; lia|].
      split; [symmetry; apply Hz; reflexivity|].
      split; [destruct (1 >? ErrorSectorCount (globals w)); reflexivity|].
      split; [destruct (1 >? ErrorSectorCount (globals w)); reflexivity|].
      right. repeat split; auto. unfold busy. intros (H1 & _).
      apply Z.eqb_neq in EK. auto.
  - cbn [FindFreeSector_loop] in H. unfold ValidSector in Hv.
    destruct (GetFlashSectionEntry T j) as [[[k s] rel]|] eqn:Ea; [discriminate|].
    injection H as <- <- <- <- <-. exists 0%nat.
    split; [lia|]. split; [intros i Hi; lia|].
    rewrite Z.add_0_r, ulong_small by assumption.
    repeat split; auto. left. split; [reflexivity|].
    unfold ValidSector. rewrite Ea. reflexivity.
Qed.

End Scans.

(* ------------------------------------------------------------------ *)
(** ** The layout of a new file on a fresh volume *)

Section Layout.
Variable T : list FFS_FLASH_SECTION.
Hypothesis Tok : table_ok T.

Lemma data_off_cases g : data_off g = 104 \/ data_off g = 24.
Proof. unfold data_off. destruct (g =? 0); [left|right]; reflexivity. Qed.

Lemma capacity_nonneg g :
  0 <= g -> ValidSector T g = true -> 0 <= capacity T g < 2 ^ 31.
Proof.
  intros Hg Hv. pose proof (sector_size_ok T Tok g Hg Hv).
  unfold capacity. destruct (data_off_cases g) as [->| ->]; lia.
Qed.

Lemma capacity_plain g :
  0 < g -> ValidSector T g = true -> 80 <= capacity T g.
Proof.
  intros Hg Hv. pose proof (sector_size_ok T Tok g ltac:(lia) Hv).
  unfold capacity, data_off. destruct (Z.eqb_spec g 0); [lia|].
  unfold sizeof_FFS_SECTOR_HEADER. lia.
Qed.

Lemma base_succ g : 0 <= g -> base T (g + 1) = base T g + capacity T g.
Proof.
  intros Hg. unfold base.
  replace (Z.to_nat (g + 1)) with (S (Z.to_nat g)) by lia.
  cbn [base_n]. rewrite Z2Nat.id by assumption. reflexivity.
Qed.

Lemma base_0 : base T 0 = 0.
Proof. reflexivity. Qed.

Lemma base_nonneg_n k n :
  prefix_valid T k -> Z.of_nat n <= k -> 0 <= base_n T n.
Proof.
  intros Hp. induction n as [|n IH]; intros Hn; [cbn; lia|].
  cbn [base_n].
  assert (0 <= capacity T (Z.of_nat n) < 2 ^ 31).
  { apply capacity_nonneg; [lia|]. apply Hp. lia. }
  assert (0 <= base_n T n) by (apply IH; lia). lia.
Qed.

Lemma base_mono_n k n m :
  prefix_valid T k -> (n <= m)%nat -> Z.of_nat m <= k ->
  0 <= base_n T n <= base_n T m.
Proof.
  intros Hp Hnm Hm. split; [apply base_nonneg_n with (k := k); auto; lia|].
  induction m as [|m IH].
  - assert (n = 0%nat) by lia. subst. lia.
  - destruct (Nat.eq_dec n (S m)) as [->|Hne]; [lia|].
    cbn [base_n].
    assert (0 <= capacity T (Z.of_nat m) < 2 ^ 31).
    { apply capacity_nonneg; [lia|]. apply Hp. lia. }
    assert (base_n T n <= base_n T m) by (apply IH; lia). lia.
Qed.

Lemma base_mono k a b :
  prefix_valid T k -> 0 <= a <= b -> b <= k -> 0 <= base T a <= base T b.
Proof.
  intros Hp Hab Hb. unfold base. apply base_mono_n with (k := k); auto; lia.
Qed.

Lemma base_lower k g :
  prefix_valid T k -> 1 <= g <= k -> 80 * (g - 1) <= base T g.
Proof.
  intros Hp Hg.
  assert (H : forall n : nat, (1 <= n)%nat -> Z.of_nat n <= k ->
                              80 * (Z.of_nat n - 1) <= base_n T n).
  { induction n as [|n IH]; intros H1 H2; [lia|].
    cbn [base_n]. destruct n as [|n].
    - cbn [base_n]. assert (0 <= capacity T 0 < 2 ^ 31).
      { apply capacity_nonneg; [lia|]. apply Hp. lia. }
      change (Z.of_nat 0) with 0. lia.
    - assert (80 <= capacity T (Z.of_nat (S n))).
      { apply capacity_plain; [lia|]. apply Hp. lia. }
      assert (80 * (Z.of_nat (S n) - 1) <= base_n T (S n)) by (apply IH; lia).
      lia. }
  unfold base. specialize (H (Z.to_nat g)). rewrite Z2Nat.id in H by lia.
  apply H; lia.
Qed.

Lemma land_ff b : is_byte b -> Z.land 0xFF b = b.
Proof.
  intros Hb. rewrite Z.land_comm. change 255 with (Z.ones 8).
  rewrite Z.land_ones by lia. apply Z.mod_small. exact Hb.
Qed.

Lemma header_img_ok k g :
  0 <= g -> g + 1 < 2 ^ 32 -> ValidSector T g = true -> header_ok (header_img T k g).
Proof.
  intros Hg Hg1 Hv. pose proof (sector_size_ok T Tok g Hg Hv) as Hs.
  unfold header_ok, header_img, is_u32, is_byte.
  cbn [Key Next EraseCount Version Status SectorChecksum SectorLength DataOffset].
  change (2 ^ 32) with 4294967296 in *. change (2 ^ 31) with 2147483648 in *.
  unfold FFS_SECTOR_HEADER_KEY, MINUS_ONE, FFS_FILE_SYSTEM_VERSION,
    FFS_SECTOR_HEADER_INUSE_FILENODE, FFS_SECTOR_HEADER_INUSE.
  destruct (g + 1 <? k); destruct (g =? 0) eqn:E;
    destruct (data_off_cases g) as [-> | ->]; lia.
Qed.

Lemma image_header k D g o :
  0 <= g < k -> 0 <= o < 24 ->
  image T k D g o = nth (Z.to_nat o) (header_bytes (header_img T k g)) 0.
Proof.
  intros Hg Ho. unfold image.
  replace ((0 <=? g) && (g <? k) && (0 <=? o)) with true
    by (symmetry; rewrite !andb_true_iff; repeat split;
        try apply Z.leb_le; try apply Z.ltb_lt; lia).
  unfold sizeof_FFS_SECTOR_HEADER.
  destruct (Z.ltb_spec o 24); [|lia].
  apply nth_indep. rewrite length_header_bytes. lia.
Qed.

Lemma shows_header d k D g :
  shows T d (image T k D) -> prefix_valid T k ->
  0 <= g < k -> g + 1 < 2 ^ 32 ->
  header_of T d g = header_img T k g.
Proof.
  intros Hs Hp Hg Hg1. apply header_of_written.
  - apply header_img_ok; try lia. apply Hp. lia.
  - intros o Ho. rewrite Hs by (try (apply Hp); lia).
    apply image_header; lia.
Qed.

Lemma image_outside k D g o : k <= g -> image T k D g o = 0xFF.
Proof.
  intros Hg. unfold image.
  destruct (Z.ltb_spec g k); [lia|]. rewrite andb_false_r. reflexivity.
Qed.

Lemma header_at_virgin f : (forall o, f o = 0xFF) -> Key (header_at f) = 0xFFFFFFFF
  /\ EraseCount (header_at f) = 0xFFFFFFFF /\ Next (header_at f) = 0xFFFFFFFF
  /\ SectorLength (header_at f) = 0xFFFFFFFF /\ DataOffset (header_at f) = 0xFFFFFFFF
  /\ Status (header_at f) = 0xFF.
Proof.
  intros H. rewrite header_at_fields.
  cbn [Key Next EraseCount Status SectorLength DataOffset]. rewrite !H.
  repeat split; reflexivity.
Qed.

Lemma header_bytes_same_but_Next h h' o :
  Key h = Key h' -> EraseCount h = EraseCount h' -> Version h = Version h' ->
  Status h = Status h' -> SectorChecksum h = SectorChecksum h' ->
  SectorLength h = SectorLength h' -> DataOffset h = DataOffset h' ->
  ~ (4 <= o < 8) ->
  nth (Z.to_nat o) (header_bytes h) 0xFF = nth (Z.to_nat o) (header_bytes h') 0xFF.
Proof.
  intros HK HE HV HS HC HL HD Ho.
  destruct h as [a1 a2 a3 a4 a5 a6 a7 a8], h' as [b1 b2 b3 b4 b5 b6 b7 b8].
  cbn [Key EraseCount Version Status SectorChecksum SectorLength DataOffset] in *.
  subst. unfold header_bytes.
  cbn [Key Next EraseCount Version Status SectorChecksum SectorLength DataOffset].
  unfold le32, le16. cbn [app].
  destruct (Z_lt_dec o 0) as [Hneg|Hpos].
  { replace (Z.to_nat o) with 0%nat by lia. reflexivity. }
  destruct (Z_lt_dec o 24) as [Hlt|Hge].
  - assert (Hc : o = 0 \/ o = 1 \/ o = 2 \/ o = 3 \/ o = 8 \/ o = 9 \/ o = 10
                 \/ o = 11 \/ o = 12 \/ o = 13 \/ o = 14 \/ o = 15 \/ o = 16
                 \/ o = 17 \/ o = 18 \/ o = 19 \/ o = 20 \/ o = 21 \/ o = 22
                 \/ o = 23) by lia.
    repeat (destruct Hc as [-> | Hc]; [reflexivity|]). subst. reflexivity.
  - rewrite !nth_overflow; [reflexivity|cbn [length]; lia|cbn [length]; lia].
Qed.

Lemma header_bytes_Next h o :
  4 <= o < 8 ->
  nth (Z.to_nat o) (header_bytes h) 0xFF = nth (Z.to_nat (o - 4)) (le32 (Next h)) 0xFF.
Proof.
  intros Ho. assert (Hc : o = 4 \/ o = 5 \/ o = 6 \/ o = 7) by lia.
  destruct Hc as [-> | [-> | [-> | ->]]]; reflexivity.
Qed.

Lemma nth_byte (l : list Z) i : Forall is_byte l -> is_byte (nth i l 0xFF).
Proof.
  intros H. destruct (Nat.lt_ge_cases i (length l)) as [Hi|Hi].
  - rewrite Forall_forall in H. apply H. apply nth_In. assumption.
  - rewrite nth_overflow by assumption. unfold is_byte. lia.
Qed.

(** [write] puts data after the data already there. *)
Lemma write_data_shows w k D c off R :
  shows T (dev w) (image T k D) -> prefix_valid T k ->
  1 <= k < 2 ^ 32 -> c = k - 1 ->
  base T c <= Z.of_nat (length D) ->
  off = data_off c + (Z.of_nat (length D) - base T c) ->
  off + Z.of_nat (length R) <= sector_size T c ->
  Forall is_byte R ->
  shows T (dev (write_dev T w c off R (Z.of_nat (length R))))
        (image T k (D ++ R)).
Proof.
  intros Hs Hp Hk -> HD -> Hfit HR g o Hg Hv.
  assert (Hvc : ValidSector T (k - 1) = true) by (apply Hp; lia).
  pose proof (data_off_cases (k - 1)) as Hdo.
  assert (Hb0 : 0 <= base T 0 <= base T (k - 1)) by (apply (base_mono k); auto; lia).
  rewrite write_view; try assumption; try lia.
  rewrite !Hs by assumption.
  destruct (Z.eqb_spec g (k - 1)) as [->|Hne]; cbn [andb].
  - destruct (within _ _ o) eqn:Ew.
    + apply within_true in Ew.
      unfold image.
      replace ((0 <=? k - 1) && (k - 1 <? k) && (0 <=? o)) with true
        by (symmetry; rewrite !andb_true_iff; repeat split;
            try apply Z.leb_le; try apply Z.ltb_lt; lia).
      unfold sizeof_FFS_SECTOR_HEADER.
      destruct (Z.ltb_spec o 24); [lia|].
      destruct (Z.ltb_spec o (data_off (k - 1))); [lia|].
      destruct (Z.ltb_spec o (sector_size T (k - 1))); [|lia]. cbn [andb].
      destruct (Z.ltb_spec (base T (k - 1) + (o - data_off (k - 1)))
                           (Z.of_nat (length D))); [lia|].
      rewrite length_app.
      destruct (Z.ltb_spec (base T (k - 1) + (o - data_off (k - 1)))
                           (Z.of_nat (length D + length R))); [|lia].
      rewrite app_nth2 by lia.
      replace (Z.to_nat (base T (k - 1) + (o - data_off (k - 1))) - length D)%nat
        with (Z.to_nat (o - (data_off (k - 1) + (Z.of_nat (length D) - base T (k - 1)))))
        by lia.
      apply land_ff. apply nth_byte. assumption.
    + assert (Ew' : ~ (data_off (k - 1) + (Z.of_nat (length D) - base T (k - 1)) <= o
                      < data_off (k - 1) + (Z.of_nat (length D) - base T (k - 1))
                        + Z.of_nat (length R))).
      { intros Hc. apply within_true in Hc. congruence. }
      unfold image.
      destruct ((0 <=? k - 1) && (k - 1 <? k) && (0 <=? o)); [|reflexivity].
      destruct (o <? sizeof_FFS_SECTOR_HEADER); [reflexivity|].
      destruct (o <? data_off (k - 1)) eqn:E2; [reflexivity|].
      apply Z.ltb_ge in E2.
      rewrite length_app.
      destruct (Z.ltb_spec o (sector_size T (k - 1))); cbn [andb]; [|reflexivity].
      destruct (Z.ltb_spec (base T (k - 1) + (o - data_off (k - 1)))
                           (Z.of_nat (length D))).
      * destruct (Z.ltb_spec (base T (k - 1) + (o - data_off (k - 1)))
                             (Z.of_nat (length D + length R))); [|lia].
        rewrite app_nth1 by lia. reflexivity.
      * destruct (Z.ltb_spec (base T (k - 1) + (o - data_off (k - 1)))
                             (Z.of_nat (length D + length R))); [lia|reflexivity].
  - unfold image.
    destruct ((0 <=? g) && (g <? k) && (0 <=? o)) eqn:E0; [|reflexivity].
    rewrite !andb_true_iff in E0. destruct E0 as ((E1 & E2) & E3).
    apply Z.leb_le in E1, E3. apply Z.ltb_lt in E2.
    destruct (o <? sizeof_FFS_SECTOR_HEADER); [reflexivity|].
    destruct (o <? data_off g) eqn:E4; [reflexivity|]. apply Z.ltb_ge in E4.
    rewrite length_app.
    destruct (Z.ltb_spec o (sector_size T g)); cbn [andb]; [|reflexivity].
    assert (Hb : base T g + capacity T g <= base T (k - 1)).
    { rewrite <- base_succ by lia. apply (base_mono k); auto; lia. }
    assert (Hbg : 0 <= base T 0 <= base T g) by (apply (base_mono k); auto; lia).
    unfold capacity in Hb.
    destruct (Z.ltb_spec (base T g + (o - data_off g)) (Z.of_nat (length D))); [|lia].
    destruct (Z.ltb_spec (base T g + (o - data_off g))
                         (Z.of_nat (length D + length R))); [|lia].
    rewrite app_nth1 by lia. reflexivity.
Qed.

Lemma busy_in_layout d k D g :
  shows T d (image T k D) -> prefix_valid T k ->
  0 <= g < k -> g + 1 < 2 ^ 32 -> busy T d g.
Proof.
  intros Hs Hp Hg Hg1. unfold busy.
  rewrite (shows_header d k D g Hs Hp Hg Hg1).
  unfold header_img. cbn [Key Status].
  split; [reflexivity|]. destruct (g =? 0); split; discriminate.
Qed.

Lemma virgin_beyond_layout d k D g :
  shows T d (image T k D) -> 0 <= g < 2 ^ 32 -> k <= g ->
  ValidSector T g = true -> forall o, sector_byte T d g o = 0xFF.
Proof.
  intros Hs Hg Hk Hv o. rewrite Hs by assumption. apply image_outside. assumption.
Qed.

Lemma not_busy_beyond_layout d k D g :
  shows T d (image T k D) -> 0 <= g < 2 ^ 32 -> k <= g ->
  ValidSector T g = true -> ~ busy T d g.
Proof.
  intros Hs Hg Hk Hv (HK & _).
  unfold header_of in HK.
  destruct (header_at_virgin (sector_byte T d g)
              (virgin_beyond_layout d k D g Hs Hg Hk Hv)) as (HK' & _).
  rewrite HK' in HK. discriminate.
Qed.

(** The allocator on a laid-out volume: it takes sector [k]. *)
Lemma allocate_on_layout fuel w sh st doff k D rc N sh' w' :
  shows T (dev w) (image T k D) -> prefix_valid T k ->
  0 <= k < 2 ^ 32 - 1 ->
  st = (if k =? 0 then FFS_SECTOR_HEADER_INUSE_FILENODE else FFS_SECTOR_HEADER_INUSE) ->
  doff = data_off k ->
  allocate T fuel w sh st doff = Ret (rc, N, sh', w') -> rc = 0 ->
  N = k /\ ValidSector T k = true /\ k < Z.of_nat fuel
  /\ sh' = Some (header_img T (k + 1) k)
  /\ FileDescriptors (globals w') = FileDescriptors (globals w)
  /\ (forall g o, 0 <= g < 2 ^ 32 -> ValidSector T g = true ->
        sector_byte T (dev w') g o
        = if (g =? k) && (0 <=? o) && (o <? 24)
          then nth (Z.to_nat o) (header_bytes (header_img T (k + 1) k)) 0xFF
          else image T k D g o).
Proof.
  intros Hs Hp Hk -> -> H ->. unfold allocate, FindFreeSector in H.
  destruct (FindFreeSector_loop T fuel w 0 sh) as [[[[[found N0] sh0] sec] w0]| |] eqn:HF;
    try discriminate.
  cbn [bind] in H.
  apply (FindFreeSector_loop_run T Tok) in HF; [|lia].
  destruct HF as (m & Hm & Hpre & HN & Hd & Hfd & Hres).
  destruct Hres as [(-> & _)|(-> & Hv & Hnb & -> & Hsz)].
  { cbn in H. discriminate. }
  change (1 =? 0) with false in H. cbn [need bind] in H.
  injection H as <- <- <-.
  rewrite Z.add_0_l in HN.
  assert (Hmk : Z.of_nat m = k).
  { destruct (Z.lt_trichotomy (Z.of_nat m) k) as [Hlt|[Heq|Hgt]]; [|assumption|].
    - exfalso. rewrite ulong_small in HN by lia. subst N0.
      apply Hnb. apply (busy_in_layout _ k D); auto; lia.
    - exfalso. destruct (Hpre (Z.to_nat k) ltac:(lia)) as (Hvk & Hbk).
      rewrite Z.add_0_l, Z2Nat.id, ulong_small in Hvk, Hbk by lia.
      revert Hbk. apply (not_busy_beyond_layout _ k D); auto; lia. }
  rewrite Hmk, ulong_small in HN by lia. subst N0.
  split; [reflexivity|]. split; [assumption|]. split; [lia|].
  pose proof (sector_size_ok T Tok k ltac:(lia) Hv) as Hsk.
  assert (Hh : fresh_header (header_of T (dev w) k) sec
                 (if k =? 0 then FFS_SECTOR_HEADER_INUSE_FILENODE
                  else FFS_SECTOR_HEADER_INUSE) (data_off k)
               = header_img T (k + 1) k).
  { unfold fresh_header, header_img, header_of.
    destruct (header_at_virgin (sector_byte T (dev w) k)
                (virgin_beyond_layout (dev w) k D k Hs ltac:(lia) ltac:(lia) Hv))
      as (_ & HE & _).
    rewrite HE, Hsz. rewrite (ulong_small (sector_size T k)) by lia.
    destruct (Z.ltb_spec (k + 1) (k + 1)); [lia|]. reflexivity. }
  rewrite Hh. split; [reflexivity|]. split; [assumption|].
  intros g o Hg Hvg.
  pose proof (sector_size_ok T Tok k ltac:(lia) Hv).
  rewrite write_view; try assumption; try (unfold sizeof_FFS_SECTOR_HEADER; lia).
  rewrite !erase_view; try assumption; try lia.
  unfold sector_byte at 1 2. rewrite Hd. fold (sector_byte T (dev w) g o).
  destruct (Z.eqb_spec g k) as [->|Hne]; cbn [andb].
  - unfold within, sizeof_FFS_SECTOR_HEADER. rewrite Z.add_0_l.
    destruct ((0 <=? o) && (o <? 24)).
    + rewrite Z.sub_0_r. apply land_ff. apply nth_byte. apply header_bytes_bytes.
    + symmetry. apply image_outside. lia.
  - apply Hs; assumption.
Qed.

Lemma first_alloc_shows d :
  (forall g o, 0 <= g < 2 ^ 32 -> ValidSector T g = true ->
     sector_byte T d g o
     = if (g =? 0) && (0 <=? o) && (o <? 24)
       then nth (Z.to_nat o) (header_bytes (header_img T (0 + 1) 0)) 0xFF
       else image T 0 [] g o) ->
  shows T d (image T 1 []).
Proof.
  intros H g o Hg Hv. rewrite H by assumption.
  unfold image. cbn [length]. change (Z.of_nat 0) with 0.
  destruct (Z.eqb_spec g 0) as [->|Hne]; cbn [andb].
  - change (0 <=? 0) with true. change (0 <? 1) with true. cbn [andb].
    change (0 <? 0) with false. cbn [andb].
    destruct (Z.leb_spec 0 o); cbn [andb]; [|reflexivity].
    unfold sizeof_FFS_SECTOR_HEADER.
    destruct (Z.ltb_spec o 24); [reflexivity|].
    destruct (o <? data_off 0); [reflexivity|].
    destruct ((o <? sector_size T 0) && (base T 0 + (o - data_off 0) <? 0));
      [|reflexivity].
    destruct (Z.to_nat (base T 0 + (o - data_off 0))); reflexivity.
  - destruct (Z.ltb_spec g 0); [lia|]. rewrite andb_false_r. cbn [andb].
    destruct (Z.ltb_spec g 1); [lia|]. rewrite andb_false_r. reflexivity.
Qed.

(** Chaining the new sector [k] to its predecessor. *)
Lemma patch_shows w k D :
  (forall g o, 0 <= g < 2 ^ 32 -> ValidSector T g = true ->
     sector_byte T (dev w) g o
     = if (g =? k) && (0 <=? o) && (o <? 24)
       then nth (Z.to_nat o) (header_bytes (header_img T (k + 1) k)) 0xFF
       else image T k D g o) ->
  prefix_valid T (k + 1) -> 1 <= k -> k + 1 < 2 ^ 32 ->
  Z.of_nat (length D) <= base T k ->
  shows T (dev (write_dev T w (k - 1) offsetof_Next (le32 k) 4))
        (image T (k + 1) D).
Proof.
  intros H Hp Hk Hk1 HD g o Hg Hv.
  assert (Hvc : ValidSector T (k - 1) = true) by (apply Hp; lia).
  pose proof (sector_size_ok T Tok (k - 1) ltac:(lia) Hvc) as Hsc.
  unfold offsetof_Next.
  rewrite write_view; try assumption; try lia.
  rewrite !H by assumption.
  destruct (Z.eqb_spec g (k - 1)) as [->|Hne]; cbn [andb].
  - destruct (Z.eqb_spec (k - 1) k); [lia|]. cbn [andb].
    destruct (within 4 4 o) eqn:Ew.
    + apply within_true in Ew.
      unfold image.
      replace ((0 <=? k - 1) && (k - 1 <? k) && (0 <=? o)) with true
        by (symmetry; rewrite !andb_true_iff; repeat split;
            try apply Z.leb_le; try apply Z.ltb_lt; lia).
      replace ((0 <=? k - 1) && (k - 1 <? k + 1) && (0 <=? o)) with true
        by (symmetry; rewrite !andb_true_iff; repeat split;
            try apply Z.leb_le; try apply Z.ltb_lt; lia).
      unfold sizeof_FFS_SECTOR_HEADER. destruct (Z.ltb_spec o 24); [|lia].
      rewrite !header_bytes_Next by lia.
      unfold header_img. cbn [Next]. replace (k - 1 + 1) with k by lia.
      destruct (Z.ltb_spec k k); [lia|]. destruct (Z.ltb_spec k (k + 1)); [|lia].
      assert (Hc : o = 4 \/ o = 5 \/ o = 6 \/ o = 7) by lia.
      destruct Hc as [-> | [-> | [-> | ->]]];
        (apply land_ff; apply nth_byte; apply le32_bytes).
    + assert (Ew' : ~ (4 <= o < 4 + 4)).
      { intros Hc. apply within_true in Hc. congruence. }
      unfold image.
      replace ((0 <=? k - 1) && (k - 1 <? k + 1) && (0 <=? o))
        with ((0 <=? k - 1) && (k - 1 <? k) && (0 <=? o))
        by (f_equal; f_equal; destruct (Z.ltb_spec (k - 1) k);
            destruct (Z.ltb_spec (k - 1) (k + 1)); lia || reflexivity).
      destruct ((0 <=? k - 1) && (k - 1 <? k) && (0 <=? o)); [|reflexivity].
      destruct (o <? sizeof_FFS_SECTOR_HEADER);
        [apply header_bytes_same_but_Next; auto; lia|reflexivity].
  - destruct (Z.eqb_spec g k) as [->|Hnk]; cbn [andb].
    + unfold image.
      destruct (Z.leb_spec 0 o); cbn [andb].
      * replace ((0 <=? k) && (k <? k + 1)) with true
          by (symmetry; rewrite !andb_true_iff; split;
              [apply Z.leb_le|apply Z.ltb_lt]; lia).
        cbn [andb]. unfold sizeof_FFS_SECTOR_HEADER.
        destruct (Z.ltb_spec o 24); [reflexivity|].
        destruct (Z.ltb_spec k k); [lia|]. rewrite andb_false_r. cbn [andb].
        destruct (o <? data_off k) eqn:E; [reflexivity|]. apply Z.ltb_ge in E.
        destruct (Z.ltb_spec (base T k + (o - data_off k)) (Z.of_nat (length D))); [lia|].
        rewrite andb_false_r. reflexivity.
      * rewrite !andb_false_r. reflexivity.
    + unfold image.
      destruct (Z.ltb_spec g k) as [Hlt|Hge].
      * destruct (Z.ltb_spec g (k + 1)); [|lia].
        destruct ((0 <=? g) && true && (0 <=? o)); [|reflexivity].
        destruct (o <? sizeof_FFS_SECTOR_HEADER); [|reflexivity].
        unfold header_img.
        destruct (Z.ltb_spec (g + 1) k); [|lia].
        destruct (Z.ltb_spec (g + 1) (k + 1)); [|lia]. reflexivity.
      * destruct (Z.ltb_spec g (k + 1)); [lia|]. rewrite !andb_false_r. reflexivity.
Qed.

End Layout.

(* ------------------------------------------------------------------ *)
(** ** The write loop on the layout *)

Lemma to_int_small x : 0 <= x < 2 ^ 31 -> to_int x = x.
Proof.
  intros H. unfold to_int. change (2 ^ 31) with 2147483648 in *.
  rewrite Z.mod_small by (change (2 ^ 32) with 4294967296; lia).
  destruct (Z.ltb_spec x 2147483648); lia.
Qed.

Lemma advance_same e P :
  Position e = P -> FileSize (Fnode e) = P -> advance P e = e.
Proof.
  destruct e as [a b c d e1 f g fn]. destruct fn as [p nm pd sz dt ct].
  cbn. intros -> ->. reflexivity.
Qed.

Lemma advance_advance P Q e : advance Q (advance P e) = advance Q e.
Proof. reflexivity. Qed.

Lemma skipn_skipn_firstn (A : Type) (l : list A) p r :
  firstn r (skipn p l) ++ skipn (p + r) l = skipn p l.
Proof.
  rewrite Nat.add_comm. rewrite <- skipn_skipn. apply firstn_skipn.
Qed.

Section WriteLoop.
Variable T : list FFS_FLASH_SECTION.
Hypothesis Tok : table_ok T.
Variable F : nat.

Lemma layout_bound k (D : list Z) :
  prefix_valid T k -> 1 <= k -> base T (k - 1) <= Z.of_nat (length D) ->
  Z.of_nat (length D) < 2 ^ 31 -> k < 2 ^ 31.
Proof.
  intros Hp Hk Hb HD.
  destruct (Z.eq_dec k 1) as [->|Hne]; [reflexivity|].
  assert (H := base_lower T Tok k (k - 1) Hp ltac:(lia)).
  change (2 ^ 31) with 2147483648 in *. lia.
Qed.

Lemma write_loop_on_layout fuel :
  forall w Fdesc c h Offset buf p n tw k D rc Fdesc' w',
    (fuel <= F)%nat ->
    shows T (dev w) (image T k D) -> prefix_valid T k ->
    1 <= k -> k <= Z.of_nat F -> c = k - 1 ->
    SectorLength h = sector_size T c ->
    base T c <= Z.of_nat (length D) <= base T k ->
    Offset = data_off c + (Z.of_nat (length D) - base T c) ->
    Forall is_byte buf -> 0 <= p -> 0 <= n -> p + n = Z.of_nat (length buf) ->
    0 <= tw -> tw + n < 2 ^ 31 -> Z.of_nat (length D) + n < 2 ^ 31 ->
    Position Fdesc = Z.of_nat (length D) ->
    FileSize (Fnode Fdesc) = Z.of_nat (length D) ->
    write_loop T fuel w Fdesc c h Offset buf p n tw = Ret (rc, Fdesc', w') ->
    0 <= rc ->
    rc = tw + n
    /\ Fdesc' = advance (Z.of_nat (length D) + n) Fdesc
    /\ FileDescriptors (globals w') = FileDescriptors (globals w)
    /\ exists k',
        k <= k' /\ k' <= Z.of_nat F /\ prefix_valid T k'
        /\ shows T (dev w') (image T k' (D ++ skipn (Z.to_nat p) buf))
        /\ base T (k' - 1) <= Z.of_nat (length D) + n <= base T k'.
Proof.
  induction fuel as [|fuel IH];
    intros w Fdesc c h Offset buf p n tw k D rc Fdesc' w'
           HF Hs Hp Hk HkF -> HSL HD -> Hbuf Hp0 Hn Hpn Htw Htwn HDn HPos HFS H Hrc;
    [discriminate|].
  cbn [write_loop] in H.
  assert (Hvc : ValidSector T (k - 1) = true) by (apply Hp; lia).
  pose proof (sector_size_ok T Tok (k - 1) ltac:(lia) Hvc) as Hsc.
  pose proof (data_off_cases (k - 1)) as Hdo.
  assert (Hbk : base T k = base T (k - 1) + capacity T (k - 1)).
  { replace k with (k - 1 + 1) at 1 by lia. apply base_succ. lia. }
  unfold capacity in Hbk.
  assert (Hk31 : k < 2 ^ 31) by (apply (layout_bound k D); auto; lia).
  change (2 ^ 31) with 2147483648 in *.
  destruct (Z.eqb_spec n 0) as [->|Hn0].
  { injection H as <- <- <-. rewrite !Z.add_0_r.
    split; [reflexivity|]. split; [symmetry; apply advance_same; assumption|].
    split; [reflexivity|]. exists k.
    rewrite skipn_all2 by lia. rewrite app_nil_r. repeat split; auto; lia. }
  set (room := sector_size T (k - 1)
               - (data_off (k - 1) + (Z.of_nat (length D) - base T (k - 1)))) in *.
  assert (Hroom : 0 <= room < 2147483648) by (unfold room; lia).
  rewrite HSL in H. fold room in H.
  rewrite (ulong_small n) in H by (change (2 ^ 32) with 4294967296; lia).
  rewrite (ulong_small room) in H by (change (2 ^ 32) with 4294967296; lia).
  set (RemLen := if n <? room then n else room) in *.
  assert (HRem : 0 <= RemLen <= n /\ RemLen <= room
                 /\ (RemLen = n \/ (RemLen = room /\ room < n))).
  { unfold RemLen. destruct (Z.ltb_spec n room); lia. }
  rewrite (to_int_small RemLen) in H by (change (2 ^ 31) with 2147483648; lia).
  unfold peek in H.
  replace ((0 <=? RemLen) && (p + RemLen <=? Z.of_nat (length buf))) with true in H
    by (symmetry; rewrite andb_true_iff; split; apply Z.leb_le; lia).
  cbn [bind] in H.
  set (data := firstn (Z.to_nat RemLen) (skipn (Z.to_nat p) buf)) in *.
  assert (Hlen : Z.of_nat (length data) = RemLen).
  { unfold data. rewrite length_firstn, length_skipn. lia. }
  assert (Hdb : Forall is_byte data).
  { unfold data. apply Forall_firstn, Forall_skipn. assumption. }
  set (w1 := write_dev T w (k - 1)
               (data_off (k - 1) + (Z.of_nat (length D) - base T (k - 1))) data RemLen) in *.
  assert (Hs1 : shows T (dev w1) (image T k (D ++ data))).
  { unfold w1. rewrite <- Hlen.
    apply (write_data_shows T Tok w k D (k - 1)); auto; try (unfold room in *; lia). }
  assert (Hfd1 : FileDescriptors (globals w1) = FileDescriptors (globals w)) by reflexivity.
  rewrite (to_int_small (n - RemLen)) in H by (change (2 ^ 31) with 2147483648; lia).
  rewrite (to_int_small (tw + RemLen)) in H by (change (2 ^ 31) with 2147483648; lia).
  cbn [Position set_Position Fnode FileSize] in H.
  rewrite HPos, HFS in H.
  rewrite (ulong_small (Z.of_nat (length D) + RemLen)) in H
    by (change (2 ^ 32) with 4294967296; lia).
  set (Fdesc1 := if Z.of_nat (length D) + RemLen >? Z.of_nat (length D)
                 then set_Fnode (set_FileSize (Z.of_nat (length D) + RemLen)
                                   (Fnode Fdesc))
                                (set_Position (Z.of_nat (length D) + RemLen) Fdesc)
                 else set_Position (Z.of_nat (length D) + RemLen) Fdesc) in *.
  assert (HF1 : Fdesc1 = advance (Z.of_nat (length D) + RemLen) Fdesc).
  { unfold Fdesc1. destruct (Z.gtb_spec (Z.of_nat (length D) + RemLen) (Z.of_nat (length D))).
    - reflexivity.
    - assert (RemLen = 0) by lia.
      replace (Z.of_nat (length D) + RemLen) with (Z.of_nat (length D)) by lia.
      rewrite (advance_same Fdesc (Z.of_nat (length D))) by assumption.
      destruct Fdesc as [a b c d e1 f g fn]. cbn in HPos. subst g. reflexivity. }
  destruct (Z.eqb_spec (n - RemLen) 0) as [Hdone|Hmore].
  { injection H as <- <- <-.
    assert (RemLen = n) by lia.
    split; [lia|]. split; [rewrite HF1; f_equal; lia|].
    split; [assumption|]. exists k.
    replace (skipn (Z.to_nat p) buf) with data.
    - repeat split; auto; try lia.
    - unfold data. apply firstn_all2. rewrite length_skipn. lia. }
  assert (HRl : RemLen = room /\ room < n) by lia. destruct HRl as (HRr & Hrn).
  match type of H with
  | context [AllocateSector T ?fl w1 ?sh] =>
      destruct (AllocateSector T fl w1 sh) as [[[[rc2 N] sh2] w2]| |] eqn:HA;
        try discriminate
  end.
  cbn [bind] in H.
  destruct (Z.eqb_spec rc2 0) as [->|Hrc2]; cbn [negb] in H.
  2:{ injection H as <- <- <-. exfalso.
      unfold AllocateSector in HA. apply allocate_journal in HA.
      destruct HA as [(-> & _)|(-> & _)]; [|contradiction].
      unfold FFS_RC_OUT_OF_SPACE in Hrc. lia. }
  assert (HD1 : Z.of_nat (length (D ++ data)) = base T k).
  { rewrite length_app, Nat2Z.inj_add, Hlen, HRr. unfold room. lia. }
  unfold AllocateSector in HA.
  apply (allocate_on_layout T Tok _ _ _ _ _ k (D ++ data)) in HA;
    try assumption; try reflexivity; try lia.
  2:{ destruct (Z.eqb_spec k 0); [lia|reflexivity]. }
  2:{ unfold data_off. destruct (Z.eqb_spec k 0); [lia|reflexivity]. }
  destruct HA as (-> & Hvk & Hkf & -> & Hfd2 & Hview).
  cbn [need bind] in H.
  assert (Hp' : prefix_valid T (k + 1)).
  { intros i Hi. destruct (Z.eq_dec i k) as [->|]; [assumption|apply Hp; lia]. }
  apply (patch_shows T Tok w2 k (D ++ data)) in Hview; try assumption; try lia.
  apply (IH _ _ _ _ _ _ _ _ _ (k + 1) (D ++ data)) in H; try assumption; try lia.
  - destruct H as (-> & -> & Hfd3 & k' & Hk' & Hk'F & Hpk' & Hs' & Hb').
    split; [lia|]. split; [rewrite HF1, advance_advance; f_equal; lia|].
    split; [rewrite Hfd3; cbn; rewrite Hfd2; assumption|].
    exists k'. split; [lia|]. split; [assumption|]. split; [assumption|].
    split.
    + replace (D ++ skipn (Z.to_nat p) buf)
        with ((D ++ data) ++ skipn (Z.to_nat (p + RemLen)) buf); [assumption|].
      rewrite <- app_assoc. f_equal. unfold data.
      rewrite Z2Nat.inj_add by lia. apply skipn_skipn_firstn.
    + rewrite HD1 in Hb'. rewrite length_app, Nat2Z.inj_add, Hlen in HD1. lia.
  - replace (k + 1 - 1) with k by lia. reflexivity.
  - replace (k + 1 - 1) with k by lia. rewrite HD1.
    rewrite base_succ by lia.
    pose proof (capacity_nonneg T Tok k ltac:(lia) Hvk). lia.
  - replace (k + 1 - 1) with k by lia. rewrite HD1.
    unfold data_off. destruct (Z.eqb_spec k 0); [lia|]. lia.
  - rewrite HF1, length_app, Nat2Z.inj_add, Hlen. reflexivity.
  - rewrite HF1, length_app, Nat2Z.inj_add, Hlen. reflexivity.
Qed.

End WriteLoop.

(* ------------------------------------------------------------------ *)
(** ** LocatePosition on the layout *)

Section Locate.
Variable T : list FFS_FLASH_SECTION.
Hypothesis Tok : table_ok T.

Lemma image_payload k D g o :
  0 <= g < k -> data_off g <= o < sector_size T g ->
  base T g + (o - data_off g) < Z.of_nat (length D) ->
  image T k D g o = nth (Z.to_nat (base T g + (o - data_off g))) D 0xFF.
Proof.
  intros Hg Ho HP. unfold image.
  pose proof (data_off_cases g).
  replace ((0 <=? g) && (g <? k) && (0 <=? o)) with true
    by (symmetry; rewrite !andb_true_iff; repeat split;
        try apply Z.leb_le; try apply Z.ltb_lt; lia).
  unfold sizeof_FFS_SECTOR_HEADER.
  destruct (Z.ltb_spec o 24); [lia|].
  destruct (Z.ltb_spec o (data_off g)); [lia|].
  destruct (Z.ltb_spec o (sector_size T g)); [|lia].
  destruct (Z.ltb_spec (base T g + (o - data_off g)) (Z.of_nat (length D))); [|lia].
  reflexivity.
Qed.

Lemma shows_holds d k D :
  shows T d (image T k D) -> prefix_valid T k -> k < 2 ^ 32 -> holds T d k D.
Proof.
  intros Hs Hp Hk. split.
  - intros g Hg. apply (shows_header T Tok d k D); auto; lia.
  - intros g o Hg Ho HP. rewrite Hs by (try apply Hp; lia).
    apply image_payload; assumption.
Qed.

Lemma image_closed_header k D fn g o :
  0 <= o < 24 -> image_closed T k D fn g o = image T k D g o.
Proof.
  intros Ho. unfold image_closed, sizeof_FFS_SECTOR_HEADER.
  destruct (Z.leb_spec 24 o); [lia|]. rewrite andb_false_r. reflexivity.
Qed.

Lemma image_closed_payload k D fn g o :
  data_off g <= o -> image_closed T k D fn g o = image T k D g o.
Proof.
  intros Ho. unfold image_closed.
  destruct (Z.eqb_spec g 0) as [->|]; [|reflexivity]. cbn [andb].
  destruct (Z.ltb_spec o (data_off 0)); [lia|]. rewrite andb_false_r. reflexivity.
Qed.

Lemma shows_closed_holds d k D fn :
  shows T d (image_closed T k D fn) -> prefix_valid T k -> k < 2 ^ 32 ->
  holds T d k D.
Proof.
  intros Hs Hp Hk. split.
  - intros g Hg. apply header_of_written.
    + apply (header_img_ok T Tok); try lia. apply Hp. lia.
    + intros o Ho. rewrite Hs by (try (apply Hp); lia).
      rewrite image_closed_header by lia. apply image_header; lia.
  - intros g o Hg Ho HP. rewrite Hs by (try apply Hp; lia).
    rewrite image_closed_payload by lia.
    apply image_payload; assumption.
Qed.

Lemma header_img_fields k g :
  SectorLength (header_img T k g) = sector_size T g
  /\ DataOffset (header_img T k g) = data_off g
  /\ Next (header_img T k g) = (if g + 1 <? k then g + 1 else MINUS_ONE).
Proof. repeat split. Qed.

(** [LocatePosition] walks to the sector holding the position. *)
Lemma LocatePosition_loop_finds m :
  forall fuel d pos g sh off k D c,
    holds T d k D -> prefix_valid T k -> k < 2 ^ 31 ->
    0 <= g -> c = g + Z.of_nat m -> c < k ->
    base T c <= pos < base T (c + 1) -> pos < 2 ^ 31 ->
    (m < fuel)%nat ->
    LocatePosition_loop T fuel d pos g sh off (base T g)
    = Ret (0, c, Some (header_img T k c), Some (data_off c + (pos - base T c))).
Proof.
  change (2 ^ 31) with 2147483648.
  induction m as [|m IH]; intros fuel d pos g sh off k D c Hh Hp Hk Hg -> Hc Hpos Hp31 Hf;
    (destruct fuel as [|fuel]; [lia|]); cbn [LocatePosition_loop].
  - rewrite Z.add_0_r in *.
    assert (Hv : ValidSector T g = true) by (apply Hp; lia).
    rewrite (read_header_view T Tok d g sh Hg Hv).
    change (sizeof_FFS_SECTOR_HEADER <? 0) with false. cbn [need bind].
    rewrite (proj1 Hh g) by lia.
    destruct (header_img_fields k g) as (HSL & HDO & HNX). rewrite ?HSL, ?HDO, ?HNX.
    fold (capacity T g).
    pose proof (capacity_nonneg T Tok g Hg Hv) as Hcap.
    change (2 ^ 31) with 2147483648 in Hcap.
    rewrite base_succ in Hpos by lia.
    assert (Hb0 : 0 <= base T 0 <= base T g).
    { apply (base_mono T Tok k); auto; lia. }
    rewrite base_0 in Hb0.
    pose proof (data_off_cases g).
    rewrite (ulong_small (capacity T g)) by (change (2 ^ 32) with 4294967296; lia).
    rewrite (ulong_small (base T g + capacity T g))
      by (change (2 ^ 32) with 4294967296; lia).
    destruct (Z.ltb_spec pos (base T g + capacity T g)); [|lia].
    rewrite (ulong_small (pos - base T g)) by (change (2 ^ 32) with 4294967296; lia).
    rewrite ulong_small by (change (2 ^ 32) with 4294967296; lia).
    reflexivity.
  - assert (Hv : ValidSector T g = true) by (apply Hp; lia).
    rewrite (read_header_view T Tok d g sh Hg Hv).
    change (sizeof_FFS_SECTOR_HEADER <? 0) with false. cbn [need bind].
    rewrite (proj1 Hh g) by lia.
    destruct (header_img_fields k g) as (HSL & HDO & HNX). rewrite ?HSL, ?HDO, ?HNX.
    fold (capacity T g).
    pose proof (capacity_nonneg T Tok g Hg Hv) as Hcap.
    change (2 ^ 31) with 2147483648 in Hcap.
    assert (Hb1 : base T (g + 1) <= base T (g + Z.of_nat (S m))).
    { apply (base_mono T Tok k); auto; lia. }
    assert (Hb0 : 0 <= base T 0 <= base T g).
    { apply (base_mono T Tok k); auto; lia. }
    rewrite base_0 in Hb0.
    rewrite base_succ in Hb1 by lia.
    rewrite (ulong_small (capacity T g)) by (change (2 ^ 32) with 4294967296; lia).
    rewrite (ulong_small (base T g + capacity T g))
      by (change (2 ^ 32) with 4294967296; lia).
    destruct (Z.ltb_spec pos (base T g + capacity T g)); [lia|].
    destruct (Z.ltb_spec (g + 1) k); [|lia].
    rewrite <- base_succ by lia.
    apply (IH fuel d pos (g + 1) _ _ k D); auto; try lia.
Qed.

(** Past the end of the chain [LocatePosition] cannot succeed. *)
Lemma LocatePosition_loop_stuck fuel :
  forall d pos sh off cnt rc S sh' off',
    (ValidSector T MINUS_ONE = true ->
     forall o, sector_byte T d MINUS_ONE o = 0xFF) ->
    0 <= cnt <= pos -> cnt < 2 ^ 32 ->
    LocatePosition_loop T fuel d pos MINUS_ONE sh off cnt = Ret (rc, S, sh', off') ->
    rc < 0.
Proof.
  induction fuel as [|fuel IH]; intros d pos sh off cnt rc S sh' off' Hvir Hc Hc32 H;
    [discriminate|].
  cbn [LocatePosition_loop] in H.
  destruct (ValidSector T MINUS_ONE) eqn:Hv.
  - rewrite (read_header_view T Tok d MINUS_ONE sh ltac:(unfold MINUS_ONE; lia) Hv) in H.
    change (sizeof_FFS_SECTOR_HEADER <? 0) with false in H. cbn [need bind] in H.
    destruct (header_at_virgin (sector_byte T d MINUS_ONE) (Hvir eq_refl))
      as (_ & _ & HN & HL & HD & _).
    unfold header_of in H. rewrite HN, HL, HD in H.
    change (ulong (4294967295 - 4294967295)) with 0 in H.
    rewrite Z.add_0_r in H. rewrite (ulong_small cnt) in H by lia.
    destruct (Z.ltb_spec pos cnt); [lia|].
    eapply IH; eauto.
  - rewrite (read_header_invalid T d MINUS_ONE sh Hv) in H.
    change (FFS_RC_INVALID_SECTOR_NUMBER <? 0) with true in H.
    injection H as <- _ _ _. unfold FFS_RC_INVALID_SECTOR_NUMBER. lia.
Qed.

Lemma LocatePosition_loop_past_end m :
  forall fuel d pos g sh off k D rc S sh' off',
    shows T d (image T k D) -> prefix_valid T k -> k < 2 ^ 31 ->
    0 <= g -> k - 1 = g + Z.of_nat m ->
    base T k <= pos -> base T k < 2 ^ 32 ->
    LocatePosition_loop T fuel d pos g sh off (base T g) = Ret (rc, S, sh', off') ->
    rc < 0.
Proof.
  change (2 ^ 31) with 2147483648.
  induction m as [|m IH];
    intros fuel d pos g sh off k D rc S sh' off' Hs Hp Hk Hg Hm Hpos Hb32 H;
    (destruct fuel as [|fuel]; [discriminate|]); cbn [LocatePosition_loop] in H.
  - rewrite Z.add_0_r in Hm. subst g.
    assert (Hv : ValidSector T (k - 1) = true) by (apply Hp; lia).
    rewrite (read_header_view T Tok d (k - 1) sh Hg Hv) in H.
    change (sizeof_FFS_SECTOR_HEADER <? 0) with false in H. cbn [need bind] in H.
    rewrite (shows_header T Tok d k D (k - 1)) in H
      by (try assumption; change (2 ^ 32) with 4294967296; lia).
    destruct (header_img_fields k (k - 1)) as (HSL & HDO & HNX).
    rewrite ?HSL, ?HDO, ?HNX in H.
    fold (capacity T (k - 1)) in H.
    pose proof (capacity_nonneg T Tok (k - 1) Hg Hv) as Hcap.
    change (2 ^ 31) with 2147483648 in Hcap.
    assert (Hbk : base T k = base T (k - 1) + capacity T (k - 1)).
    { replace k with (k - 1 + 1) at 1 by lia. apply base_succ. lia. }
    assert (Hb0 : 0 <= base T 0 <= base T (k - 1)).
    { apply (base_mono T Tok k); auto; lia. }
    rewrite base_0 in Hb0.
    rewrite (ulong_small (capacity T (k - 1))) in H
      by (change (2 ^ 32) with 4294967296; lia).
    rewrite <- Hbk in H. rewrite (ulong_small (base T k)) in H by lia.
    destruct (Z.ltb_spec pos (base T k)); [lia|].
    destruct (Z.ltb_spec (k - 1 + 1) k); [lia|].
    eapply LocatePosition_loop_stuck; [| | |exact H]; try lia.
    intros HvM o.
    apply (virgin_beyond_layout T d k D); auto; unfold MINUS_ONE; lia.
  - assert (Hv : ValidSector T g = true) by (apply Hp; lia).
    rewrite (read_header_view T Tok d g sh Hg Hv) in H.
    change (sizeof_FFS_SECTOR_HEADER <? 0) with false in H. cbn [need bind] in H.
    rewrite (shows_header T Tok d k D g) in H
      by (try assumption; change (2 ^ 32) with 4294967296; lia).
    destruct (header_img_fields k g) as (HSL & HDO & HNX).
    rewrite ?HSL, ?HDO, ?HNX in H.
    fold (capacity T g) in H.
    pose proof (capacity_nonneg T Tok g Hg Hv) as Hcap.
    change (2 ^ 31) with 2147483648 in Hcap.
    assert (Hb1 : 0 <= base T (g + 1) <= base T k).
    { apply (base_mono T Tok k); auto; lia. }
    assert (Hb0 : 0 <= base T 0 <= base T g).
    { apply (base_mono T Tok k); auto; lia. }
    rewrite base_0 in Hb0. rewrite base_succ in Hb1 by lia.
    rewrite (ulong_small (capacity T g)) in H by (change (2 ^ 32) with 4294967296; lia).
    rewrite (ulong_small (base T g + capacity T g)) in H by lia.
    destruct (Z.ltb_spec pos (base T g + capacity T g)); [lia|].
    destruct (Z.ltb_spec (g + 1) k); [|lia].
    rewrite <- base_succ in H by lia.
    apply (IH fuel d pos (g + 1) _ _ k D) in H; auto; lia.
Qed.

End Locate.

(* ------------------------------------------------------------------ *)
(** ** The read loop on the layout *)

Lemma firstn_firstn_skipn (A : Type) (r s : nat) :
  forall l : list A, firstn r l ++ firstn s (skipn r l) = firstn (r + s) l.
Proof.
  induction r as [|r IH]; intros l; [reflexivity|].
  destruct l as [|a l]; cbn [firstn skipn Nat.add app].
  - destruct s; reflexivity.
  - rewrite IH. reflexivity.
Qed.

Lemma splice_splice (A : Type) (buf X Y : list A) (p : nat) :
  (p + length X + length Y <= length buf)%nat ->
  firstn (p + length X) (firstn p buf ++ X ++ skipn (p + length X) buf)
  ++ Y
  ++ skipn (p + length X + length Y)
       (firstn p buf ++ X ++ skipn (p + length X) buf)
  = firstn p buf ++ (X ++ Y) ++ skipn (p + length (X ++ Y)) buf.
Proof.
  intros H.
  assert (Hl : length (firstn p buf ++ X) = (p + length X)%nat).
  { rewrite length_app, length_firstn. lia. }
  rewrite (app_assoc (firstn p buf) X).
  rewrite firstn_app, skipn_app, Hl.
  rewrite <- Hl at 1. rewrite firstn_all.
  rewrite Nat.sub_diag. cbn [firstn]. rewrite app_nil_r.
  rewrite (skipn_all2 (firstn p buf ++ X)) by lia.
  cbn [app]. rewrite skipn_skipn, length_app.
  replace (p + length X + length Y - (p + length X) + (p + length X))%nat
    with (p + (length X + length Y))%nat by lia.
  rewrite <- !app_assoc. reflexivity.
Qed.

Section ReadLoop.
Variable T : list FFS_FLASH_SECTION.
Hypothesis Tok : table_ok T.

Lemma payload_slice d k D c j R pos :
  holds T d k D -> 0 <= c < k -> 0 <= j -> 0 <= R ->
  data_off c + j + R <= sector_size T c ->
  pos = base T c + j -> 0 <= pos -> pos + R <= Z.of_nat (length D) ->
  map (fun i => sector_byte T d c (data_off c + j + Z.of_nat i))
      (seq 0 (Z.to_nat R))
  = firstn (Z.to_nat R) (skipn (Z.to_nat pos) D).
Proof.
  intros [_ Hd] Hc Hj HR Hsz -> Hpos Hlen.
  apply (nth_ext _ _ (sector_byte T d c (data_off c + j + Z.of_nat 0)) 0xFF).
  - rewrite length_map, length_seq, length_firstn, length_skipn. lia.
  - intros i Hi. rewrite length_map, length_seq in Hi.
    rewrite (map_nth (fun i => sector_byte T d c (data_off c + j + Z.of_nat i))).
    rewrite seq_nth by assumption. cbn [Nat.add].
    rewrite Hd by lia.
    rewrite nth_firstn. destruct (Nat.ltb_spec i (Z.to_nat R)); [|lia].
    rewrite nth_skipn. f_equal. lia.
Qed.

Lemma read_loop_on_layout fuel :
  forall d Fdesc c j buf p n tr k D pos,
    holds T d k D -> prefix_valid T k -> k < 2 ^ 31 ->
    0 <= c < k -> (Z.to_nat (k - c) <= fuel)%nat ->
    0 <= j <= capacity T c -> pos = base T c + j ->
    0 <= n -> pos + n <= Z.of_nat (length D) ->
    Z.of_nat (length D) < 2 ^ 31 -> Z.of_nat (length D) <= base T k ->
    0 <= p -> p + n <= Z.of_nat (length buf) ->
    0 <= tr -> tr + n < 2 ^ 31 ->
    exists Fdesc',
      read_loop T fuel d Fdesc c (header_img T k c) (data_off c + j) buf p n tr
      = Ret (tr + n, Fdesc',
             firstn (Z.to_nat p) buf
             ++ firstn (Z.to_nat n) (skipn (Z.to_nat pos) D)
             ++ skipn (Z.to_nat (p + n)) buf).
Proof.
  change (2 ^ 31) with 2147483648.
  induction fuel as [|fuel IH];
    intros d Fdesc c j buf p n tr k D pos Hh Hp Hk Hc Hf Hj Hpos Hn Hlen HD HDk Hp0 Hbuf
           Htr Htr31; [lia|].
  cbn [read_loop].
  destruct (Z.eqb_spec n 0) as [->|Hn0].
  { exists Fdesc. rewrite !Z.add_0_r. cbn [firstn app].
    rewrite firstn_skipn. reflexivity. }
  assert (Hv : ValidSector T c = true) by (apply Hp; lia).
  pose proof (capacity_nonneg T Tok c ltac:(lia) Hv) as Hcap.
  change (2 ^ 31) with 2147483648 in Hcap.
  pose proof (data_off_cases c) as Hdo.
  assert (Hb0 : 0 <= base T 0 <= base T c).
  { apply (base_mono T Tok k); auto; lia. }
  rewrite base_0 in Hb0.
  destruct (header_img_fields T k c) as (HSL & HDO & HNX). rewrite HSL.
  replace (sector_size T c - (data_off c + j)) with (capacity T c - j)
    by (unfold capacity; lia).
  rewrite (ulong_small (capacity T c - j)) by (change (2 ^ 32) with 4294967296; lia).
  rewrite (ulong_small n) by (change (2 ^ 32) with 4294967296; lia).
  set (R := if n <? capacity T c - j then n else capacity T c - j).
  assert (HR : 0 <= R <= n /\ R <= capacity T c - j
               /\ (R < n -> R = capacity T c - j)).
  { unfold R. destruct (Z.ltb_spec n (capacity T c - j)); lia. }
  clearbody R. destruct HR as (HR1 & HR2 & HR3).
  rewrite (to_int_small R) by (change (2 ^ 31) with 2147483648; lia).
  rewrite (ReadSector_view T Tok d c (data_off c + j) R)
    by (try assumption; unfold capacity in *; lia).
  cbn [snd].
  rewrite (payload_slice d k D c j R pos Hh Hc) by (unfold capacity in *; lia).
  set (X := firstn (Z.to_nat R) (skipn (Z.to_nat pos) D)).
  assert (HX : length X = Z.to_nat R).
  { unfold X. rewrite length_firstn, length_skipn. lia. }
  unfold poke. rewrite HX.
  destruct (Z.leb_spec (p + Z.of_nat (Z.to_nat R)) (Z.of_nat (length buf))); [|lia].
  cbn [bind].
  rewrite (to_int_small (n - R)) by (change (2 ^ 31) with 2147483648; lia).
  rewrite (to_int_small (tr + R)) by (change (2 ^ 31) with 2147483648; lia).
  destruct (Z.eqb_spec (n - R) 0) as [HnR|HnR].
  { eexists. assert (R = n) by lia. subst R.
    replace (Z.to_nat (p + n)) with (Z.to_nat p + Z.to_nat n)%nat by lia.
    reflexivity. }
  assert (HRc : R = capacity T c - j) by lia.
  assert (Hc1 : c + 1 < k).
  { destruct (Z.lt_ge_cases (c + 1) k) as [|Hge]; [assumption|].
    assert (k = c + 1) by lia. subst k.
    rewrite base_succ in HDk by lia. lia. }
  rewrite HNX. destruct (Z.ltb_spec (c + 1) k); [|lia].
  assert (Hv1 : ValidSector T (c + 1) = true) by (apply Hp; lia).
  rewrite (read_header_view T Tok d (c + 1) _ ltac:(lia) Hv1).
  change (sizeof_FFS_SECTOR_HEADER <? 0) with false. cbn [need bind].
  rewrite (proj1 Hh (c + 1)) by lia.
  destruct (header_img_fields T k (c + 1)) as (_ & HDO1 & _). rewrite HDO1.
  pose proof (capacity_nonneg T Tok (c + 1) ltac:(lia) Hv1) as Hcap1.
  change (2 ^ 31) with 2147483648 in Hcap1.
  destruct (IH d (set_Position (ulong (Position Fdesc + R)) Fdesc) (c + 1) 0
               (firstn (Z.to_nat p) buf ++ X
                ++ skipn (Z.to_nat p + Z.to_nat R) buf)
               (p + R) (n - R) (tr + R) k D (pos + R))
    as [Fd' HIH]; auto; try lia.
  { rewrite base_succ by lia. lia. }
  { rewrite !length_app, length_firstn, length_skipn, HX. lia. }
  exists Fd'. rewrite Z.add_0_r in HIH. rewrite HIH.
  replace (tr + R + (n - R)) with (tr + n) by lia. do 2 f_equal.
  set (Y := firstn (Z.to_nat (n - R)) (skipn (Z.to_nat (pos + R)) D)).
  replace (Z.to_nat (p + R)) with (Z.to_nat p + length X)%nat by lia.
  replace (Z.to_nat (p + R + (n - R))) with (Z.to_nat p + length X + length Y)%nat.
  2:{ unfold Y. rewrite HX, length_firstn, length_skipn. lia. }
  rewrite <- HX.
  rewrite splice_splice.
  2:{ unfold Y. rewrite HX, length_firstn, length_skipn. lia. }
  f_equal. f_equal.
  - unfold X, Y.
    replace (Z.to_nat (pos + R)) with (Z.to_nat R + Z.to_nat pos)%nat by lia.
    rewrite <- skipn_skipn. rewrite firstn_firstn_skipn. f_equal. lia.
  - f_equal. rewrite length_app. unfold Y.
    rewrite HX, length_firstn, length_skipn. lia.
Qed.

Lemma locate_sector (kn : nat) :
  forall pos, prefix_valid T (Z.of_nat kn) -> 0 <= pos < base T (Z.of_nat kn) ->
    exists c, 0 <= c < Z.of_nat kn /\ base T c <= pos < base T (c + 1).
Proof.
  induction kn as [|kn IH]; intros pos Hp Hpos.
  - change (Z.of_nat 0) with 0 in Hpos. rewrite base_0 in Hpos. lia.
  - rewrite Nat2Z.inj_succ in *. unfold Z.succ in *.
    rewrite base_succ in Hpos by lia.
    destruct (Z.lt_ge_cases pos (base T (Z.of_nat kn))) as [Hlt|Hge].
    + destruct (IH pos) as (c & Hc & Hb).
      * intros i Hi. apply Hp. lia.
      * lia.
      * exists c. split; [lia|assumption].
    + exists (Z.of_nat kn). rewrite base_succ by lia. lia.
Qed.

End ReadLoop.

(* ------------------------------------------------------------------ *)
(** ** Strings and the file table *)

(* ---------------------------------------------------------------- *)

Lemma c_str_no_nul s : Forall (fun c => c <> 0) (c_str s).
Proof.
  induction s as [|c r IH]; cbn [c_str]; [constructor|].
  destruct (Z.eqb_spec c 0); constructor; assumption.
Qed.

Lemma c_str_bytes s : Forall is_byte s -> Forall is_byte (c_str s).
Proof.
  induction 1 as [|c r Hc Hr IH]; cbn [c_str]; [constructor|].
  destruct (c =? 0); constructor; assumption.
Qed.

Lemma array_str_app l rest :
  Forall (fun c => c <> 0) l -> array_str (l ++ 0 :: rest) = Some l.
Proof.
  induction 1 as [|c r Hc Hr IH]; cbn [app array_str].
  - reflexivity.
  - destruct (Z.eqb_spec c 0); [contradiction|]. rewrite IH. reflexivity.
Qed.

Lemma str_eqb_refl s : str_eqb s s = true.
Proof.
  induction s as [|c r IH]; cbn [str_eqb]; [reflexivity|].
  rewrite Z.eqb_refl, IH. reflexivity.
Qed.

Lemma strcpy_shape name :
  strcpy (repeat 0 65%nat) name
  = c_str name ++ 0 :: skipn (length (c_str name) + 1) (repeat 0 65%nat).
Proof.
  unfold strcpy. rewrite <- app_assoc, length_app. reflexivity.
Qed.

Lemma strcpy_length name :
  strlen name <= 64 -> length (strcpy (repeat 0 65%nat) name) = 65%nat.
Proof.
  unfold strlen. intros H. rewrite strcpy_shape.
  rewrite length_app. cbn [length]. rewrite length_skipn, repeat_length. lia.
Qed.

Lemma strcpy_bytes name :
  Forall is_byte name -> Forall is_byte (strcpy (repeat 0 65%nat) name).
Proof.
  intros H. rewrite strcpy_shape. apply Forall_app. split.
  - apply c_str_bytes. assumption.
  - constructor; [unfold is_byte; lia|].
    apply Forall_skipn. apply Forall_forall. intros x Hx.
    apply repeat_spec in Hx. subst x. unfold is_byte. lia.
Qed.

Lemma new_fnode_ok name perms size :
  Forall is_byte name -> strlen name <= 64 -> 0 <= size < 2 ^ 32 ->
  fnode_ok (new_fnode name perms size).
Proof.
  intros Hn Hl Hs. unfold fnode_ok, new_fnode.
  cbn [Permissions Filename FnodePad FileSize DataTime Count].
  repeat split; try (unfold is_u32; lia); try assumption.
  - unfold uchar. apply Z.mod_pos_bound. lia.
  - unfold uchar. apply Z.mod_pos_bound. lia.
  - apply strcpy_length. assumption.
  - apply strcpy_bytes. assumption.
  - repeat constructor; unfold is_byte; lia.
Qed.

Lemma GetDescriptor_ok w fd w' :
  GetDescriptor w = (fd, w') -> 0 <= fd ->
  (fd = 0 \/ fd = 1) /\ w' = put_entry w fd (set_InUse 1 zero_descriptor).
Proof.
  unfold GetDescriptor. change (Z.to_nat FFS_MAX_FILE_DESCRIPTORS) with 2%nat.
  cbn [GetDescriptor_from].
  destruct (InUse (FileDescriptors (globals w) 0) =? 0).
  { intros [= <- <-] _. auto. }
  destruct (InUse (FileDescriptors (globals w) (0 + 1)) =? 0).
  { intros [= <- <-] _. auto. }
  intros [= <- <-]. unfold FFS_RC_TOO_MANY_OPEN_FILES. lia.
Qed.

Lemma GetDescriptor_free w fd0 :
  0 <= fd0 < FFS_MAX_FILE_DESCRIPTORS ->
  InUse (FileDescriptors (globals w) fd0) = 0 ->
  exists fd, (fd = 0 \/ fd = 1)
    /\ GetDescriptor w = (fd, put_entry w fd (set_InUse 1 zero_descriptor)).
Proof.
  unfold FFS_MAX_FILE_DESCRIPTORS. intros Hfd Hfree.
  unfold GetDescriptor. change (Z.to_nat FFS_MAX_FILE_DESCRIPTORS) with 2%nat.
  cbn [GetDescriptor_from].
  destruct (Z.eqb_spec (InUse (FileDescriptors (globals w) 0)) 0) as [H0|H0].
  { exists 0. auto. }
  destruct (Z.eqb_spec (InUse (FileDescriptors (globals w) (0 + 1))) 0) as [H1|H1].
  { exists 1. auto. }
  exfalso. assert (fd0 = 0 \/ fd0 = 1) as [-> | ->] by lia; auto.
Qed.

Lemma entry_put w fd e : FileDescriptors (globals (put_entry w fd e)) fd = e.
Proof. unfold put_entry. cbn. rewrite Z.eqb_refl. reflexivity. Qed.

Lemma dev_put w fd e : dev (put_entry w fd e) = dev w.
Proof. reflexivity. Qed.

Lemma table_entry_ok w fd :
  0 <= fd < FFS_MAX_FILE_DESCRIPTORS ->
  table_entry w fd = Ret (FileDescriptors (globals w) fd).
Proof.
  intros H. unfold table_entry.
  destruct (Z.leb_spec 0 fd); [|lia].
  destruct (Z.ltb_spec fd FFS_MAX_FILE_DESCRIPTORS); [|lia]. reflexivity.
Qed.

Lemma sanity_check_ok w fd :
  0 <= fd < FFS_MAX_FILE_DESCRIPTORS ->
  InUse (FileDescriptors (globals w) fd) <> 0 ->
  sanity_check w fd = Ret (Some (FileDescriptors (globals w) fd)).
Proof.
  intros H Hu. unfold sanity_check.
  destruct (Z.gtb_spec fd FFS_MAX_FILE_DESCRIPTORS); [lia|].
  rewrite table_entry_ok by assumption. cbn [bind].
  destruct (Z.eqb_spec (InUse (FileDescriptors (globals w) fd)) 0); [contradiction|].
  reflexivity.
Qed.

(* ------------------------------------------------------------------ *)
(** ** open and write of a new file *)

Section Session.
Variable T : list FFS_FLASH_SECTION.
Hypothesis Tok : table_ok T.
Variable F : nat.

Lemma fresh_has_no_file d cn g :
  shows T d (image T 0 []) -> 0 <= g < 2 ^ 32 -> ValidSector T g = true ->
  ~ hits T d cn g.
Proof.
  intros Hs Hg Hv (s & Hn & _). unfold name_at in Hn.
  destruct (header_at_virgin (sector_byte T d g)) as (_ & _ & _ & _ & _ & HS).
  { intros o. rewrite Hs by assumption. apply image_outside. lia. }
  unfold header_of in Hn. rewrite HS in Hn. discriminate.
Qed.

Lemma open_create_fresh name perms w0 fd w1 :
  shows T (dev w0) (image T 0 []) ->
  open T F name FFS_CREATE perms w0 = Ret (fd, w1) -> 0 <= fd ->
  writing T F name perms fd w1 [] /\ strlen name <= 64.
Proof.
  intros Hs H Hfd. unfold open in H.
  set (w := if initializationComplete (globals w0) then w0 else Initialize w0) in H.
  assert (Hd : dev w = dev w0) by (unfold w; destruct (initializationComplete _); reflexivity).
  destruct (GetDescriptor w) as [fd0 w'] eqn:HG.
  destruct (Z.ltb_spec fd0 0) as [Hneg|Hpos].
  { injection H as <- _. lia. }
  destruct (GetDescriptor_ok _ _ _ HG Hpos) as [Hfd0 ->].
  assert (Hr : 0 <= fd0 < FFS_MAX_FILE_DESCRIPTORS)
    by (unfold FFS_MAX_FILE_DESCRIPTORS; lia).
  rewrite table_entry_ok in H by assumption. rewrite entry_put in H.
  cbn [bind] in H. rewrite dev_put in H. unfold LocateFileNode in H.
  destruct (Z.gtb_spec (strlen name) FFS_MAX_FILENAME_LENGTH) as [|Hlen];
    [discriminate|].
  destruct (LocateFileNode_loop T F (dev w) (StringToUpperCase (c_str name)) 0 None None)
    as [found| |] eqn:HL; try discriminate.
  cbn [bind] in H.
  apply (LocateFileNode_loop_run T Tok) in HL; [|change (2 ^ 32) with 4294967296; lia].
  destruct HL as (m & _ & _ & Hres).
  destruct found as [[g f]|].
  { exfalso. destruct Hres as (Hg & Hv & Hh & _).
    apply (fresh_has_no_file (dev w) _ g) in Hh; auto.
    - rewrite Hd. assumption.
    - rewrite Hg. apply ulong_nonneg. }
  change (Z.land FFS_CREATE FFS_CREATE =? 0) with false in H.
  change (negb (FFS_CREATE =? 0)) with true in H.
  cbn [andb negb FnodeSector set_FnodeSector set_InUse zero_descriptor Fnode
       Filename zero_fnode] in H.
  rewrite Z.eqb_refl in H. cbn [negb] in H.
  destruct (Z.geb_spec (strlen name) sizeof_Filename) as [Hge|_].
  { unfold sizeof_Filename, FFS_MAX_FILENAME_LENGTH in *. lia. }
  injection H as <- <-.
  split; [|exact Hlen].
  unfold writing. rewrite entry_put, dev_put.
  cbn. repeat split; try lia.
  left. rewrite Hd. auto.
Qed.

Lemma write_step name perms fd w D buf w' :
  writing T F name perms fd w D ->
  Forall is_byte buf ->
  Z.of_nat (length D) + Z.of_nat (length buf) < 2 ^ 31 ->
  write T F fd buf (Z.of_nat (length buf)) w = Ret (Z.of_nat (length buf), w') ->
  writing T F name perms fd w' (D ++ buf).
Proof.
  intros (Hfd & Hu & Hdel & Hpos & Hfn & Hcase) Hbuf Hlen H.
  unfold write in H. rewrite sanity_check_ok in H by assumption. cbn [bind] in H.
  set (e := FileDescriptors (globals w) fd) in *.
  change (2 ^ 31) with 2147483648 in *.
  destruct Hcase as [(HS & -> & Hsh) | (HS & HW & k & Hk & Hp & Hsh & Hb)].
  - rewrite HS, Z.eqb_refl in H. cbn [length] in *.
    destruct (AllocateSectorWithFilenode T F w None) as [[[[rc N] sh'] w1]| |] eqn:HA;
      try discriminate.
    cbn [bind] in H.
    destruct (Z.eqb_spec rc 0) as [->|Hrc]; cbn [negb] in H.
    2:{ injection H as Hrc' _. exfalso.
        unfold AllocateSectorWithFilenode in HA. apply allocate_journal in HA.
        destruct HA as [(-> & _)|(-> & _)]; [|contradiction].
        unfold FFS_RC_OUT_OF_SPACE in Hrc'. lia. }
    unfold AllocateSectorWithFilenode in HA.
    apply (allocate_on_layout T Tok _ _ _ _ _ 0 []) in HA;
      try assumption; try reflexivity; try (change (2 ^ 32) with 4294967296; lia).
    2:{ intros i Hi. lia. }
    destruct HA as (-> & Hv0 & Hkf & -> & Hfd1 & Hview).
    cbn [need bind] in H.
    apply (first_alloc_shows T) in Hview.
    match type of H with
    | context [write_loop T F w1 ?fdsc 0 ?h ?off buf 0 ?n 0] =>
        destruct (write_loop T F w1 fdsc 0 h off buf 0 n 0)
          as [[[rc Fd'] w2]| |] eqn:HWL; try discriminate
    end.
    cbn [bind] in H. injection H as -> <-.
    apply (write_loop_on_layout T Tok F F _ _ _ _ _ _ _ _ _ 1 []) in HWL;
      try assumption; try reflexivity; cbn [length]; try lia.
    2:{ intros i Hi. assert (i = 0) by lia. subst i. assumption. }
    2:{ change (Z.of_nat 0) with 0.
        assert (Hp1 : prefix_valid T 1).
        { intros i Hi. assert (i = 0) by lia. subst i. assumption. }
        pose proof (base_mono T Tok 1 0 1 Hp1 ltac:(lia) ltac:(lia)).
        pose proof (base_0 T). lia. }
    2:{ cbn. fold e. rewrite Hfn. reflexivity. }
    destruct HWL as (_ & -> & Hfd2 & k' & Hk1 & Hk2 & Hp' & Hsh' & Hb').
    unfold writing. rewrite entry_put, dev_put.
    cbn [app skipn Z.to_nat] in *. cbn [Z.of_nat] in Hsh', Hb'.
    change (Z.of_nat 0) with 0 in *. rewrite Z.add_0_l in *.
    repeat split; try lia.
    + cbn. assumption.
    + cbn. assumption.
    + cbn. rewrite Hfn. reflexivity.
    + right. cbn [FnodeSector WriteFnode advance set_Fnode set_Position
                  set_FnodeSector set_WriteFnode].
      repeat split. exists k'. repeat split; try assumption; try lia.
  - rewrite HS in H. change (0 =? MINUS_ONE) with false in H.
    unfold LocatePosition in H. rewrite HS, Hpos in H.
    assert (Hk31 : k < 2147483648).
    { apply (layout_bound T Tok k D); auto; lia. }
    destruct (Z.lt_ge_cases (Z.of_nat (length D)) (base T k)) as [Hin|Hfull].
    + pose proof (LocatePosition_loop_finds T Tok (Z.to_nat (k - 1)) F (dev w)
                    (Z.of_nat (length D)) 0 None None k D (k - 1)) as HLP.
      rewrite base_0 in HLP. rewrite HLP in H; clear HLP;
        try assumption; try lia.
      2:{ apply shows_holds; auto. change (2 ^ 32) with 4294967296. lia. }
      2:{ replace (k - 1 + 1) with k by lia. lia. }
      cbn [bind need] in H. change (0 <? 0) with false in H. cbn [bind need] in H.
      match type of H with
      | context [write_loop T F w ?fdsc ?c ?h ?off buf 0 ?n 0] =>
          destruct (write_loop T F w fdsc c h off buf 0 n 0)
            as [[[rc Fd'] w2]| |] eqn:HWL; try discriminate
      end.
      cbn [bind] in H. injection H as -> <-.
      apply (write_loop_on_layout T Tok F F _ _ _ _ _ _ _ _ _ k D) in HWL;
        try assumption; try reflexivity; try lia.
      2:{ fold e. rewrite Hfn. reflexivity. }
      destruct HWL as (_ & -> & Hfd2 & k' & Hk1 & Hk2 & Hp' & Hsh' & Hb').
      cbn [skipn Z.to_nat] in Hsh'.
      unfold writing. rewrite entry_put, dev_put, length_app, Nat2Z.inj_add.
      repeat split; try lia.
      * cbn. assumption.
      * cbn. assumption.
      * cbn. fold e. rewrite Hfn. reflexivity.
      * right. cbn [FnodeSector WriteFnode advance set_Fnode set_Position].
        fold e. repeat split; try assumption.
        exists k'. repeat split; try assumption; try lia.
    + exfalso.
      destruct (LocatePosition_loop T F (dev w) (Z.of_nat (length D)) 0 None None 0)
        as [[[[rc S] sh'] off']| |] eqn:HLP; try discriminate.
      cbn [bind] in H.
      rewrite <- (base_0 T) in HLP at 2.
      apply (LocatePosition_loop_past_end T Tok (Z.to_nat (k - 1)) _ _ _ _ _ _ k D)
        in HLP; try assumption; try lia.
      destruct (Z.ltb_spec rc 0); [|lia].
      injection H as Hrc _. lia.
Qed.

End Session.

(* ------------------------------------------------------------------ *)
(** ** close, open and read of the new file *)

Section RoundTrip.
Variable T : list FFS_FLASH_SECTION.
Hypothesis Tok : table_ok T.
Variable F : nat.

Lemma written_run name perms fd bufs w w' :
  written T F fd bufs w w' ->
  forall D,
    writing T F name perms fd w D -> Forall (Forall is_byte) bufs ->
    Z.of_nat (length D) + Z.of_nat (length (concat bufs)) < 2 ^ 31 ->
    writing T F name perms fd w' (D ++ concat bufs).
Proof.
  induction 1 as [w|buf bufs w w1 w2 Hw Hrest IH]; intros D Hinv Hb Hlen.
  - cbn [concat]. rewrite app_nil_r. assumption.
  - cbn [concat] in *. rewrite length_app, Nat2Z.inj_add in Hlen.
    inversion Hb as [|? ? Hb1 Hb2]; subst.
    rewrite app_assoc. apply IH; try assumption.
    + apply (write_step T Tok F name perms fd w D buf w1); try assumption. lia.
    + rewrite length_app, Nat2Z.inj_add. lia.
Qed.

Lemma image_fnode_area k D o :
  1 <= k -> 24 <= o < 104 -> image T k D 0 o = 0xFF.
Proof.
  intros Hk Ho. unfold image.
  destruct (Z.ltb_spec 0 k); [|lia].
  destruct (Z.leb_spec 0 o); [|lia]. cbn [Z.leb andb].
  unfold sizeof_FFS_SECTOR_HEADER.
  destruct (Z.ltb_spec o 24); [lia|].
  change (data_off 0) with 104.
  destruct (Z.ltb_spec o 104); [|lia]. reflexivity.
Qed.

(** [close] writes the file node into the erased area after the head
    sector's header and frees the descriptor. *)
Lemma close_on_layout fd w D k fn :
  0 <= fd < FFS_MAX_FILE_DESCRIPTORS ->
  InUse (FileDescriptors (globals w) fd) <> 0 ->
  DeleteOldFile (FileDescriptors (globals w) fd) = 0 ->
  WriteFnode (FileDescriptors (globals w) fd) = 1 ->
  FnodeSector (FileDescriptors (globals w) fd) = 0 ->
  Fnode (FileDescriptors (globals w) fd) = fn ->
  Forall is_byte (Filename fn) -> Forall is_byte (FnodePad fn) ->
  shows T (dev w) (image T k D) -> prefix_valid T k -> 1 <= k ->
  exists w',
    close T F fd w = Ret (0, w')
    /\ InUse (FileDescriptors (globals w') fd) = 0
    /\ shows T (dev w') (image_closed T k D fn).
Proof.
  intros Hfd Hu Hdel HW HS Hfn Hnm Hpad Hsh Hp Hk.
  unfold close. rewrite sanity_check_ok by assumption. cbn [bind].
  rewrite HW, Hdel, HS, Hfn. cbn [Z.eqb negb bind].
  eexists. split; [reflexivity|]. split.
  - unfold FreeDescriptor. rewrite entry_put. reflexivity.
  - unfold FreeDescriptor. rewrite dev_put.
    assert (Hv0 : ValidSector T 0 = true) by (apply Hp; lia).
    pose proof (sector_size_ok T Tok 0 ltac:(lia) Hv0) as Hsz.
    intros g o Hg Hv.
    rewrite (write_view T Tok w 0 sizeof_FFS_SECTOR_HEADER (fnode_bytes fn)
               sizeof_FFS_FILE_NODE g o);
      try assumption;
      try (unfold sizeof_FFS_SECTOR_HEADER, sizeof_FFS_FILE_NODE;
           change (2 ^ 32) with 4294967296; lia).
    rewrite !Hsh by assumption.
    unfold image_closed, within, sizeof_FFS_SECTOR_HEADER, sizeof_FFS_FILE_NODE.
    change (data_off 0) with 104. change (24 + 80) with 104.
    rewrite <- andb_assoc.
    destruct ((g =? 0) && ((24 <=? o) && (o <? 104))) eqn:E; [|reflexivity].
    apply andb_true_iff in E. destruct E as [Eg Eo].
    apply andb_true_iff in Eo. destruct Eo as [Eo1 Eo2].
    apply Z.eqb_eq in Eg. apply Z.leb_le in Eo1. apply Z.ltb_lt in Eo2. subst g.
    rewrite image_fnode_area by lia.
    apply land_ff. apply nth_byte. apply fnode_bytes_bytes; assumption.
Qed.

(** A closed new file is found by name. *)
Lemma LocateFileNode_closed d k D name perms size :
  shows T d (image_closed T k D (new_fnode name perms size)) ->
  prefix_valid T k -> 1 <= k < 2 ^ 32 -> (0 < F)%nat ->
  Forall is_byte name -> strlen name <= 64 -> 0 <= size < 2 ^ 32 ->
  LocateFileNode T F d name = Ret (Some (0, new_fnode name perms size)).
Proof.
  intros Hsh Hp Hk HF Hnm Hlen Hsz. unfold LocateFileNode.
  destruct (Z.gtb_spec (strlen name) FFS_MAX_FILENAME_LENGTH) as [Hgt|_].
  { unfold FFS_MAX_FILENAME_LENGTH in Hgt. lia. }
  assert (Hv0 : ValidSector T 0 = true) by (apply Hp; lia).
  assert (Hfn : fnode_of T d 0 = new_fnode name perms size).
  { apply fnode_of_written.
    - apply new_fnode_ok; assumption.
    - intros i Hi. rewrite Hsh by (try assumption; change (2 ^ 32) with 4294967296; lia).
      unfold image_closed, sizeof_FFS_SECTOR_HEADER.
      change (data_off 0) with 104. cbn [Z.eqb andb].
      destruct (Z.leb_spec 24 (24 + i)); [|lia].
      destruct (Z.ltb_spec (24 + i) 104); [|lia]. cbn [andb].
      replace (24 + i - 24) with i by lia.
      apply nth_indep. rewrite length_fnode_bytes. lia. }
  apply (LocateFileNode_loop_build T Tok 0).
  - change (2 ^ 32) with 4294967296. lia.
  - assumption.
  - intros i Hi. lia.
  - cbn [scan_result]. change (ulong (0 + Z.of_nat 0)) with 0.
    repeat split; try assumption; [|symmetry; assumption].
    exists (StringToUpperCase (c_str name)). split; [|apply str_eqb_refl].
    unfold name_at.
    destruct (shows_closed_holds T Tok d k D _ Hsh Hp ltac:(lia)) as [Hh _].
    rewrite Hh by lia. cbn [header_img Status Z.eqb].
    change (FFS_SECTOR_HEADER_INUSE_FILENODE =? FFS_SECTOR_HEADER_INUSE_FILENODE)
      with true. cbn iota.
    rewrite Hfn. unfold new_fnode. cbn [Filename].
    rewrite strcpy_shape, array_str_app by apply c_str_no_nul. reflexivity.
Qed.

Lemma open_closed name perms perms' D k w fd0 :
  shows T (dev w) (image_closed T k D (new_fnode name perms (Z.of_nat (length D)))) ->
  prefix_valid T k -> 1 <= k < 2 ^ 32 -> (0 < F)%nat ->
  Forall is_byte name -> strlen name <= 64 -> Z.of_nat (length D) < 2 ^ 32 ->
  0 <= fd0 < FFS_MAX_FILE_DESCRIPTORS ->
  InUse (FileDescriptors (globals w) fd0) = 0 ->
  exists fd w',
    open T F name FFS_RDONLY perms' w = Ret (fd, w')
    /\ 0 <= fd < FFS_MAX_FILE_DESCRIPTORS /\ dev w' = dev w
    /\ InUse (FileDescriptors (globals w') fd) <> 0
    /\ Position (FileDescriptors (globals w') fd) = 0
    /\ FnodeSector (FileDescriptors (globals w') fd) = 0
    /\ Fnode (FileDescriptors (globals w') fd)
       = new_fnode name perms (Z.of_nat (length D)).
Proof.
  intros Hsh Hp Hk HF Hnm Hlen HD Hfd0 Hfree. unfold open.
  set (wi := if initializationComplete (globals w) then w else Initialize w).
  assert (Hd : dev wi = dev w)
    by (unfold wi; destruct (initializationComplete _); reflexivity).
  assert (Hfree' : InUse (FileDescriptors (globals wi) fd0) = 0)
    by (unfold wi; destruct (initializationComplete _); assumption).
  destruct (GetDescriptor_free wi fd0 Hfd0 Hfree') as (fd & Hfd & ->).
  assert (Hr : 0 <= fd < FFS_MAX_FILE_DESCRIPTORS)
    by (unfold FFS_MAX_FILE_DESCRIPTORS; lia).
  destruct (Z.ltb_spec fd 0); [lia|].
  rewrite table_entry_ok by assumption. rewrite entry_put. cbn [bind].
  rewrite dev_put, Hd.
  rewrite (LocateFileNode_closed (dev w) k D name perms (Z.of_nat (length D)));
    try assumption; try lia.
  cbn [bind FnodeSector set_FnodeSector].
  change (Z.land FFS_RDONLY FFS_CREATE =? 0) with true.
  change (0 =? MINUS_ONE) with false.
  change (negb (FFS_RDONLY =? 0)) with false. cbn [andb].
  eexists _, _. split; [reflexivity|].
  rewrite !entry_put, !dev_put. cbn. repeat split; try lia; try assumption.
Qed.

(** Reading a closed file from position 0. *)
Lemma read_on_layout fd buf n w k D :
  holds T (dev w) k D -> prefix_valid T k -> 1 <= k <= Z.of_nat F -> k < 2 ^ 31 ->
  0 <= fd < FFS_MAX_FILE_DESCRIPTORS ->
  InUse (FileDescriptors (globals w) fd) <> 0 ->
  Position (FileDescriptors (globals w) fd) = 0 ->
  FnodeSector (FileDescriptors (globals w) fd) = 0 ->
  FileSize (Fnode (FileDescriptors (globals w) fd)) = Z.of_nat (length D) ->
  0 < Z.of_nat (length D) < 2 ^ 31 -> Z.of_nat (length D) <= base T k ->
  Z.of_nat (length D) <= n < 2 ^ 31 ->
  Z.of_nat (length D) <= Z.of_nat (length buf) ->
  exists w',
    read T F fd buf n w
    = Ret (Z.of_nat (length D), D ++ skipn (length D) buf, w').
Proof.
  change (2 ^ 31) with 2147483648.
  intros Hh Hp Hk Hk31 Hfd Hu Hpos HS Hsz HD HDk Hn Hbuf.
  unfold read. rewrite sanity_check_ok by assumption. cbn [bind].
  set (e := FileDescriptors (globals w) fd) in *.
  rewrite Hpos, Hsz.
  destruct (Z.geb_spec 0 (Z.of_nat (length D))); [lia|].
  unfold LocatePosition. rewrite HS.
  destruct (locate_sector T (Z.to_nat k) 0) as (c & Hc & Hb).
  { rewrite Z2Nat.id by lia. assumption. }
  { rewrite Z2Nat.id by lia. lia. }
  rewrite Z2Nat.id in Hc by lia.
  pose proof (LocatePosition_loop_finds T Tok (Z.to_nat c) F (dev w) 0 0 None None
                k D c Hh Hp Hk31) as HLP.
  rewrite base_0 in HLP. rewrite HLP; try lia. clear HLP.
  cbn [bind need]. change (0 <? 0) with false. cbn [bind need].
  rewrite Z.sub_0_r.
  rewrite (ulong_small (Z.of_nat (length D))) by (change (2 ^ 32) with 4294967296; lia).
  rewrite (ulong_small n) by (change (2 ^ 32) with 4294967296; lia).
  rewrite (to_int_small (Z.of_nat (length D)))
    by (change (2 ^ 31) with 2147483648; lia).
  set (n' := if n >? Z.of_nat (length D) then Z.of_nat (length D) else n).
  assert (Hn' : n' = Z.of_nat (length D)).
  { unfold n'. destruct (Z.gtb_spec n (Z.of_nat (length D))); lia. }
  clearbody n'. subst n'.
  assert (Hv : ValidSector T c = true) by (apply Hp; lia).
  pose proof (capacity_nonneg T Tok c ltac:(lia) Hv) as Hcap.
  rewrite base_succ in Hb by lia.
  destruct (read_loop_on_layout T Tok F (dev w) e c (0 - base T c) buf 0
              (Z.of_nat (length D)) 0 k D 0) as [Fd' HRL];
    try assumption; try lia.
  rewrite HRL. cbn [bind]. rewrite Z.add_0_l. cbn [Z.to_nat firstn skipn app].
  rewrite Nat2Z.id, firstn_all. eexists. reflexivity.
Qed.

End RoundTrip.

(* ------------------------------------------------------------------ *)
(** ** Write/read round trip *)

Lemma fresh_shows T d : same_cells (cells d) virgin -> shows T d (image T 0 []).
Proof.
  intros H g o Hg _. rewrite image_outside by lia. unfold sector_byte.
  destruct (GetFlashSectionEntry T g) as [[[k s] rel]|]; [|reflexivity].
  apply H.
Qed.

(** C1 (amended). Write/read round trip on a fresh volume: when
    [open(name, CREATE)], a run of [write] calls that each return the
    length they were given, and [close] succeed, and at least one byte
    (and fewer than 2^31) was written in total, then [open(name, RDONLY)]
    succeeds and a [read] of [n >= total] bytes returns [total] and leaves
    exactly the bytes written, in order, at the front of the caller's
    buffer. *)
Theorem create_write_close_then_read
        (T : list FFS_FLASH_SECTION) (fuel : nat) (name : list Z)
        (perms perms' : Z) (bufs : list (list Z)) (buf : list Z) (n : Z)
        (w0 : world) (fd : Z) (w1 w2 w3 : world) :
  table_ok T ->
  same_cells (cells (dev w0)) virgin ->
  Forall is_byte name ->
  Forall (Forall is_byte) bufs ->
  0 < Z.of_nat (length (concat bufs)) < 2 ^ 31 ->
  open T fuel name FFS_CREATE perms w0 = Ret (fd, w1) -> 0 <= fd ->
  written T fuel fd bufs w1 w2 ->
  close T fuel fd w2 = Ret (0, w3) ->
  Z.of_nat (length (concat bufs)) <= n < 2 ^ 31 ->
  (length (concat bufs) <= length buf)%nat ->
  exists fd' w4 w5,
    open T fuel name FFS_RDONLY perms' w3 = Ret (fd', w4) /\ 0 <= fd'
    /\ read T fuel fd' buf n w4
       = Ret (Z.of_nat (length (concat bufs)),
              concat bufs ++ skipn (length (concat bufs)) buf, w5).
Proof.
  intros Tok Hfresh Hname Hbufs Htot Hopen Hfd Hw Hclose Hn Hbuf.
  change (2 ^ 31) with 2147483648 in *.
  destruct (open_create_fresh T Tok fuel name perms w0 fd w1
              (fresh_shows T (dev w0) Hfresh) Hopen Hfd) as [Hinv Hlen].
  apply (written_run T Tok fuel name perms fd bufs w1 w2 Hw []) in Hinv;
    [|assumption|cbn [length]; change (2 ^ 31) with 2147483648; lia].
  cbn [app] in Hinv.
  destruct Hinv as (Hr & Hu & Hdel & Hpos & Hfn & Hcase).
  destruct Hcase as [(_ & HD & _)|(HS & HW & k & Hk & Hp & Hsh & Hb)].
  { rewrite HD in Htot. cbn [length] in Htot. lia. }
  assert (Hk31 : k < 2147483648).
  { apply (layout_bound T Tok k (concat bufs)); auto; lia. }
  destruct (close_on_layout T Tok fuel fd w2 (concat bufs) k _ Hr Hu Hdel HW HS Hfn)
    as (w3' & Hc & Hfree & Hsh3); try assumption; try lia.
  { cbn [new_fnode Filename]. apply strcpy_bytes. assumption. }
  { cbn [new_fnode FnodePad]. repeat constructor; unfold is_byte; lia. }
  rewrite Hc in Hclose. injection Hclose as <-.
  destruct (open_closed T Tok fuel name perms perms' (concat bufs) k w3' fd)
    as (fd' & w4 & Ho & Hfd' & Hd4 & Hu4 & Hpos4 & HS4 & Hfn4);
    try assumption; try (change (2 ^ 32) with 4294967296; lia).
  destruct (read_on_layout T Tok fuel fd' buf n w4 k (concat bufs))
    as (w5 & Hread); try assumption;
    try (change (2 ^ 31) with 2147483648; lia).
  { rewrite Hd4. apply (shows_closed_holds T Tok _ _ _ _ Hsh3 Hp).
    change (2 ^ 32) with 4294967296. lia. }
  { rewrite Hfn4. reflexivity. }
  exists fd', w4, w5. repeat split; [assumption|lia|assumption].
Qed.

Lemma create_write_close_then_read_witness :
  exists fd' w4 w5,
    open small_table 8 name_a FFS_RDONLY 0 session_closed = Ret (fd', w4)
    /\ 0 <= fd'
    /\ read small_table 8 fd' (repeat 0 40) 40 w4
       = Ret (Z.of_nat (length (concat [repeat 7 30])),
              concat [repeat 7 30]
              ++ skipn (length (concat [repeat 7 30])) (repeat 0 40), w5).
Proof.
  apply (create_write_close_then_read small_table 8 name_a 0 0 [repeat 7 30]
           (repeat 0 40) 40 (power_on virgin) 0 session_opened
           session_two_sectors session_closed).
  - repeat constructor; vm_compute; congruence.
  - intros k r o. reflexivity.
  - repeat constructor; vm_compute; congruence.
  - repeat constructor; vm_compute; congruence.
  - vm_compute. split; reflexivity.
  - vm_compute. reflexivity.
  - lia.
  - eapply written_cons; [vm_compute; reflexivity|apply written_nil].
  - vm_compute. reflexivity.
  - vm_compute. split; [congruence|reflexivity].
  - vm_compute. lia.
Defined.

(** C1 (counterexample to the claim as stated). On a fresh volume
    [open("a", CREATE)], a [write] of no bytes and [close] all succeed and
    the file exists; [open("a", RDONLY)] succeeds, and [read] returns
    FFS_RC_INVALID_FILE_POSITION (-4), not the number of bytes written
    (0): [read] refuses every position at or past the file size. *)
Lemma read_of_empty_file_is_refused :
  open small_table 8 name_a FFS_CREATE 0 (power_on virgin)
  = Ret (0, session_opened)
  /\ written small_table 8 0 [[]] session_opened session_empty_written
  /\ close small_table 8 0 session_empty_written = Ret (0, session_empty_closed)
  /\ open small_table 8 name_a FFS_RDONLY 0 session_empty_closed
     = Ret (0, session_empty_reopened)
  /\ read small_table 8 0 [9] 1 session_empty_reopened
     = Ret (FFS_RC_INVALID_FILE_POSITION, [9], session_empty_reopened)
  /\ read small_table 8 0 [] 0 session_empty_reopened
     = Ret (FFS_RC_INVALID_FILE_POSITION, [], session_empty_reopened)
  /\ FFS_RC_INVALID_FILE_POSITION <> Z.of_nat (length (concat [[] : list Z])).
Proof.
  split; [vm_compute; reflexivity|].
  split; [eapply written_cons; [vm_compute; reflexivity|apply written_nil]|].
  split; [vm_compute; reflexivity|]. split; [vm_compute; reflexivity|].
  split; [vm_compute; reflexivity|]. split; [vm_compute; reflexivity|].
  discriminate.
Qed.

(* ------------------------------------------------------------------ *)
(** ** Media that read alike *)

Section Alike.
Variable T : list FFS_FLASH_SECTION.
Hypothesis Tok : table_ok T.
Variables d d1 : device.
Variable P : Z -> Prop.
Hypothesis P_alike : forall g, P g -> alike T d d1 g g.
Hypothesis P_next :
  forall g, P g -> ValidSector T g = true -> P (Next (header_of T d g)).

Lemma ReadSector_alike g g1 off len :
  0 <= g -> 0 <= g1 ->
  ValidSector T g = ValidSector T g1 ->
  (ValidSector T g = true -> sector_size T g = sector_size T g1) ->
  agree_from T d d1 g g1 off ->
  ReadSector T d g off len = ReadSector T d1 g1 off len.
Proof.
  intros Hg Hg1 Hv Hsz Ha.
  destruct (ValidSector T g) eqn:Hvg.
  - symmetry in Hv. specialize (Hsz eq_refl).
    destruct (Z_le_dec 0 off) as [Ho|Ho];
      [destruct (Z_le_dec 0 len) as [Hl|Hl];
       [destruct (Z_le_dec (off + len) (sector_size T g)) as [Hr|Hr]|]|].
    + rewrite !(ReadSector_view T Tok) by (try assumption; lia).
      f_equal. f_equal. apply map_ext_in. intros i Hi. apply in_seq in Hi.
      apply Ha. lia.
    + rewrite !(ReadSector_fail T) by (try assumption; lia). reflexivity.
    + rewrite !(ReadSector_fail T) by (try assumption; lia). reflexivity.
    + rewrite !(ReadSector_fail T) by (try assumption; lia). reflexivity.
  - symmetry in Hv. rewrite !ReadSector_invalid by assumption. reflexivity.
Qed.

Lemma LocatePosition_loop_alike fuel :
  forall pos g g1 sh sh1 off cnt rc G h o,
    alike T d d1 g g1 ->
    (ValidSector T g = true -> P (Next (header_of T d g))) ->
    0 <= cnt <= pos -> pos < 2 ^ 32 ->
    LocatePosition_loop T fuel d pos g sh off cnt = Ret (rc, G, h, o) ->
    exists G1 h1,
      LocatePosition_loop T fuel d1 pos g1 sh1 off cnt = Ret (rc, G1, h1, o)
      /\ (0 <= rc ->
          exists hh hh1 Off,
            h = Some hh /\ h1 = Some hh1 /\ o = Some Off
            /\ handed T d d1 P G G1 hh hh1 Off).
Proof.
  change (2 ^ 32) with 4294967296.
  induction fuel as [|fuel IH];
    intros pos g g1 sh sh1 off cnt rc G h o Hal HP Hcnt Hpos H; [discriminate|].
  cbn [LocatePosition_loop] in *.
  destruct Hal as (Hg & Hg1 & Hv & Hal).
  destruct (ValidSector T g) eqn:Hvg.
  - symmetry in Hv. destruct (Hal eq_refl) as (Hsz & (HSL & HDO & HNX) & Hbytes).
    specialize (HP eq_refl).
    rewrite (read_header_view T Tok d g sh) in H by (try assumption; lia).
    rewrite (read_header_view T Tok d1 g1 sh1) by (try assumption; lia).
    change (sizeof_FFS_SECTOR_HEADER <? 0) with false in *. cbn [need bind] in *.
    rewrite <- HSL, <- HDO, <- HNX.
    remember (header_of T d g) as hg eqn:Ehg.
    remember (header_of T d1 g1) as hg1 eqn:Ehg1.
    set (payload := ulong (SectorLength hg - DataOffset hg)) in *.
    pose proof (ulong_nonneg (cnt + payload)) as Hc'.
    change (2 ^ 32) with 4294967296 in Hc'.
    destruct (Z.ltb_spec pos (ulong (cnt + payload))) as [Hlt|Hge].
    + injection H as <- <- <- <-.
      exists g1, (Some hg1). split; [reflexivity|].
      intros _. exists hg, hg1, (ulong (DataOffset hg + ulong (pos - cnt))).
      split; [reflexivity|]. split; [reflexivity|].
      split; [reflexivity|].
      assert (Hag : agree_from T d d1 g g1 (ulong (DataOffset hg + ulong (pos - cnt)))).
      { destruct Hbytes as [Hall|(HD & HL & Hpay)].
        - intros o Ho. apply Hall.
        - intros o Ho. apply Hpay.
          pose proof (sector_size_ok T Tok g ltac:(lia) Hvg) as Hs.
          change (2 ^ 31) with 2147483648 in Hs.
          unfold payload in Hlt. rewrite HD, HL in *.
          rewrite (ulong_small (sector_size T g - 104)) in Hlt
            by (change (2 ^ 32) with 4294967296; lia).
          assert (Hle : ulong (cnt + (sector_size T g - 104))
                        <= cnt + (sector_size T g - 104)).
          { unfold ulong. apply Z.mod_le; lia. }
          rewrite (ulong_small (pos - cnt)) in Ho
            by (change (2 ^ 32) with 4294967296; lia).
          rewrite ulong_small in Ho by (change (2 ^ 32) with 4294967296; lia).
          lia. }
      unfold handed. change (2 ^ 32) with 4294967296.
      repeat split; try assumption; try lia.
    + apply (IH pos (Next hg) (Next hg) _ (Some hg1)) in H;
        try assumption; try lia.
      * apply P_alike. assumption.
      * intros Hvn. apply P_next; assumption.
  - symmetry in Hv.
    rewrite (read_header_invalid T d g sh Hvg) in H.
    rewrite (read_header_invalid T d1 g1 sh1 Hv).
    change (FFS_RC_INVALID_SECTOR_NUMBER <? 0) with true in *.
    injection H as <- <- <- <-.
    exists g1, sh1. split; [reflexivity|].
    unfold FFS_RC_INVALID_SECTOR_NUMBER. lia.
Qed.

Lemma read_loop_alike fuel :
  forall Fdesc Fdesc1 g g1 hh hh1 Off buf p n tr rc Fd' buf',
    handed T d d1 P g g1 hh hh1 Off ->
    read_loop T fuel d Fdesc g hh Off buf p n tr = Ret (rc, Fd', buf') ->
    exists Fd1',
      read_loop T fuel d1 Fdesc1 g1 hh1 Off buf p n tr = Ret (rc, Fd1', buf').
Proof.
  induction fuel as [|fuel IH];
    intros Fdesc Fdesc1 g g1 hh hh1 Off buf p n tr rc Fd' buf' Hh H; [discriminate|].
  cbn [read_loop] in *.
  destruct (n =? 0).
  { injection H as <- <- <-. eexists. reflexivity. }
  destruct Hh as (Hg & Hg1 & Hv & Hv1 & Hsz & Hhh & Hhh1 & (HSL & HDO & HNX) & HPn & Hag).
  rewrite <- HSL, <- HNX.
  set (RemLen := if ulong n <? ulong (SectorLength hh - Off)
                 then ulong n else ulong (SectorLength hh - Off)) in *.
  rewrite <- (ReadSector_alike g g1 Off (to_int RemLen))
    by (try assumption; try lia; rewrite Hv, Hv1; reflexivity).
  destruct (match snd (ReadSector T d g Off (to_int RemLen)) with
            | Some data => poke buf p data
            | None => Ret buf
            end) as [buf2| |]; try discriminate.
  cbn [bind] in *.
  destruct (to_int (ulong n - RemLen) =? 0).
  { injection H as <- <- <-. eexists. reflexivity. }
  pose proof (P_alike _ HPn) as (Hn & _ & _ & Han).
  destruct (ValidSector T (Next hh)) eqn:Hvn.
  - destruct (Han eq_refl) as (Hszn & (HSLn & HDOn & HNXn) & Hbytes).
    rewrite (read_header_view T Tok d (Next hh)) in H by (try assumption; lia).
    rewrite (read_header_view T Tok d1 (Next hh)) by (try assumption; lia).
    change (sizeof_FFS_SECTOR_HEADER <? 0) with false in *. cbn [need bind] in *.
    rewrite <- HDOn.
    eapply IH; [|exact H].
    unfold handed. repeat split; try assumption; try lia.
    + apply P_next; assumption.
    + destruct Hbytes as [Hall|(HD & _ & Hpay)].
      * intros o Ho. apply Hall.
      * rewrite HD. assumption.
  - rewrite (read_header_invalid T d (Next hh) _ Hvn) in H.
    rewrite (read_header_invalid T d1 (Next hh) _ Hvn).
    change (FFS_RC_INVALID_SECTOR_NUMBER <? 0) with true in *.
    injection H as <- <- <-. eexists. reflexivity.
Qed.

End Alike.

(* ------------------------------------------------------------------ *)
(** ** What allocation and the copy loop leave on the medium *)

Section RenameView.
Variable T : list FFS_FLASH_SECTION.
Hypothesis Tok : table_ok T.

Lemma flash_bytes d g o : flash_ok (cells d) -> is_byte (sector_byte T d g o).
Proof.
  intros H. unfold sector_byte.
  destruct (GetFlashSectionEntry T g) as [[[k s] rel]|].
  - apply H.
  - unfold is_byte. lia.
Qed.

Lemma header_of_ok d g : flash_ok (cells d) -> header_ok (header_of T d g).
Proof.
  intros H. unfold header_of. rewrite header_at_fields. unfold header_ok.
  cbn [Key Next EraseCount Version Status SectorChecksum SectorLength DataOffset].
  pose proof (fun o => flash_bytes d g o H) as B.
  repeat split; try (apply rd32_bound; apply B); try apply B.
  - pose proof (B 14) as [? ?]. pose proof (B 15) as [? ?]. lia.
  - pose proof (B 14) as [? ?]. pose proof (B 15) as [? ?]. lia.
Qed.

Lemma nth_byte0 (l : list Z) i : Forall is_byte l -> is_byte (nth i l 0).
Proof.
  intros H. destruct (Nat.lt_ge_cases i (length l)) as [Hi|Hi].
  - rewrite Forall_forall in H. apply H. apply nth_In. assumption.
  - rewrite nth_overflow by assumption. unfold is_byte. lia.
Qed.

Lemma fnode_of_ok d g : flash_ok (cells d) -> fnode_ok (fnode_of T d g).
Proof.
  intros H. unfold fnode_of.
  set (l := map (fun i => sector_byte T d g (sizeof_FFS_SECTOR_HEADER + Z.of_nat i))
                (seq 0 80)).
  assert (Hl : Forall is_byte l).
  { apply Forall_forall. intros x Hx. apply in_map_iff in Hx.
    destruct Hx as (i & <- & _). apply flash_bytes. assumption. }
  assert (Hn : length l = 80%nat) by (unfold l; rewrite length_map, length_seq; reflexivity).
  unfold fnode_ok, fnode_of_bytes.
  cbn [Permissions Filename FnodePad FileSize DataTime Count].
  unfold rd32, byte_at.
  repeat split;
    try (apply rd32_bound; apply nth_byte0; assumption);
    try (apply nth_byte0; assumption);
    try (apply Forall_firstn; apply Forall_skipn; assumption);
    try (apply (nth_byte0 l 0 Hl));
    rewrite length_firstn, length_skipn, Hn; reflexivity.
Qed.

(** What an allocation leaves on the medium. *)
Lemma allocate_view fuel w sh st doff N sh' w' :
  allocate T fuel w sh st doff = Ret (0, N, sh', w') ->
  0 <= N < 2 ^ 32 /\ ValidSector T N = true /\ N < Z.of_nat fuel
  /\ ~ busy T (dev w) N
  /\ (forall g, 0 <= g < N -> ValidSector T g = true /\ busy T (dev w) g)
  /\ FileDescriptors (globals w') = FileDescriptors (globals w)
  /\ exists sec,
      FlashSection.SectorSize sec = sector_size T N
      /\ sh' = Some (fresh_header (header_of T (dev w) N) sec st doff)
      /\ forall g o, 0 <= g < 2 ^ 32 -> ValidSector T g = true ->
           sector_byte T (dev w') g o
           = if g =? N
             then if within 0 sizeof_FFS_SECTOR_HEADER o
                  then nth (Z.to_nat o)
                           (header_bytes
                              (fresh_header (header_of T (dev w) N) sec st doff))
                           0xFF
                  else 0xFF
             else sector_byte T (dev w) g o.
Proof.
  intros H. unfold allocate, FindFreeSector in H.
  destruct (FindFreeSector_loop T fuel w 0 sh) as [[[[[found N0] sh0] sec] w0]| |] eqn:HF;
    try discriminate.
  cbn [bind] in H.
  apply (FindFreeSector_loop_run T Tok) in HF; [|change (2 ^ 32) with 4294967296; lia].
  destruct HF as (m & Hm & Hpre & HN & Hd & Hfd & Hres).
  destruct Hres as [(-> & _)|(-> & Hv & Hnb & -> & Hsz)].
  { cbn in H. discriminate. }
  change (1 =? 0) with false in H. cbn [need bind] in H.
  injection H as <- <- <-.
  rewrite Z.add_0_l in HN.
  pose proof (ulong_nonneg (Z.of_nat m)) as HNr. rewrite <- HN in HNr.
  change (2 ^ 32) with 4294967296 in *.
  assert (Hm32 : Z.of_nat m < 4294967296).
  { destruct (Z.lt_ge_cases (Z.of_nat m) 4294967296) as [|Hge]; [assumption|].
    exfalso. destruct (Hpre (Z.to_nat N0) ltac:(lia)) as (_ & Hb).
    rewrite Z.add_0_l, Z2Nat.id, ulong_small in Hb
      by (change (2 ^ 32) with 4294967296; lia).
    contradiction. }
  rewrite ulong_small in HN by (change (2 ^ 32) with 4294967296; lia).
  split; [lia|]. split; [assumption|]. split; [lia|]. split; [assumption|].
  split.
  { intros g Hg. destruct (Hpre (Z.to_nat g) ltac:(lia)) as (Hvg & Hbg).
    rewrite Z.add_0_l, Z2Nat.id, ulong_small in Hvg, Hbg
      by (change (2 ^ 32) with 4294967296; lia).
    auto. }
  split; [assumption|].
  exists sec. split; [assumption|]. split; [reflexivity|].
  intros g o Hg Hvg.
  pose proof (sector_size_ok T Tok N0 ltac:(lia) Hv) as Hsk.
  rewrite write_view; try assumption;
    try (unfold sizeof_FFS_SECTOR_HEADER; change (2 ^ 32) with 4294967296; lia).
  rewrite !erase_view; try assumption; try (change (2 ^ 32) with 4294967296; lia).
  unfold sector_byte at 1 2. rewrite Hd. fold (sector_byte T (dev w) g o).
  destruct (Z.eqb_spec g N0) as [->|Hne]; cbn [andb]; [|reflexivity].
  destruct (within 0 sizeof_FFS_SECTOR_HEADER o); [|reflexivity].
  rewrite Z.sub_0_r. apply land_ff. apply nth_byte. apply header_bytes_bytes.
Qed.

(** The copy loop of [Rename] brings the bytes [off .. off+len) of
    sector [S] to sector [N]. *)
Lemma Rename_copy_view fuel :
  forall w S N off len buf w',
    0 <= S < 2 ^ 32 -> 0 <= N < 2 ^ 32 -> S <> N ->
    ValidSector T S = true -> ValidSector T N = true ->
    sector_size T S = sector_size T N ->
    0 <= off -> 0 <= len -> off + len <= sector_size T S ->
    Rename_copy T fuel w S N off len buf = Ret w' ->
    FileDescriptors (globals w') = FileDescriptors (globals w)
    /\ forall g o, 0 <= g < 2 ^ 32 -> ValidSector T g = true ->
         sector_byte T (dev w') g o
         = if (g =? N) && within off len o
           then Z.land (sector_byte T (dev w) N o) (sector_byte T (dev w) S o)
           else sector_byte T (dev w) g o.
Proof.
  change (2 ^ 32) with 4294967296.
  induction fuel as [|fuel IH];
    intros w S N off len buf w' HS HN Hne HvS HvN Hsz Hoff Hlen Hr H; [discriminate|].
  cbn [Rename_copy] in H.
  destruct (Z.eqb_spec len 0) as [->|Hl0].
  { injection H as <-. split; [reflexivity|]. intros g o Hg Hv.
    replace (within off 0 o) with false.
    - rewrite andb_false_r. reflexivity.
    - symmetry. unfold within. destruct (Z.leb_spec off o); [|reflexivity].
      destruct (Z.ltb_spec o (off + 0)); [lia|reflexivity]. }
  pose proof (sector_size_ok T Tok S ltac:(lia) HvS) as HsS.
  change (2 ^ 31) with 2147483648 in HsS.
  set (n := if len <? 100 then to_int len else 100) in *.
  assert (Hn : 0 < n <= len /\ n <= 100).
  { unfold n. destruct (Z.ltb_spec len 100).
    - rewrite to_int_small by (change (2 ^ 31) with 2147483648; lia). lia.
    - lia. }
  clearbody n.
  rewrite (ReadSector_view T Tok (dev w) S off n) in H by (try assumption; lia).
  cbn [snd need bind] in H.
  set (data := map (fun i => sector_byte T (dev w) S (off + Z.of_nat i))
                   (seq 0 (Z.to_nat n))) in *.
  assert (Hdl : length data = Z.to_nat n)
    by (unfold data; rewrite length_map, length_seq; reflexivity).
  match type of H with
  | Rename_copy T fuel ?w1 S N ?o1 ?l1 ?b1 = _ =>
      set (w1' := w1) in *; set (b1' := b1) in *
  end.
  assert (Hview1 : forall g o, 0 <= g < 4294967296 -> ValidSector T g = true ->
            sector_byte T (dev w1') g o
            = if (g =? N) && within off n o
              then Z.land (sector_byte T (dev w) N o) (sector_byte T (dev w) S o)
              else sector_byte T (dev w) g o).
  { intros g o Hg Hv. unfold w1'.
    rewrite write_view; try assumption;
      try (change (2 ^ 32) with 4294967296; lia).
    destruct ((g =? N) && within off n o) eqn:E; [|reflexivity].
    apply andb_true_iff in E. destruct E as [Eg Ew].
    apply Z.eqb_eq in Eg. apply within_true in Ew. subst g.
    f_equal. rewrite app_nth1 by lia. unfold data.
    rewrite (nth_indep _ 255 ((fun i => sector_byte T (dev w) S (off + Z.of_nat i)) 0%nat))
      by (rewrite length_map, length_seq; lia).
    rewrite (map_nth (fun i => sector_byte T (dev w) S (off + Z.of_nat i))).
    rewrite seq_nth by lia. cbn [Nat.add]. f_equal. lia. }
  rewrite (ulong_small (off + n)) in H by (change (2 ^ 32) with 4294967296; lia).
  rewrite (ulong_small (len - n)) in H by (change (2 ^ 32) with 4294967296; lia).
  apply IH in H; try assumption; try lia.
  destruct H as (Hfd & Hview2).
  split; [rewrite Hfd; reflexivity|].
  intros g o Hg Hv. rewrite Hview2 by assumption.
  rewrite !Hview1 by (try assumption; lia).
  destruct (Z.eqb_spec S N); [contradiction|]. cbn [andb].
  rewrite Z.eqb_refl. cbn [andb].
  destruct (Z.eqb_spec g N) as [->|Hg']; cbn [andb]; [|reflexivity].
  unfold within.
  destruct (Z.leb_spec (off + n) o); destruct (Z.leb_spec off o);
    destruct (Z.ltb_spec o (off + n)); destruct (Z.ltb_spec o (off + n + (len - n)));
    destruct (Z.ltb_spec o (off + len)); cbn [andb]; try lia; reflexivity.
Qed.

End RenameView.

(* ------------------------------------------------------------------ *)
(** ** The results of LocateFileNode *)

Lemma strcpy_over dst src :
  strcpy dst src = c_str src ++ 0 :: skipn (length (c_str src) + 1) dst.
Proof.
  unfold strcpy. rewrite <- app_assoc, length_app. reflexivity.
Qed.

Lemma strcpy_over_length dst src :
  length dst = 65%nat -> strlen src <= 64 -> length (strcpy dst src) = 65%nat.
Proof.
  unfold strlen. intros Hd H. rewrite strcpy_over.
  rewrite length_app. cbn [length]. rewrite length_skipn, Hd. lia.
Qed.

Lemma strcpy_over_bytes dst src :
  Forall is_byte dst -> Forall is_byte src -> Forall is_byte (strcpy dst src).
Proof.
  intros Hd Hs. rewrite strcpy_over. apply Forall_app. split.
  - apply c_str_bytes. assumption.
  - constructor; [unfold is_byte; lia|]. apply Forall_skipn. assumption.
Qed.

Section RenameMedium.
Variable T : list FFS_FLASH_SECTION.
Hypothesis Tok : table_ok T.

Lemma LocateFileNode_found fuel d name S fnode :
  LocateFileNode T fuel d name = Ret (Some (S, fnode)) ->
  0 <= S < 2 ^ 32 /\ ValidSector T S = true
  /\ hits T d (StringToUpperCase (c_str name)) S
  /\ fnode = fnode_of T d S
  /\ strlen name <= 64
  /\ (forall g, 0 <= g < S ->
        ValidSector T g = true /\ passes T d (StringToUpperCase (c_str name)) g)
  /\ S < Z.of_nat fuel.
Proof.
  unfold LocateFileNode. intros H.
  destruct (Z.gtb_spec (strlen name) FFS_MAX_FILENAME_LENGTH) as [|Hlen];
    [discriminate|].
  apply (LocateFileNode_loop_run T Tok) in H; [|change (2 ^ 32) with 4294967296; lia].
  destruct H as (m & Hm & Hpre & HS & Hv & Hh & Hf).
  rewrite Z.add_0_l in HS.
  pose proof (ulong_nonneg (Z.of_nat m)) as HSr. rewrite <- HS in HSr.
  change (2 ^ 32) with 4294967296 in *.
  assert (Hm32 : Z.of_nat m < 4294967296).
  { destruct (Z.lt_ge_cases (Z.of_nat m) 4294967296) as [|Hge]; [assumption|].
    exfalso. destruct (Hpre (Z.to_nat S) ltac:(lia)) as (_ & Hb).
    rewrite Z.add_0_l, Z2Nat.id, ulong_small in Hb
      by (change (2 ^ 32) with 4294967296; lia).
    destruct Hh as (s & Hn & He).
    destruct Hb as [Hb|(s' & Hb & He')]; rewrite Hn in Hb; [discriminate|].
    injection Hb as <-. congruence. }
  rewrite ulong_small in HS by (change (2 ^ 32) with 4294967296; lia).
  unfold FFS_MAX_FILENAME_LENGTH in Hlen.
  repeat split; try assumption; try lia.
  - destruct (Hpre (Z.to_nat g) ltac:(lia)) as (Hvg & _).
    rewrite Z.add_0_l, Z2Nat.id, ulong_small in Hvg
      by (change (2 ^ 32) with 4294967296; lia).
    assumption.
  - destruct (Hpre (Z.to_nat g) ltac:(lia)) as (_ & Hpg).
    rewrite Z.add_0_l, Z2Nat.id, ulong_small in Hpg
      by (change (2 ^ 32) with 4294967296; lia).
    assumption.
Qed.

Lemma LocateFileNode_absent fuel d name :
  LocateFileNode T fuel d name = Ret None ->
  strlen name <= 64
  /\ exists M, 0 <= M <= 2 ^ 32 /\ M < Z.of_nat fuel
      /\ ValidSector T (ulong M) = false
      /\ forall g, 0 <= g < M ->
           ValidSector T g = true
           /\ passes T d (StringToUpperCase (c_str name)) g.
Proof.
  unfold LocateFileNode. intros H.
  destruct (Z.gtb_spec (strlen name) FFS_MAX_FILENAME_LENGTH) as [|Hlen];
    [discriminate|].
  apply (LocateFileNode_loop_run T Tok) in H; [|change (2 ^ 32) with 4294967296; lia].
  destruct H as (m & Hm & Hpre & Hinv). cbn [scan_result] in Hinv.
  rewrite Z.add_0_l in Hinv.
  change (2 ^ 32) with 4294967296 in *.
  assert (Hm32 : Z.of_nat m <= 4294967296).
  { destruct (Z.le_gt_cases (Z.of_nat m) 4294967296) as [|Hgt]; [assumption|].
    exfalso.
    pose proof (ulong_nonneg (Z.of_nat m)) as Hu.
    change (2 ^ 32) with 4294967296 in Hu.
    destruct (Hpre (Z.to_nat (ulong (Z.of_nat m))) ltac:(lia)) as (Hv & _).
    rewrite Z.add_0_l, Z2Nat.id in Hv by lia.
    rewrite (ulong_small (ulong (Z.of_nat m))) in Hv
      by (change (2 ^ 32) with 4294967296; lia).
    congruence. }
  unfold FFS_MAX_FILENAME_LENGTH in Hlen.
  split; [lia|]. exists (Z.of_nat m). repeat split; try assumption; try lia.
  - destruct (Hpre (Z.to_nat g) ltac:(lia)) as (Hvg & _).
    rewrite Z.add_0_l, Z2Nat.id, ulong_small in Hvg
      by (change (2 ^ 32) with 4294967296; lia).
    assumption.
  - destruct (Hpre (Z.to_nat g) ltac:(lia)) as (_ & Hpg).
    rewrite Z.add_0_l, Z2Nat.id, ulong_small in Hpg
      by (change (2 ^ 32) with 4294967296; lia).
    assumption.
Qed.

End RenameMedium.

(* ------------------------------------------------------------------ *)
(** ** What Rename leaves on the medium *)

Section RenameOutcome.
Variable T : list FFS_FLASH_SECTION.
Hypothesis Tok : table_ok T.

Lemma busy_head d S cn :
  head_ok T d S -> hits T d cn S -> busy T d S.
Proof.
  intros (HK & _ & _) (s & Hn & _). unfold name_at in Hn.
  destruct (Z.eqb_spec (Status (header_of T d S)) FFS_SECTOR_HEADER_INUSE_FILENODE)
    as [E|E]; [|discriminate].
  unfold busy. rewrite E. repeat split; [assumption|discriminate|discriminate].
Qed.

Lemma rechained_ok h next :
  header_ok h -> is_u32 next -> header_ok (rechained h next).
Proof.
  unfold header_ok, rechained. cbn. tauto.
Qed.

Lemma fresh_header_ok old sec st off :
  is_byte st -> is_u32 off -> header_ok (fresh_header old sec st off).
Proof.
  intros Hst Hoff. unfold header_ok, fresh_header. cbn.
  unfold is_u32, is_byte in *. change (2 ^ 32) with 4294967296 in *.
  pose proof (ulong_nonneg (EraseCount old + 1)).
  pose proof (ulong_nonneg (FlashSection.SectorSize sec)).
  change (2 ^ 32) with 4294967296 in *.
  unfold FFS_SECTOR_HEADER_KEY, MINUS_ONE, FFS_FILE_SYSTEM_VERSION. lia.
Qed.

Lemma rechained_bytes h next o :
  0 <= o < 24 -> Next h = MINUS_ONE -> is_u32 next ->
  nth (Z.to_nat o) (header_bytes (rechained h next)) 0xFF
  = if within 4 4 o && negb (next =? MINUS_ONE)
    then Z.land (nth (Z.to_nat o) (header_bytes h) 0xFF)
                (nth (Z.to_nat (o - 4)) (le32 next) 0xFF)
    else nth (Z.to_nat o) (header_bytes h) 0xFF.
Proof.
  intros Ho HN Hn.
  destruct (within 4 4 o) eqn:Ew; cbn [andb].
  - apply within_true in Ew.
    rewrite !header_bytes_Next by lia. cbn [rechained Next]. rewrite HN.
    destruct (Z.eqb_spec next MINUS_ONE) as [->|]; cbn [negb]; [reflexivity|].
    assert (Hc : o = 4 \/ o = 5 \/ o = 6 \/ o = 7) by lia.
    destruct Hc as [-> | [-> | [-> | ->]]];
      (symmetry; apply land_ff; apply nth_byte; apply le32_bytes).
  - assert (~ (4 <= o < 8)).
    { intros Hc. assert (within 4 4 o = true) by (apply within_true; lia). congruence. }
    apply header_bytes_same_but_Next; auto.
Qed.

(** What a successful [Rename] leaves on the medium. *)
Lemma Rename_view fuel old new w w1 S fnode :
  flash_ok (cells (dev w)) -> Forall is_byte new ->
  LocateFileNode T fuel (dev w) old = Ret (Some (S, fnode)) ->
  head_ok T (dev w) S ->
  Rename T fuel old new w = Ret (0, w1) ->
  LocateFileNode T fuel (dev w) new = Ret None
  /\ FileDescriptors (globals w1) = FileDescriptors (globals w)
  /\ exists N,
      0 <= N < 2 ^ 32 /\ ValidSector T N = true /\ N < Z.of_nat fuel
      /\ N <> S
      /\ ~ busy T (dev w) N
      /\ (forall g, 0 <= g < N -> ValidSector T g = true)
      /\ sector_size T N = sector_size T S
      /\ same_route (header_of T (dev w) S) (header_of T (dev w1) N)
      /\ Status (header_of T (dev w1) N) = FFS_SECTOR_HEADER_INUSE_FILENODE
      /\ fnode_of T (dev w1) N = set_Filename (strcpy (Filename fnode) new) fnode
      /\ agree_from T (dev w) (dev w1) S N 104
      /\ Status (header_of T (dev w1) S) = FFS_SECTOR_HEADER_FREE_DIRTY
      /\ (forall o, ~ (12 <= o < 16) ->
            sector_byte T (dev w1) S o = sector_byte T (dev w) S o)
      /\ (forall g o, 0 <= g < 2 ^ 32 -> ValidSector T g = true ->
            g <> S -> g <> N ->
            sector_byte T (dev w1) g o = sector_byte T (dev w) g o).
Proof.
  intros Hfl Hnew HL1 Hhead H.
  pose proof (LocateFileNode_found T Tok _ _ _ _ _ HL1)
    as (HS & HvS & Hhit & Hfn & Hlo & _ & _).
  pose proof (busy_head _ _ _ Hhead Hhit) as HbS.
  destruct Hhead as (HK & HSL & HDO).
  pose proof (sector_size_ok T Tok S ltac:(lia) HvS) as HsS.
  change (2 ^ 31) with 2147483648 in HsS.
  change (2 ^ 32) with 4294967296 in *.
  unfold Rename in H.
  set (w0 := if initializationComplete (globals w) then w else Initialize w) in *.
  assert (Hd0 : dev w0 = dev w)
    by (unfold w0; destruct (initializationComplete (globals w)); reflexivity).
  assert (Hfd0 : FileDescriptors (globals w0) = FileDescriptors (globals w))
    by (unfold w0; destruct (initializationComplete (globals w)); reflexivity).
  rewrite Hd0, HL1 in H. cbn [bind] in H.
  destruct (LocateFileNode T fuel (dev w) new) as [[?|]| |] eqn:HL2;
    try discriminate; cbn [bind] in H.
  pose proof (LocateFileNode_absent T Tok _ _ _ HL2) as (Hln & _).
  rewrite (read_header_view T Tok (dev w) S None) in H by (try assumption; lia).
  cbn [snd need bind] in H.
  remember (header_of T (dev w) S) as hS eqn:EhS.
  destruct (AllocateSectorWithFilenode T fuel w0 (Some hS))
    as [[[[rc N] sh] wa]| |] eqn:HA; try discriminate; cbn [bind] in H.
  destruct (Z.eqb_spec rc 0) as [->|Hrc]; cbn [negb] in H.
  2:{ injection H as Hrc' _. congruence. }
  unfold AllocateSectorWithFilenode in HA.
  apply (allocate_view T Tok) in HA.
  rewrite Hd0, Hfd0 in HA.
  destruct HA as (HN & HvN & HNf & HnbN & HpreN & Hfda & sec & Hsec & -> & Hva).
  cbn [need bind] in H.
  set (hN := fresh_header (header_of T (dev w) N) sec FFS_SECTOR_HEADER_INUSE_FILENODE
                          (sizeof_FFS_SECTOR_HEADER + sizeof_FFS_FILE_NODE)) in *.
  assert (HhN : SectorLength hN = sector_size T N /\ DataOffset hN = 104
                /\ Next hN = MINUS_ONE
                /\ Status hN = FFS_SECTOR_HEADER_INUSE_FILENODE).
  { unfold hN, fresh_header. cbn. rewrite Hsec.
    pose proof (sector_size_ok T Tok N ltac:(lia) HvN).
    rewrite ulong_small by (change (2 ^ 32) with 4294967296; lia). auto. }
  destruct HhN as (HNL & HND & HNN & HNS).
  pose proof (sector_size_ok T Tok N ltac:(lia) HvN) as HsN.
  change (2 ^ 31) with 2147483648 in HsN.
  assert (HneSN : N <> S) by (intros ->; contradiction).
  rewrite HNL, HND, HSL, HDO in H.
  change (sizeof_FFS_SECTOR_HEADER + sizeof_FFS_FILE_NODE) with 104 in H.
  rewrite (ulong_small (sector_size T S - 104)) in H
    by (change (2 ^ 32) with 4294967296; lia).
  rewrite (ulong_small (sector_size T N - 104)) in H
    by (change (2 ^ 32) with 4294967296; lia).
  destruct (Z.eqb_spec (sector_size T S - 104) (sector_size T N - 104)) as [Hsz|Hsz];
    cbn [negb] in H.
  2:{ destruct (FreeSectors T fuel wa N); try discriminate. }
  assert (Hsize : sector_size T N = sector_size T S) by lia.
  destruct (Rename_copy T fuel wa S N 104 (sector_size T S - 104) None)
    as [wc| |] eqn:HC; try discriminate.
  cbn [bind] in H.
  apply (Rename_copy_view T Tok) in HC;
    try assumption; try (change (2 ^ 32) with 4294967296; lia).
  destruct HC as (Hfdc & Hvc).
  destruct (Z.geb_spec (strlen new) sizeof_Filename) as [Hge|_].
  { unfold sizeof_Filename in Hge. lia. }
  set (fnode' := set_Filename (strcpy (Filename fnode) new) fnode) in *.
  injection H as <-.
  split; [reflexivity|].
  split.
  { destruct (negb (Next hS =? MINUS_ONE)); cbn; rewrite Hfdc, Hfda; reflexivity. }
  exists N.
  (* the medium, write by write *)
  set (w3 := write_dev T wc N sizeof_FFS_SECTOR_HEADER (fnode_bytes fnode')
                       sizeof_FFS_FILE_NODE) in *.
  set (w4 := if negb (Next hS =? MINUS_ONE)
             then write_dev T w3 N offsetof_Next (le32 (Next hS)) 4 else w3) in *.
  assert (Hv3 : forall g o, 0 <= g < 4294967296 -> ValidSector T g = true ->
            sector_byte T (dev w3) g o
            = if (g =? N) && within 24 80 o
              then Z.land (sector_byte T (dev wc) g o)
                          (nth (Z.to_nat (o - 24)) (fnode_bytes fnode') 0xFF)
              else sector_byte T (dev wc) g o).
  { intros g o Hg Hv. unfold w3.
    apply (write_view T Tok); try assumption;
      try (unfold sizeof_FFS_SECTOR_HEADER, sizeof_FFS_FILE_NODE;
           change (2 ^ 32) with 4294967296; lia). }
  assert (Hv4 : forall g o, 0 <= g < 4294967296 -> ValidSector T g = true ->
            sector_byte T (dev w4) g o
            = if (g =? N) && (within 4 4 o && negb (Next hS =? MINUS_ONE))
              then Z.land (sector_byte T (dev w3) g o)
                          (nth (Z.to_nat (o - 4)) (le32 (Next hS)) 0xFF)
              else sector_byte T (dev w3) g o).
  { intros g o Hg Hv. unfold w4.
    destruct (negb (Next hS =? MINUS_ONE)).
    - rewrite andb_true_r.
      apply (write_view T Tok); try assumption;
        try (unfold offsetof_Next; change (2 ^ 32) with 4294967296; lia).
    - rewrite !andb_false_r. reflexivity. }
  set (sw := status_word (set_Status FFS_SECTOR_HEADER_FREE_DIRTY hN)) in *.
  assert (Hv5 : forall g o, 0 <= g < 4294967296 -> ValidSector T g = true ->
            sector_byte T (dev (write_dev T w4 S offsetof_Version sw 4)) g o
            = if (g =? S) && within 12 4 o
              then Z.land (sector_byte T (dev w4) g o)
                          (nth (Z.to_nat (o - 12)) sw 0xFF)
              else sector_byte T (dev w4) g o).
  { intros g o Hg Hv.
    apply (write_view T Tok); try assumption;
      try (unfold offsetof_Version; change (2 ^ 32) with 4294967296; lia). }
  set (d1 := dev (write_dev T w4 S offsetof_Version sw 4)) in *.
  pose proof (fun g o => flash_bytes T (dev w) g o Hfl) as HB.
  assert (HnextS : is_u32 (Next hS)).
  { rewrite EhS. apply (header_of_ok T (dev w) S Hfl). }
  (* sector N *)
  assert (HbN : forall o,
            sector_byte T d1 N o
            = if within 0 24 o
              then nth (Z.to_nat o) (header_bytes (rechained hN (Next hS))) 0xFF
              else if within 24 80 o
                   then nth (Z.to_nat (o - 24)) (fnode_bytes fnode') 0xFF
                   else if within 104 (sector_size T S - 104) o
                        then sector_byte T (dev w) S o
                        else 0xFF).
  { intros o. rewrite Hv5, Hv4, Hv3, !Hvc, !Hva by (try assumption; lia).
    destruct (Z.eqb_spec N S); [contradiction|]. cbn [andb].
    destruct (Z.eqb_spec S N); [congruence|]. cbn [andb].
    rewrite Z.eqb_refl. cbn [andb].
    unfold sizeof_FFS_SECTOR_HEADER.
    destruct (within 0 24 o) eqn:E0.
    - apply within_true in E0.
      replace (within 24 80 o) with false
        by (symmetry; unfold within; destruct (Z.leb_spec 24 o); [lia|reflexivity]).
      replace (within 104 (sector_size T S - 104) o) with false
        by (symmetry; unfold within; destruct (Z.leb_spec 104 o); [lia|reflexivity]).
      rewrite rechained_bytes by (try assumption; lia). reflexivity.
    - assert (Hno : ~ (0 <= o < 0 + 24)).
      { intros Hc. apply within_true in Hc. congruence. }
      replace (within 4 4 o) with false
        by (symmetry; unfold within; destruct (Z.leb_spec 4 o);
            destruct (Z.ltb_spec o (4 + 4)); cbn [andb]; lia || reflexivity).
      cbn [andb].
      destruct (within 24 80 o) eqn:E1.
      + apply within_true in E1.
        replace (within 104 (sector_size T S - 104) o) with false
          by (symmetry; unfold within; destruct (Z.leb_spec 104 o); [lia|reflexivity]).
        apply land_ff. apply nth_byte. apply fnode_bytes_bytes.
        * unfold fnode'. cbn [set_Filename Filename].
          apply strcpy_over_bytes; [|assumption].
          rewrite Hfn. apply (fnode_of_ok T (dev w) S Hfl).
        * unfold fnode'. cbn [set_Filename FnodePad].
          rewrite Hfn. apply (fnode_of_ok T (dev w) S Hfl).
      + destruct (within 104 (sector_size T S - 104) o); [|reflexivity].
        apply land_ff. apply HB. }
  (* sector S *)
  assert (HbS' : forall o,
            sector_byte T d1 S o
            = if within 12 4 o
              then Z.land (sector_byte T (dev w) S o) (nth (Z.to_nat (o - 12)) sw 0xFF)
              else sector_byte T (dev w) S o).
  { intros o. rewrite Hv5, Hv4, Hv3, !Hvc, !Hva by (try assumption; lia).
    destruct (Z.eqb_spec S N); [congruence|]. cbn [andb].
    rewrite Z.eqb_refl. cbn [andb]. reflexivity. }
  (* the other sectors *)
  assert (Hbo : forall g o, 0 <= g < 4294967296 -> ValidSector T g = true ->
            g <> S -> g <> N -> sector_byte T d1 g o = sector_byte T (dev w) g o).
  { intros g o Hg Hv HgS HgN.
    rewrite Hv5, Hv4, Hv3, !Hvc, !Hva by (try assumption; lia).
    destruct (Z.eqb_spec g S); [contradiction|].
    destruct (Z.eqb_spec g N); [contradiction|]. reflexivity. }
  assert (HhdN : header_of T d1 N = rechained hN (Next hS)).
  { apply header_of_written.
    - apply rechained_ok; [|assumption].
      apply fresh_header_ok; unfold is_byte, is_u32, FFS_SECTOR_HEADER_INUSE_FILENODE,
        sizeof_FFS_SECTOR_HEADER, sizeof_FFS_FILE_NODE;
        change (2 ^ 32) with 4294967296; lia.
    - intros o Ho. rewrite HbN.
      replace (within 0 24 o) with true
        by (symmetry; apply within_true; lia).
      apply nth_indep. rewrite length_header_bytes. lia. }
  repeat split; try assumption; try lia.
  - intros g Hg. apply HpreN. assumption.
  - rewrite HhdN. cbn [rechained SectorLength]. rewrite HNL. lia.
  - rewrite HhdN. cbn [rechained DataOffset]. rewrite HND.
    unfold sizeof_FFS_SECTOR_HEADER, sizeof_FFS_FILE_NODE in HDO. lia.
  - rewrite HhdN. reflexivity.
  - rewrite HhdN. cbn [rechained Status]. assumption.
  - apply fnode_of_written.
    + assert (Hok := fnode_of_ok T (dev w) S Hfl). rewrite <- Hfn in Hok.
      destruct Hok as (H1 & H2 & H3 & H4 & H5 & H6 & H7 & H8).
      unfold fnode_ok, fnode'.
      cbn [set_Filename Permissions Filename FnodePad FileSize DataTime Count].
      repeat split; try assumption; try apply H1; try apply H6; try apply H7;
        try apply H8.
      * apply strcpy_over_length; assumption.
      * apply strcpy_over_bytes; assumption.
    + intros i Hi. rewrite HbN.
      replace (within 0 24 (24 + i)) with false
        by (symmetry; unfold within; destruct (Z.leb_spec 0 (24 + i));
            destruct (Z.ltb_spec (24 + i) (0 + 24)); cbn [andb]; lia || reflexivity).
      replace (within 24 80 (24 + i)) with true
        by (symmetry; apply within_true; lia).
      replace (24 + i - 24) with i by lia.
      apply nth_indep. rewrite length_fnode_bytes. lia.
  - intros o Ho. rewrite Hsize in *. rewrite HbN.
    replace (within 0 24 o) with false
      by (symmetry; unfold within; destruct (Z.leb_spec 0 o);
          destruct (Z.ltb_spec o (0 + 24)); cbn [andb]; lia || reflexivity).
    replace (within 24 80 o) with false
      by (symmetry; unfold within; destruct (Z.leb_spec 24 o);
          destruct (Z.ltb_spec o (24 + 80)); cbn [andb]; lia || reflexivity).
    replace (within 104 (sector_size T S - 104) o) with true
      by (symmetry; apply within_true; lia).
    reflexivity.
  - unfold header_of. rewrite header_at_fields. cbn [Status].
    rewrite HbS'.
    replace (within 12 4 13) with true by reflexivity.
    unfold sw. rewrite status_word_eq. cbn [set_Status Status Version SectorChecksum].
    change (Z.to_nat (13 - 12)) with 1%nat. cbn [nth].
    change (FFS_SECTOR_HEADER_FREE_DIRTY mod 256) with 0.
    rewrite Z.land_0_r. reflexivity.
  - intros o Ho. rewrite HbS'.
    replace (within 12 4 o) with false
      by (symmetry; unfold within; destruct (Z.leb_spec 12 o);
          destruct (Z.ltb_spec o (12 + 4)); cbn [andb]; lia || reflexivity).
    reflexivity.
Qed.

End RenameOutcome.

(* ------------------------------------------------------------------ *)
(** ** Names, chains and descriptors *)

Lemma str_eqb_eq a : forall b, str_eqb a b = true -> a = b.
Proof.
  induction a as [|x a IH]; intros [|y b] H; cbn [str_eqb] in H;
    try discriminate; [reflexivity|].
  apply andb_true_iff in H. destruct H as [Hx Hr].
  apply Z.eqb_eq in Hx. rewrite (IH b Hr), Hx. reflexivity.
Qed.

Lemma str_eqb_false_sym a b : str_eqb a b = false -> str_eqb b a = false.
Proof.
  intros H. destruct (str_eqb b a) eqn:E; [|reflexivity].
  apply str_eqb_eq in E. subst b. rewrite str_eqb_refl in H. discriminate.
Qed.

Lemma GetDescriptor_table w fd w' :
  GetDescriptor w = (fd, w') -> 0 <= fd ->
  forall v, FileDescriptors (globals v) = FileDescriptors (globals w) ->
            GetDescriptor v = (fd, put_entry v fd (set_InUse 1 zero_descriptor)).
Proof.
  unfold GetDescriptor. change (Z.to_nat FFS_MAX_FILE_DESCRIPTORS) with 2%nat.
  cbn [GetDescriptor_from]. intros H Hfd v Hv. rewrite Hv.
  destruct (InUse (FileDescriptors (globals w) 0) =? 0).
  { injection H as <- _. reflexivity. }
  destruct (InUse (FileDescriptors (globals w) (0 + 1)) =? 0).
  { injection H as <- _. reflexivity. }
  injection H as <- _. unfold FFS_RC_TOO_MANY_OPEN_FILES in Hfd. lia.
Qed.

Section Reading.
Variable T : list FFS_FLASH_SECTION.
Hypothesis Tok : table_ok T.

Lemma header_of_ext d d1 g g1 :
  (forall o, 0 <= o < 24 -> sector_byte T d g o = sector_byte T d1 g1 o) ->
  header_of T d g = header_of T d1 g1.
Proof.
  intros H. unfold header_of. rewrite !header_at_fields.
  rewrite !H by lia. reflexivity.
Qed.

Lemma fnode_of_ext d d1 g g1 :
  (forall o, 24 <= o < 104 -> sector_byte T d g o = sector_byte T d1 g1 o) ->
  fnode_of T d g = fnode_of T d1 g1.
Proof.
  intros H. unfold fnode_of. f_equal. apply map_ext_in. intros i Hi.
  apply in_seq in Hi. apply H. unfold sizeof_FFS_SECTOR_HEADER. lia.
Qed.

Lemma name_at_ext d d1 g g1 :
  (forall o, sector_byte T d g o = sector_byte T d1 g1 o) ->
  name_at T d g = name_at T d1 g1.
Proof.
  intros H. unfold name_at.
  rewrite (header_of_ext d d1 g g1), (fnode_of_ext d d1 g g1) by (intros; apply H).
  reflexivity.
Qed.

Lemma same_route_bytes d d1 g g1 :
  (forall o, 4 <= o < 8 \/ 16 <= o < 24 ->
             sector_byte T d g o = sector_byte T d1 g1 o) ->
  same_route (header_of T d g) (header_of T d1 g1).
Proof.
  intros H. unfold same_route, header_of. rewrite !header_at_fields.
  cbn [SectorLength DataOffset Next]. rewrite !H by lia. auto.
Qed.

Lemma follows_step d a g :
  follows T d a g -> ValidSector T g = true ->
  follows T d a (Next (header_of T d g)).
Proof.
  induction 1 as [g|a g Hv Hf IH]; intros Hvg.
  - apply follows_next; [assumption|apply follows_here].
  - apply follows_next; [assumption|]. apply IH. assumption.
Qed.

Lemma follows_u32 d a g :
  flash_ok (cells d) -> is_u32 a -> follows T d a g -> is_u32 g.
Proof.
  intros Hfl Ha Hf. induction Hf as [g|a g Hv Hf IH]; [assumption|].
  apply IH. apply (header_of_ok T d a Hfl).
Qed.

Lemma name_at_dirty d g :
  Status (header_of T d g) = FFS_SECTOR_HEADER_FREE_DIRTY ->
  name_at T d g = Ret None.
Proof. intros H. unfold name_at. rewrite H. reflexivity. Qed.

Lemma name_at_named d g f name :
  Status (header_of T d g) = FFS_SECTOR_HEADER_INUSE_FILENODE ->
  fnode_of T d g = f ->
  array_str (Filename f) = Some (c_str name) ->
  name_at T d g = Ret (Some (StringToUpperCase (c_str name))).
Proof.
  intros HS Hf Ha. unfold name_at. rewrite HS, Hf, Ha. reflexivity.
Qed.

End Reading.

(* ------------------------------------------------------------------ *)
(** ** open and read through a renamed head *)

Section RenameRead.
Variable T : list FFS_FLASH_SECTION.
Hypothesis Tok : table_ok T.

Lemma started_dev w : dev (started w) = dev w.
Proof. unfold started. destruct (initializationComplete (globals w)); reflexivity. Qed.

Lemma started_table w :
  FileDescriptors (globals (started w)) = FileDescriptors (globals w).
Proof. unfold started. destruct (initializationComplete (globals w)); reflexivity. Qed.

Lemma open_rdonly_found fuel name p w S f fd :
  GetDescriptor (started w)
  = (fd, put_entry (started w) fd (set_InUse 1 zero_descriptor)) ->
  0 <= fd < FFS_MAX_FILE_DESCRIPTORS ->
  LocateFileNode T fuel (dev w) name = Ret (Some (S, f)) ->
  S <> MINUS_ONE ->
  open T fuel name FFS_RDONLY p w
  = Ret (fd, put_entry (put_entry (started w) fd (set_InUse 1 zero_descriptor))
                       fd (opened S f)).
Proof.
  intros HG Hfd HL HS. unfold open. fold (started w). rewrite HG.
  destruct (Z.ltb_spec fd 0); [lia|].
  rewrite table_entry_ok by assumption. rewrite entry_put. cbn [bind].
  rewrite dev_put, started_dev, HL. cbn [bind FnodeSector set_FnodeSector].
  change (Z.land FFS_RDONLY FFS_CREATE =? 0) with true.
  destruct (Z.eqb_spec S MINUS_ONE); [contradiction|].
  change (negb (FFS_RDONLY =? 0)) with false. cbn [andb]. reflexivity.
Qed.

Lemma open_rdonly_missing fuel name p w fd :
  GetDescriptor (started w)
  = (fd, put_entry (started w) fd (set_InUse 1 zero_descriptor)) ->
  0 <= fd < FFS_MAX_FILE_DESCRIPTORS ->
  LocateFileNode T fuel (dev w) name = Ret None ->
  exists w2, open T fuel name FFS_RDONLY p w = Ret (FFS_RC_FILE_DOES_NOT_EXIST, w2).
Proof.
  intros HG Hfd HL. unfold open. fold (started w). rewrite HG.
  destruct (Z.ltb_spec fd 0); [lia|].
  rewrite table_entry_ok by assumption. rewrite entry_put. cbn [bind].
  rewrite dev_put, started_dev, HL. cbn [bind FnodeSector set_FnodeSector].
  change (Z.land FFS_RDONLY FFS_CREATE =? 0) with true.
  rewrite Z.eqb_refl. cbn [andb]. eexists. reflexivity.
Qed.

Lemma open_rdonly_inv fuel name p w S f fd wo :
  LocateFileNode T fuel (dev w) name = Ret (Some (S, f)) ->
  open T fuel name FFS_RDONLY p w = Ret (fd, wo) -> 0 <= fd ->
  0 <= fd < FFS_MAX_FILE_DESCRIPTORS
  /\ GetDescriptor (started w)
     = (fd, put_entry (started w) fd (set_InUse 1 zero_descriptor))
  /\ S <> MINUS_ONE
  /\ wo = put_entry (put_entry (started w) fd (set_InUse 1 zero_descriptor))
                    fd (opened S f).
Proof.
  intros HL H Hfd. unfold open in H. fold (started w) in H.
  destruct (GetDescriptor (started w)) as [fd0 w'] eqn:HG.
  destruct (Z.ltb_spec fd0 0) as [Hneg|Hpos].
  { injection H as <- _. lia. }
  destruct (GetDescriptor_ok _ _ _ HG Hpos) as [Hfd0 ->].
  assert (Hr : 0 <= fd0 < FFS_MAX_FILE_DESCRIPTORS)
    by (unfold FFS_MAX_FILE_DESCRIPTORS; lia).
  rewrite table_entry_ok in H by assumption. rewrite entry_put in H.
  cbn [bind] in H. rewrite dev_put, started_dev, HL in H.
  cbn [bind FnodeSector set_FnodeSector] in H.
  change (Z.land FFS_RDONLY FFS_CREATE =? 0) with true in H.
  destruct (Z.eqb_spec S MINUS_ONE) as [E|E]; cbn [andb] in H.
  { injection H as <- _. unfold FFS_RC_FILE_DOES_NOT_EXIST in Hfd. lia. }
  change (negb (FFS_RDONLY =? 0)) with false in H. cbn [andb] in H.
  injection H as <- <-. repeat split; try assumption; lia.
Qed.

(** Reading through descriptors that differ in the head sector only. *)
Lemma read_alike fuel fd buf n wo wo' S N r buf' wr
      (P : Z -> Prop) :
  (forall g, P g -> alike T (dev wo) (dev wo') g g) ->
  (forall g, P g -> ValidSector T g = true -> P (Next (header_of T (dev wo) g))) ->
  alike T (dev wo) (dev wo') S N ->
  P (Next (header_of T (dev wo) S)) ->
  0 <= fd < FFS_MAX_FILE_DESCRIPTORS ->
  InUse (FileDescriptors (globals wo) fd) <> 0 ->
  InUse (FileDescriptors (globals wo') fd) <> 0 ->
  FnodeSector (FileDescriptors (globals wo) fd) = S ->
  FnodeSector (FileDescriptors (globals wo') fd) = N ->
  Position (FileDescriptors (globals wo) fd) = 0 ->
  Position (FileDescriptors (globals wo') fd) = 0 ->
  FileSize (Fnode (FileDescriptors (globals wo') fd))
  = FileSize (Fnode (FileDescriptors (globals wo) fd)) ->
  read T fuel fd buf n wo = Ret (r, buf', wr) ->
  exists wr', read T fuel fd buf n wo' = Ret (r, buf', wr').
Proof.
  intros HPa HPn Hhead HPS Hfd Hu Hu' HS HN Hp Hp' Hsz H.
  unfold read in *. rewrite sanity_check_ok in * by assumption.
  cbn [bind] in *. rewrite Hp', Hsz. rewrite Hp in H.
  destruct (0 >=? FileSize (Fnode (FileDescriptors (globals wo) fd))).
  { injection H as <- <- <-. eexists. reflexivity. }
  unfold LocatePosition in *. rewrite HN. rewrite HS in H.
  destruct (LocatePosition_loop T fuel (dev wo) 0 S None None 0)
    as [[[[rc G] h] o]| |] eqn:HLP; try discriminate.
  cbn [bind] in H.
  destruct (LocatePosition_loop_alike T Tok (dev wo) (dev wo') P HPa HPn fuel
              0 S N None None None 0 rc G h o Hhead (fun _ => HPS)
              ltac:(lia) ltac:(change (2 ^ 32) with 4294967296; lia) HLP)
    as (G1 & h1 & HLP1 & Hrel).
  rewrite HLP1. cbn [bind].
  destruct (Z.ltb_spec rc 0) as [Hneg|Hpos].
  { injection H as <- <- <-. eexists. reflexivity. }
  destruct (Hrel Hpos) as (hh & hh1 & Off & -> & -> & -> & Hhand).
  cbn [need bind] in *.
  match type of H with
  | context [read_loop T fuel (dev wo) ?e G hh Off buf 0 ?n' 0] =>
      destruct (read_loop T fuel (dev wo) e G hh Off buf 0 n' 0)
        as [[[rc2 Fd2] buf2]| |] eqn:HRL; try discriminate;
      eapply (read_loop_alike T Tok (dev wo) (dev wo') P HPa HPn fuel e
                (FileDescriptors (globals wo') fd)) in HRL; [|exact Hhand]
  end.
  destruct HRL as (Fd1 & HRL). rewrite HRL. cbn [bind] in *.
  injection H as <- <- <-. eexists. reflexivity.
Qed.

End RenameRead.

(* ------------------------------------------------------------------ *)
(** ** Rename keeps the content *)

Section RenameTheorem.
Variable T : list FFS_FLASH_SECTION.
Hypothesis Tok : table_ok T.

Lemma array_str_strcpy dst name :
  array_str (strcpy dst name) = Some (c_str name).
Proof. rewrite strcpy_over. apply array_str_app. apply c_str_no_nul. Qed.

(** C6 (amended). [Rename] preserves content and removes the old name:
    for a file whose head sector is well formed, whose chain is in use
    and whose name is on the volume once, after a successful
    [Rename(old, new)] an [open(new, FFS_RDONLY)] gives the descriptor
    that [open(old, FFS_RDONLY)] gave before and [read] returns what it
    returned before, count and bytes; [open(old, FFS_RDONLY)] now returns
    FFS_RC_FILE_DOES_NOT_EXIST. *)
Theorem Rename_keeps_content
        (fuel : nat) (old new : list Z) (w w1 : world) (S : Z)
        (fnode : FFS_FILE_NODE) (p : Z) (buf : list Z) (n : Z)
        (fd : Z) (wo : world) (r : Z) (buf' : list Z) (wr : world) :
  flash_ok (cells (dev w)) -> Forall is_byte new ->
  ValidSector T MINUS_ONE = false ->
  LocateFileNode T fuel (dev w) old = Ret (Some (S, fnode)) ->
  head_ok T (dev w) S -> tail_in_use T (dev w) S ->
  only_at T (dev w) (StringToUpperCase (c_str old)) S ->
  Rename T fuel old new w = Ret (0, w1) ->
  open T fuel old FFS_RDONLY p w = Ret (fd, wo) -> 0 <= fd ->
  read T fuel fd buf n wo = Ret (r, buf', wr) ->
  (exists wo' wr',
      open T fuel new FFS_RDONLY p w1 = Ret (fd, wo')
      /\ read T fuel fd buf n wo' = Ret (r, buf', wr'))
  /\ (exists w2,
         open T fuel old FFS_RDONLY p w1 = Ret (FFS_RC_FILE_DOES_NOT_EXIST, w2)).
Proof.
  intros Hfl Hnew Hm1 HL1 Hhead Htail Honly HR Hopen Hfd Hread.
  pose proof (LocateFileNode_found T Tok _ _ _ _ _ HL1)
    as (HS & HvS & Hhit & Hfn & Hlo & HpreS & HSf).
  destruct (Rename_view T Tok fuel old new w w1 S fnode Hfl Hnew HL1 Hhead HR)
    as (HL2 & Hfd1 & N & HN & HvN & HNf & HNS & HnbN & HpreN & Hsize & Hroute
        & HstN & HfnN & Hpay & HstS & HbS & Hbo).
  pose proof (LocateFileNode_absent T Tok _ _ _ HL2)
    as (Hln & M & HM & HMf & HMinv & HpreM).
  change (2 ^ 32) with 4294967296 in *.
  set (d := dev w) in *. set (d1 := dev w1) in *.
  set (cn := StringToUpperCase (c_str old)) in *.
  set (cn' := StringToUpperCase (c_str new)) in *.
  assert (HSM : S < M).
  { destruct (Z.lt_ge_cases S M) as [|Hge]; [assumption|]. exfalso.
    rewrite ulong_small in HMinv by (change (2 ^ 32) with 4294967296; lia).
    destruct (Z.eq_dec M S) as [->|]; [congruence|].
    destruct (HpreS M ltac:(lia)). congruence. }
  assert (HNM : N < M).
  { destruct (Z.lt_ge_cases N M) as [|Hge]; [assumption|]. exfalso.
    rewrite ulong_small in HMinv by (change (2 ^ 32) with 4294967296; lia).
    destruct (Z.eq_dec M N) as [->|]; [congruence|].
    rewrite (HpreN M ltac:(lia)) in HMinv. discriminate. }
  (* the names differ *)
  assert (Hnames : str_eqb cn' cn = false).
  { apply str_eqb_false_sym.
    destruct Hhit as (s & Hs & Hse). apply str_eqb_eq in Hse.
    destruct (HpreM S ltac:(lia)) as (_ & [Hp|(s' & Hp & Hf)]);
      fold d in Hp; rewrite Hs in Hp; [discriminate|].
    injection Hp as <-. subst s. assumption. }
  (* what the directory scan sees afterwards *)
  assert (HnameS : name_at T d1 S = Ret None) by (apply name_at_dirty; assumption).
  assert (HnameN : name_at T d1 N = Ret (Some cn')).
  { apply (name_at_named T d1 N _ new HstN HfnN).
    cbn [set_Filename Filename]. apply array_str_strcpy. }
  assert (Hnameo : forall g, 0 <= g < 4294967296 -> ValidSector T g = true ->
                             g <> S -> g <> N -> name_at T d1 g = name_at T d g).
  { intros g Hg Hv HgS HgN. apply name_at_ext. intros o. apply Hbo; assumption. }
  assert (HLnew : LocateFileNode T fuel d1 new
                  = Ret (Some (N, set_Filename (strcpy (Filename fnode) new) fnode))).
  { unfold LocateFileNode.
    destruct (Z.gtb_spec (strlen new) FFS_MAX_FILENAME_LENGTH) as [Hgt|_].
    { unfold FFS_MAX_FILENAME_LENGTH in Hgt. lia. }
    apply (LocateFileNode_loop_build T Tok (Z.to_nat N));
      try (change (2 ^ 32) with 4294967296; lia).
    - intros i Hi. rewrite Z.add_0_l.
      rewrite ulong_small by (change (2 ^ 32) with 4294967296; lia).
      split; [apply HpreN; lia|].
      destruct (Z.eq_dec (Z.of_nat i) S) as [E|E].
      + left. rewrite E. assumption.
      + unfold passes. rewrite Hnameo; try lia; [|apply HpreN; lia].
        apply HpreM. lia.
    - cbn [scan_result]. rewrite Z.add_0_l, Z2Nat.id by lia.
      rewrite ulong_small by (change (2 ^ 32) with 4294967296; lia).
      repeat split; try assumption; [|symmetry; assumption].
      exists cn'. split; [assumption|apply str_eqb_refl]. }
  assert (HLold : LocateFileNode T fuel d1 old = Ret None).
  { unfold LocateFileNode.
    destruct (Z.gtb_spec (strlen old) FFS_MAX_FILENAME_LENGTH) as [Hgt|_].
    { unfold FFS_MAX_FILENAME_LENGTH in Hgt. lia. }
    apply (LocateFileNode_loop_build T Tok (Z.to_nat M));
      try (change (2 ^ 32) with 4294967296; lia).
    - intros i Hi. rewrite Z.add_0_l.
      rewrite ulong_small by (change (2 ^ 32) with 4294967296; lia).
      destruct (HpreM (Z.of_nat i) ltac:(lia)) as (Hvi & Hpi).
      split; [assumption|]. fold cn.
      destruct (Z.eq_dec (Z.of_nat i) S) as [E|E].
      + left. rewrite E. assumption.
      + destruct (Z.eq_dec (Z.of_nat i) N) as [E'|E'].
        * right. exists cn'. rewrite E'. split; assumption.
        * unfold passes. rewrite Hnameo; try assumption; try lia.
          destruct Hpi as [Hp|(s & Hp & _)]; [left; assumption|].
          right. exists s. split; [assumption|].
          destruct (str_eqb s cn) eqn:Es; [|reflexivity].
          exfalso. apply E. apply Honly; try assumption; try lia.
          exists s. split; assumption.
    - cbn [scan_result]. rewrite Z.add_0_l, Z2Nat.id by lia. assumption. }
  (* the descriptors *)
  destruct (open_rdonly_inv T fuel old p w S fnode fd wo HL1 Hopen Hfd)
    as (Hfdr & HG & HSm1 & ->).
  assert (HG1 : GetDescriptor (started w1)
                = (fd, put_entry (started w1) fd (set_InUse 1 zero_descriptor))).
  { apply (GetDescriptor_table _ _ _ HG Hfd).
    rewrite !started_table. assumption. }
  assert (HNm1 : N <> MINUS_ONE) by (intros ->; congruence).
  split.
  - eexists. 
    rewrite (open_rdonly_found T fuel new p w1 N _ fd HG1 Hfdr HLnew HNm1).
    assert (exists wr', read T fuel fd buf n
              (put_entry (put_entry (started w1) fd (set_InUse 1 zero_descriptor)) fd
                 (opened N (set_Filename (strcpy (Filename fnode) new) fnode)))
              = Ret (r, buf', wr')) as (wr' & Hr').
    2:{ exists wr'. split; [reflexivity|exact Hr']. }
    pose proof (header_of_ok T d S Hfl) as (_ & HnextS & _).
    apply (read_alike T Tok fuel fd buf n
             (put_entry (put_entry (started w) fd (set_InUse 1 zero_descriptor)) fd
                (opened S fnode))
             (put_entry (put_entry (started w1) fd (set_InUse 1 zero_descriptor)) fd
                (opened N (set_Filename (strcpy (Filename fnode) new) fnode)))
             S N r buf' wr
             (follows T d (Next (header_of T d S))));
      rewrite ?entry_put, ?dev_put, ?started_dev; fold d d1; try assumption;
      try reflexivity; try (cbn; lia).
    + (* the tail *)
      intros g Hg.
      pose proof (follows_u32 T d _ g Hfl HnextS Hg) as Hgr.
      unfold is_u32 in Hgr. change (2 ^ 32) with 4294967296 in Hgr.
      unfold alike. change (2 ^ 32) with 4294967296.
      split; [assumption|]. split; [assumption|]. split; [reflexivity|].
      intros Hv. split; [reflexivity|].
      assert (HgN : g <> N).
      { intros ->. apply HnbN. apply Htail; assumption. }
      destruct (Z.eq_dec g S) as [->|HgS].
      * split.
        -- apply same_route_bytes. intros o Ho. symmetry. apply HbS. lia.
        -- right. destruct Hhead as (_ & HSL & HDO). fold d in HSL, HDO.
           split; [exact HDO|]. split; [exact HSL|].
           intros o Ho. symmetry. apply HbS. lia.
      * assert (Hall : forall o, sector_byte T d g o = sector_byte T d1 g o).
        { intros o. symmetry. apply Hbo; assumption. }
        split; [|left; exact Hall].
        rewrite (header_of_ext T d d1 g g) by (intros; apply Hall).
        unfold same_route. auto.
    + intros g Hg Hv. apply follows_step; assumption.
    + (* the head *)
      unfold alike. change (2 ^ 32) with 4294967296.
      split; [assumption|]. split; [assumption|].
      split; [rewrite HvS, HvN; reflexivity|].
      intros _. split; [symmetry; assumption|]. split; [assumption|].
      right. destruct Hhead as (_ & HSL & HDO). fold d in HSL, HDO.
      split; [exact HDO|]. split; [exact HSL|]. assumption.
    + apply follows_here.
  - apply (open_rdonly_missing T fuel old p w1 fd HG1 Hfdr HLold).
Qed.

End RenameTheorem.

(* ------------------------------------------------------------------ *)
(** ** Rename on the volume holding file a *)

Lemma land_byte_l a b : is_byte a -> is_byte (Z.land a b).
Proof. intros H. rewrite Z.land_comm. apply land_byte_bounds. exact H. Qed.

Lemma flash_ok_write_dev T w g off buf len :
  flash_ok (cells (dev w)) -> flash_ok (cells (dev (write_dev T w g off buf len))).
Proof.
  intros H. unfold write_dev, WriteSector. cbn [dev set_dev].
  destruct (GetFlashSectionEntry T g) as [[[k s] rel]|]; [|exact H].
  unfold drv_Write. destruct (in_sector s rel off len); cbn [snd cells]; [|exact H].
  intros k' r' o'.
  destruct (Nat.eqb k' k && (r' =? rel) && within off len o'); [|apply H].
  apply land_byte_l. apply H.
Qed.

Lemma flash_ok_erase_dev T w g :
  flash_ok (cells (dev w)) -> flash_ok (cells (dev (erase_dev T w g))).
Proof.
  intros H. unfold erase_dev, EraseSector. cbn [dev set_dev].
  destruct (GetFlashSectionEntry T g) as [[[k s] rel]|]; [|exact H].
  unfold drv_Erase.
  destruct ((0 <=? rel) && (rel <? FlashSection.Count s)); cbn [snd cells]; [|exact H].
  intros k' r' o'. destruct (Nat.eqb k' k && (r' =? rel)); [|apply H].
  lia.
Qed.

Lemma flash_ok_replay T evs :
  forall w, flash_ok (cells (dev w)) -> flash_ok (cells (dev (replay T evs w))).
Proof.
  induction evs as [|e evs IH]; intros w H; [exact H|].
  cbn [replay fold_left]. apply IH. destruct e.
  - apply flash_ok_erase_dev. exact H.
  - apply flash_ok_write_dev. exact H.
Qed.

Lemma flash_ok_volume_a : flash_ok (cells (dev volume_a)).
Proof.
  assert (E : cells (dev volume_a)
              = cells (dev (replay small_table (journal (dev volume_a))
                                   (power_on virgin))))
    by (vm_compute; reflexivity).
  rewrite E. apply flash_ok_replay. intros k r o.
  unfold power_on, virgin. cbn [dev cells]. lia.
Qed.

Lemma small_table_sectors g :
  0 <= g -> ValidSector small_table g = true -> g = 0 \/ g = 1 \/ g = 2 \/ g = 3.
Proof.
  intros Hg H. unfold ValidSector, GetFlashSectionEntry, small_table in H.
  cbn [GetFlashSectionEntry_from FlashSection.Device FlashSection.Count] in H.
  change (0 =? 255) with false in H. cbv iota in H.
  destruct (Z.ltb_spec g 4); [lia|discriminate].
Qed.

Lemma follows_inv T d a g :
  follows T d a g ->
  g = a \/ (ValidSector T a = true /\ follows T d (Next (header_of T d a)) g).
Proof. destruct 1; auto. Qed.

Lemma volume_a_tail : tail_in_use small_table (dev volume_a) 0.
Proof.
  intros g Hf Hv.
  assert (E : Next (header_of small_table (dev volume_a) 0) = MINUS_ONE)
    by (vm_compute; reflexivity).
  rewrite E in Hf. apply follows_inv in Hf. destruct Hf as [->|[Hv2 _]].
  - vm_compute in Hv. discriminate Hv.
  - vm_compute in Hv2. discriminate Hv2.
Qed.

Lemma volume_a_only :
  only_at small_table (dev volume_a) (StringToUpperCase (c_str name_a)) 0.
Proof.
  intros g Hg Hv (s & Hn & _).
  destruct (small_table_sectors g ltac:(lia) Hv) as [-> | [-> | [-> | ->]]];
    [reflexivity| | |]; vm_compute in Hn; discriminate Hn.
Qed.

Lemma Rename_keeps_content_witness :
  (exists wo' wr',
      open small_table 8 name_b FFS_RDONLY 0 volume_a_renamed = Ret (0, wo')
      /\ read small_table 8 0 (repeat 0 5) 5 wo'
         = Ret (3, [1; 2; 3; 0; 0], wr'))
  /\ (exists w2,
         open small_table 8 name_a FFS_RDONLY 0 volume_a_renamed
         = Ret (FFS_RC_FILE_DOES_NOT_EXIST, w2)).
Proof.
  apply (Rename_keeps_content small_table
           ltac:(repeat constructor; vm_compute; congruence)
           8 name_a name_b volume_a volume_a_renamed 0
           (mkFnode 0 (name_a ++ repeat 0 64) [0; 0] 3 0 0)
           0 (repeat 0 5) 5 0 volume_a_opened 3
           [1; 2; 3; 0; 0] volume_a_read).
  - exact flash_ok_volume_a.
  - repeat constructor; vm_compute; congruence.
  - vm_compute. reflexivity.
  - vm_compute. reflexivity.
  - vm_compute. repeat split; reflexivity.
  - exact volume_a_tail.
  - exact volume_a_only.
  - vm_compute. reflexivity.
  - vm_compute. reflexivity.
  - lia.
  - vm_compute. reflexivity.
Defined.

(** C6 (counterexample to the claim as stated). After
    [Rename("a", "b")] has succeeded, [open("a", FFS_RDONLY)] returns
    FFS_RC_FILE_DOES_NOT_EXIST (-2); FFS_RC_FILE_NOT_FOUND (-7) is the
    code of [Erase] and [Rename], [open] never returns it. *)
Lemma open_of_old_name_does_not_exist :
  Rename small_table 8 name_a name_b volume_a = Ret (0, volume_a_renamed)
  /\ fst (GetDescriptor volume_a_renamed) = 0
  /\ (exists w2,
         open small_table 8 name_a FFS_RDONLY 0 volume_a_renamed
         = Ret (FFS_RC_FILE_DOES_NOT_EXIST, w2))
  /\ FFS_RC_FILE_DOES_NOT_EXIST <> FFS_RC_FILE_NOT_FOUND.
Proof.
  split; [vm_compute; reflexivity|]. split; [vm_compute; reflexivity|].
  split; [eexists; vm_compute; reflexivity|]. discriminate.
Qed.

(* ------------------------------------------------------------------ *)
(** * Further properties of the engine *)

(** ** Directory listing *)

Section ListingFacts.
Variable T : list FFS_FLASH_SECTION.
Hypothesis Tok : table_ok T.






End ListingFacts.



(* ------------------------------------------------------------------ *)
(** ** Space accounting *)

Section SpaceFacts.
Variable T : list FFS_FLASH_SECTION.
Hypothesis Tok : table_ok T.


Lemma globals_erase_dev w g : globals (erase_dev T w g) = globals w.
Proof. reflexivity. Qed.







End SpaceFacts.

(* ------------------------------------------------------------------ *)
(** ** The file table *)

Section Descriptors.
Variable T : list FFS_FLASH_SECTION.

(** X5. [open] issues no flash operation: whatever it returns, the
    medium and its journal are as before.  A new file gets its first
    sector from the first [write]. *)
Theorem open_leaves_medium
        (fuel : nat) (name : list Z) (flags perms : Z) (w : world)
        (fd : Z) (w' : world) :
  open T fuel name flags perms w = Ret (fd, w') -> dev w' = dev w.
Proof.
  intros H. unfold open in H. fold (started w) in H.
  destruct (GetDescriptor (started w)) as [fd0 w0] eqn:HG.
  assert (Hd0 : dev w0 = dev w).
  { unfold GetDescriptor in HG.
    change (Z.to_nat FFS_MAX_FILE_DESCRIPTORS) with 2%nat in HG.
    cbn [GetDescriptor_from] in HG.
    destruct (InUse (FileDescriptors (globals (started w)) 0) =? 0);
      [injection HG as _ <-; apply started_dev|].
    destruct (InUse (FileDescriptors (globals (started w)) (0 + 1)) =? 0);
      injection HG as _ <-; apply started_dev. }
  destruct (fd0 <? 0); [injection H as _ <-; exact Hd0|].
  destruct (table_entry w0 fd0) as [e| |]; try discriminate. cbn [bind] in H.
  destruct (LocateFileNode T fuel (dev w0) name) as [found| |]; try discriminate.
  cbn [bind] in H.
  match type of H with
  | (if ?c then _ else _) = _ => destruct c
  end; injection H as _ <-; exact Hd0.
Qed.

(** X6. With both descriptors in use [open] returns
    FFS_RC_TOO_MANY_OPEN_FILES, whatever the name and the flags, and
    leaves the file table as it is. *)
Theorem open_with_full_table
        (fuel : nat) (name : list Z) (flags perms : Z) (w : world) :
  InUse (FileDescriptors (globals w) 0) <> 0 ->
  InUse (FileDescriptors (globals w) 1) <> 0 ->
  open T fuel name flags perms w = Ret (FFS_RC_TOO_MANY_OPEN_FILES, started w).
Proof.
  intros H0 H1. unfold open. fold (started w).
  unfold GetDescriptor. change (Z.to_nat FFS_MAX_FILE_DESCRIPTORS) with 2%nat.
  cbn [GetDescriptor_from]. rewrite started_table. change (0 + 1) with 1.
  destruct (Z.eqb_spec (InUse (FileDescriptors (globals w) 0)) 0); [contradiction|].
  destruct (Z.eqb_spec (InUse (FileDescriptors (globals w) 1)) 0); [contradiction|].
  reflexivity.
Qed.

(** X7. A descriptor of the table that is not in use is refused by
    [close], [read] and [write] with FFS_RC_INVALID_FILE_DESCRIPTOR;
    nothing changes, on the medium, in the table or in the buffer. *)
Theorem free_descriptor_is_refused
        (fuel : nat) (fd : Z) (buf : list Z) (n : Z) (w : world) :
  0 <= fd < FFS_MAX_FILE_DESCRIPTORS ->
  InUse (FileDescriptors (globals w) fd) = 0 ->
  close T fuel fd w = Ret (FFS_RC_INVALID_FILE_DESCRIPTOR, w)
  /\ read T fuel fd buf n w = Ret (FFS_RC_INVALID_FILE_DESCRIPTOR, buf, w)
  /\ write T fuel fd buf n w = Ret (FFS_RC_INVALID_FILE_DESCRIPTOR, w).
Proof.
  intros Hfd Hu.
  assert (Hs : sanity_check w fd = Ret None).
  { unfold sanity_check.
    destruct (Z.gtb_spec fd FFS_MAX_FILE_DESCRIPTORS); [reflexivity|].
    rewrite table_entry_ok by assumption. cbn [bind]. rewrite Hu. reflexivity. }
  unfold close, read, write. rewrite Hs. cbn [bind]. auto.
Qed.

(** X8. A file opened with FFS_RDONLY is closed without a flash
    operation: [close] returns 0, the medium is as before the [open] and
    the descriptor is free again. *)
Theorem close_after_reading_leaves_medium
        (fuel : nat) (name : list Z) (perms : Z) (w : world)
        (fd : Z) (w1 : world) :
  open T fuel name FFS_RDONLY perms w = Ret (fd, w1) -> 0 <= fd ->
  exists w2,
    close T fuel fd w1 = Ret (0, w2)
    /\ dev w2 = dev w
    /\ InUse (FileDescriptors (globals w2) fd) = 0.
Proof.
  intros H Hfd. unfold open in H. fold (started w) in H.
  destruct (GetDescriptor (started w)) as [fd0 w0] eqn:HG.
  destruct (Z.ltb_spec fd0 0) as [Hneg|Hpos].
  { injection H as <- _. lia. }
  destruct (GetDescriptor_ok _ _ _ HG Hpos) as [Hfd0 ->].
  assert (Hr : 0 <= fd0 < FFS_MAX_FILE_DESCRIPTORS)
    by (unfold FFS_MAX_FILE_DESCRIPTORS; lia).
  rewrite table_entry_ok in H by assumption. rewrite entry_put in H.
  cbn [bind] in H.
  destruct (LocateFileNode T fuel _ name) as [found| |]; try discriminate.
  cbn [bind] in H.
  change (Z.land FFS_RDONLY FFS_CREATE =? 0) with true in H.
  change (negb (FFS_RDONLY =? 0)) with false in H. cbn [andb] in H.
  match type of H with
  | (if ?c then _ else _) = _ => destruct c
  end.
  { injection H as <- _. unfold FFS_RC_FILE_DOES_NOT_EXIST in Hfd. lia. }
  injection H as <- <-.
  unfold close. rewrite sanity_check_ok; rewrite ?entry_put; try assumption.
  2:{ destruct found as [[S f]|]; cbn; discriminate. }
  cbn [bind].
  assert (E : forall e, WriteFnode e = 0 -> DeleteOldFile e = 0 ->
            forall w3,
              (let w4 := if negb (WriteFnode e =? 0)
                         then write_dev T w3 (FnodeSector e) sizeof_FFS_SECTOR_HEADER
                                (fnode_bytes (Fnode e)) sizeof_FFS_FILE_NODE
                         else w3 in
               bind (if negb (DeleteOldFile e =? 0)
                     then FreeSectors T fuel w4 (OldFnodeSector e) else Ret w4)
                    (fun w5 => Ret (0, FreeDescriptor fd0 w5)))
              = Ret (0, FreeDescriptor fd0 w3)).
  { intros e -> -> w3. reflexivity. }
  rewrite E by (destruct found as [[S f]|]; reflexivity).
  eexists. split; [reflexivity|]. split.
  - unfold FreeDescriptor. rewrite !dev_put. apply started_dev.
  - unfold FreeDescriptor. rewrite entry_put. reflexivity.
Qed.

End Descriptors.

(* ------------------------------------------------------------------ *)
(** ** Bounds of [read] *)

Section ReadBounds.
Variable T : list FFS_FLASH_SECTION.

Lemma ReadSector_length d g off len data :
  snd (ReadSector T d g off len) = Some data -> length data = Z.to_nat len.
Proof.
  unfold ReadSector.
  destruct (GetFlashSectionEntry T g) as [[[k s] rel]|]; [|discriminate].
  unfold drv_Read. destruct (in_sector s rel off len); [|discriminate].
  cbn [snd]. intros [= <-]. rewrite length_map, length_seq. reflexivity.
Qed.

Lemma poke_keeps buf p data buf1 :
  0 <= p -> poke buf p data = Ret buf1 ->
  length buf1 = length buf
  /\ skipn (Z.to_nat p + length data) buf1 = skipn (Z.to_nat p + length data) buf.
Proof.
  intros Hp H. unfold poke in H.
  destruct (Z.leb_spec (p + Z.of_nat (length data)) (Z.of_nat (length buf)));
    [|discriminate].
  injection H as <-. split.
  - rewrite !length_app, length_firstn, length_skipn. lia.
  - rewrite app_assoc, skipn_app.
    rewrite skipn_all2 by (rewrite length_app, length_firstn; lia).
    rewrite length_app, length_firstn.
    replace (Z.to_nat p + length data - (Nat.min (Z.to_nat p) (length buf) + length data))%nat
      with 0%nat by lia.
    reflexivity.
Qed.

Lemma skipn_further (A : Type) (a b : list A) (k n : nat) :
  (k <= n)%nat -> skipn k a = skipn k b -> skipn n a = skipn n b.
Proof.
  intros Hk H. replace n with ((n - k) + k)%nat by lia.
  rewrite <- !skipn_skipn. rewrite H. reflexivity.
Qed.

Lemma read_loop_bounds fuel :
  forall d Fdesc g h Off buf p n tr rc Fd' buf',
    0 <= n -> 0 <= tr -> p = tr -> tr + n < 2 ^ 31 ->
    read_loop T fuel d Fdesc g h Off buf p n tr = Ret (rc, Fd', buf') ->
    length buf' = length buf
    /\ rc <= tr + n
    /\ (0 <= rc ->
        tr <= rc
        /\ skipn (Z.to_nat rc) buf' = skipn (Z.to_nat rc) buf).
Proof.
  change (2 ^ 31) with 2147483648.
  induction fuel as [|fuel IH];
    intros d Fdesc g h Off buf p n tr rc Fd' buf' Hn Htr Hp Hb H; [discriminate|].
  cbn [read_loop] in H. subst p.
  destruct (Z.eqb_spec n 0) as [->|Hn0].
  { injection H as <- <- <-. split; [reflexivity|]. split; [lia|].
    intros _. split; [lia|reflexivity]. }
  rewrite (ulong_small n) in H by (change (2 ^ 32) with 4294967296; lia).
  set (R := if n <? ulong (SectorLength h - Off)
            then n else ulong (SectorLength h - Off)) in *.
  assert (HR : 0 <= R <= n).
  { unfold R. pose proof (ulong_nonneg (SectorLength h - Off)).
    destruct (Z.ltb_spec n (ulong (SectorLength h - Off))); lia. }
  clearbody R.
  rewrite (to_int_small R) in H by (change (2 ^ 31) with 2147483648; lia).
  rewrite (to_int_small (n - R)) in H by (change (2 ^ 31) with 2147483648; lia).
  rewrite (to_int_small (tr + R)) in H by (change (2 ^ 31) with 2147483648; lia).
  match type of H with
  | bind ?m _ = _ => destruct m as [buf1| |] eqn:Hpoke; try discriminate
  end.
  cbn [bind] in H.
  assert (Hb1 : length buf1 = length buf
                /\ skipn (Z.to_nat (tr + R)) buf1 = skipn (Z.to_nat (tr + R)) buf).
  { destruct (snd (ReadSector T d g Off R)) as [data|] eqn:HRS.
    - apply ReadSector_length in HRS.
      apply poke_keeps in Hpoke; [|assumption].
      rewrite HRS in Hpoke.
      replace (Z.to_nat (tr + R)) with (Z.to_nat tr + Z.to_nat R)%nat by lia.
      exact Hpoke.
    - injection Hpoke as <-. auto. }
  destruct Hb1 as (Hl1 & Hs1).
  destruct (Z.eqb_spec (n - R) 0) as [HnR|HnR].
  { injection H as <- <- <-. split; [assumption|]. split; [lia|].
    intros _. split; [lia|assumption]. }
  destruct (read_header T d (Next h) (Some h)) as [rc2 sh2].
  destruct (Z.ltb_spec rc2 0) as [Hneg|Hpos].
  { injection H as <- <- <-. split; [assumption|]. split; [lia|]. lia. }
  destruct sh2 as [h2|]; [|discriminate]. cbn [need bind] in H.
  apply IH in H; try lia.
  destruct H as (Hl & Hrc & Hrest).
  split; [congruence|]. split; [lia|].
  intros Hrc0. destruct (Hrest Hrc0) as (Hge & Hs).
  split; [lia|]. rewrite Hs.
  apply (skipn_further _ _ _ (Z.to_nat (tr + R))); [lia|assumption].
Qed.

(** X9. [read] stays within what it was asked and what it reports: for
    [0 <= n < 2^31] the return value is at most [n], the caller's buffer
    keeps its length, the bytes of the buffer from the returned count on
    are untouched, and the medium is as before. *)
Theorem read_stays_in_bounds
        (fuel : nat) (fd : Z) (buf : list Z) (n : Z) (w : world)
        (rc : Z) (buf' : list Z) (w' : world) :
  0 <= n < 2 ^ 31 ->
  read T fuel fd buf n w = Ret (rc, buf', w') ->
  dev w' = dev w
  /\ length buf' = length buf
  /\ rc <= n
  /\ (0 <= rc -> skipn (Z.to_nat rc) buf' = skipn (Z.to_nat rc) buf).
Proof.
  change (2 ^ 31) with 2147483648.
  intros Hn H. unfold read in H.
  destruct (sanity_check w fd) as [[e|]| |]; try discriminate; cbn [bind] in H.
  2:{ injection H as <- <- <-. unfold FFS_RC_INVALID_FILE_DESCRIPTOR.
      repeat split; try reflexivity; lia. }
  destruct (Position e >=? FileSize (Fnode e)).
  { injection H as <- <- <-. unfold FFS_RC_INVALID_FILE_POSITION.
    repeat split; try reflexivity; lia. }
  destruct (LocatePosition T fuel (dev w) e (Position e) None None)
    as [[[[rc1 G] sh] off]| |]; try discriminate.
  cbn [bind] in H.
  destruct (Z.ltb_spec rc1 0).
  { injection H as <- <- <-. repeat split; try reflexivity; lia. }
  destruct sh as [h|]; [|discriminate]. destruct off as [o|]; [|discriminate].
  cbn [need bind] in H.
  rewrite (ulong_small n) in H by (change (2 ^ 32) with 4294967296; lia).
  set (left := ulong (FileSize (Fnode e) - Position e)) in *.
  set (n' := if n >? left then to_int left else n) in *.
  assert (Hn' : 0 <= n' <= n).
  { unfold n'. pose proof (ulong_nonneg (FileSize (Fnode e) - Position e)) as Hl.
    fold left in Hl. destruct (Z.gtb_spec n left); [|lia].
    rewrite to_int_small by (change (2 ^ 31) with 2147483648; lia). lia. }
  clearbody n'.
  destruct (read_loop T fuel (dev w) e G h o buf 0 n' 0)
    as [[[rc2 Fd2] buf2]| |] eqn:HRL; try discriminate.
  cbn [bind] in H. injection H as <- <- <-.
  apply read_loop_bounds in HRL; try lia.
  destruct HRL as (Hl & Hrc & Hrest).
  split; [reflexivity|]. split; [assumption|]. split; [lia|].
  intros Hrc0. apply Hrest. assumption.
Qed.

End ReadBounds.

(* ------------------------------------------------------------------ *)
(** ** Sector allocation *)

Section Allocation.
Variable T : list FFS_FLASH_SECTION.
Hypothesis Tok : table_ok T.



End Allocation.

(* ------------------------------------------------------------------ *)
(** ** Deleting a file *)

Section Erasing.
Variable T : list FFS_FLASH_SECTION.

Lemma mark_status w g h k r :
  cells (dev (mark T w g h)) k r 13 = cells (dev w) k r 13
  \/ cells (dev (mark T w g h)) k r 13 = 0.
Proof.
  unfold mark. rewrite cells_write_dev.
  destruct (GetFlashSectionEntry T g) as [[[k0 s] rel]|]; [|auto].
  destruct (in_sector s rel offsetof_Version 4
            && (Nat.eqb k k0 && (r =? rel) && within offsetof_Version 4 13));
    [|auto].
  right. rewrite status_word_eq. cbn [set_Status Status].
  change (Z.to_nat (13 - offsetof_Version)) with 1%nat. cbn [nth].
  change (FFS_SECTOR_HEADER_FREE_DIRTY mod 256) with 0. apply Z.land_0_r.
Qed.

(** [FreeSectors] rewrites status words only, and a status byte it
    changes becomes FREE_DIRTY. *)
Lemma FreeSectors_loop_fades fuel :
  forall w g sh w1,
    FreeSectors_loop T fuel w g sh = Ret w1 ->
    globals w1 = globals w
    /\ (forall k r o, ~ (12 <= o < 16) ->
          cells (dev w1) k r o = cells (dev w) k r o)
    /\ (forall k r, cells (dev w1) k r 13 = cells (dev w) k r 13
                    \/ cells (dev w1) k r 13 = 0).
Proof.
  induction fuel as [|fuel IH]; intros w g sh w1 H; [discriminate|].
  cbn [FreeSectors_loop] in H.
  destruct (g =? MINUS_ONE).
  { injection H as <-. auto. }
  destruct (snd (read_header T (dev w) g sh)) as [h|]; [|discriminate].
  cbn [need bind] in H. fold (mark T w g h) in H.
  apply IH in H. destruct H as (Hg & Hout & Hst).
  split; [rewrite Hg; reflexivity|]. split.
  - intros k r o Ho. rewrite Hout by assumption. apply mark_outside. assumption.
  - intros k r. destruct (Hst k r) as [E|E]; [|auto].
    rewrite E. apply mark_status.
Qed.





Hypothesis Tok : table_ok T.




End Erasing.

Section ErasingMore.
Variable T : list FFS_FLASH_SECTION.

(** X14. [Erase] returns 0 or FFS_RC_FILE_NOT_FOUND and never erases a
    sector or rewrites data: outside the status words (bytes 12 to 15 of
    a sector) every byte of the medium is as before, and a status byte
    that changes becomes FREE_DIRTY.  With FFS_RC_FILE_NOT_FOUND it has
    issued no flash operation.  The file table is untouched. *)
Theorem Erase_rewrites_status_words_only
        (fuel : nat) (name : list Z) (w : world) (rc : Z) (w' : world) :
  Erase T fuel name w = Ret (rc, w') ->
  FileDescriptors (globals w') = FileDescriptors (globals w)
  /\ (rc = 0 \/ (rc = FFS_RC_FILE_NOT_FOUND /\ dev w' = dev w))
  /\ (forall k r o, ~ (12 <= o < 16) ->
        cells (dev w') k r o = cells (dev w) k r o)
  /\ (forall k r, cells (dev w') k r 13 = cells (dev w) k r 13
                  \/ cells (dev w') k r 13 = FFS_SECTOR_HEADER_FREE_DIRTY).
Proof.
  intros H. unfold Erase in H. fold (started w) in H.
  destruct (LocateFileNode T fuel (dev (started w)) name) as [[[S f]|]| |];
    try discriminate; cbn [bind] in H.
  - destruct (FreeSectors T fuel (started w) S) as [w1| |] eqn:HF; try discriminate.
    cbn [bind] in H. injection H as <- <-.
    unfold FreeSectors in HF. apply FreeSectors_loop_fades in HF.
    destruct HF as (Hg & Hout & Hst). rewrite started_dev in *.
    split; [rewrite Hg; apply started_table|]. auto.
  - injection H as <- <-. rewrite started_dev, started_table. auto 10.
Qed.

End ErasingMore.

(* ------------------------------------------------------------------ *)
(** ** Name lookup, [Rename]'s return codes, descriptor reuse *)

Lemma toupper_nul c : toupper c = 0 <-> c = 0.
Proof.
  unfold toupper.
  destruct (Z.leb_spec 97 c); destruct (Z.leb_spec c 122); cbn [andb]; lia.
Qed.

Lemma toupper_idem c : toupper (toupper c) = toupper c.
Proof.
  unfold toupper.
  destruct (Z.leb_spec 97 c); destruct (Z.leb_spec c 122); cbn [andb];
    try reflexivity;
    try (destruct (Z.leb_spec 97 c); destruct (Z.leb_spec c 122); cbn [andb];
         reflexivity || lia).
  destruct (Z.leb_spec 97 (c - 32)); destruct (Z.leb_spec (c - 32) 122);
    cbn [andb]; lia.
Qed.

Lemma c_str_upper s : c_str (StringToUpperCase s) = StringToUpperCase (c_str s).
Proof.
  unfold StringToUpperCase. induction s as [|c r IH]; [reflexivity|].
  cbn [map c_str].
  destruct (Z.eqb_spec c 0) as [->|Hc].
  - reflexivity.
  - destruct (Z.eqb_spec (toupper c) 0) as [E|E].
    + apply (proj1 (toupper_nul c)) in E. contradiction.
    + cbn [map]. rewrite IH. reflexivity.
Qed.

Lemma upper_upper s : StringToUpperCase (StringToUpperCase s) = StringToUpperCase s.
Proof.
  unfold StringToUpperCase. rewrite map_map. apply map_ext. apply toupper_idem.
Qed.

Section Lookup.
Variable T : list FFS_FLASH_SECTION.

(** X15. Names are looked up without regard to case: the lookup of the
    upper-cased name is the lookup of the name, on every medium. *)
Theorem LocateFileNode_ignores_case
        (fuel : nat) (d : device) (name : list Z) :
  LocateFileNode T fuel d (StringToUpperCase name) = LocateFileNode T fuel d name.
Proof.
  unfold LocateFileNode, strlen.
  rewrite c_str_upper, upper_upper.
  unfold StringToUpperCase at 1. rewrite length_map. reflexivity.
Qed.

Hypothesis Tok : table_ok T.


(** X17. [Rename] returns 0, FFS_RC_FILE_NOT_FOUND, FFS_RC_NEW_NAME_EXISTS
    or FFS_RC_OUT_OF_SPACE.  It returns FFS_RC_FILE_NOT_FOUND when the
    old name is not found and FFS_RC_NEW_NAME_EXISTS when the new name
    is found (in either case), and has then issued no flash
    operation. *)
Theorem Rename_return_codes
        (fuel : nat) (old new : list Z) (w : world) (rc : Z) (w' : world) :
  Rename T fuel old new w = Ret (rc, w') ->
  rc = 0
  \/ (rc = FFS_RC_FILE_NOT_FOUND /\ w' = started w
      /\ LocateFileNode T fuel (dev w) old = Ret None)
  \/ (rc = FFS_RC_NEW_NAME_EXISTS /\ w' = started w
      /\ exists r, LocateFileNode T fuel (dev w) new = Ret (Some r))
  \/ rc = FFS_RC_OUT_OF_SPACE.
Proof.
  intros H. unfold Rename in H. fold (started w) in H.
  rewrite !started_dev in H.
  destruct (LocateFileNode T fuel (dev w) old) as [[[Sector fnode]|]| |] eqn:HL1;
    try discriminate; cbn [bind] in H.
  2:{ injection H as <- <-. auto. }
  destruct (LocateFileNode T fuel (dev w) new) as [[r|]| |] eqn:HL2;
    try discriminate; cbn [bind] in H.
  { injection H as <- <-. right. right. left. eauto. }
  destruct (snd (read_header T (dev w) Sector None)) as [SecHead|];
    [|discriminate]; cbn [need bind] in H.
  destruct (AllocateSectorWithFilenode T fuel (started w) (Some SecHead))
    as [[[[rc1 N] sh] wa]| |] eqn:HA; try discriminate; cbn [bind] in H.
  unfold AllocateSectorWithFilenode in HA. apply allocate_journal in HA.
  destruct HA as [(-> & _)|(-> & _ & oldh & sec & -> & _)].
  { cbn in H. injection H as <- _. auto. }
  change (negb (0 =? 0)) with false in H. cbn [need bind] in H.
  match type of H with
  | (if negb ?c then _ else _) = _ => destruct c
  end; cbn [negb] in H.
  2:{ destruct (FreeSectors T fuel wa N); try discriminate.
      cbn [bind] in H. injection H as <- _. auto. }
  match type of H with
  | bind ?c _ = _ => destruct c as [w2| |]; try discriminate
  end.
  cbn [bind] in H. injection H as <- _. auto.
Qed.

End Lookup.

Section Reopen.
Variable T : list FFS_FLASH_SECTION.

(** X18. Descriptors are recycled: after [open(name, FFS_RDONLY)] and
    [close], the same [open] succeeds again with the same descriptor
    number and fills the descriptor as the first time. *)
Theorem reopen_after_close
        (fuel : nat) (name : list Z) (perms : Z) (w : world)
        (fd : Z) (w1 w2 : world) :
  open T fuel name FFS_RDONLY perms w = Ret (fd, w1) -> 0 <= fd ->
  close T fuel fd w1 = Ret (0, w2) ->
  exists w3,
    open T fuel name FFS_RDONLY perms w2 = Ret (fd, w3)
    /\ dev w3 = dev w
    /\ FileDescriptors (globals w3) fd = FileDescriptors (globals w1) fd.
Proof.
  intros H Hfd Hc. unfold open in H. fold (started w) in H.
  destruct (GetDescriptor (started w)) as [fd0 w0] eqn:HG.
  destruct (Z.ltb_spec fd0 0) as [Hneg|Hpos].
  { injection H as <- _. lia. }
  destruct (GetDescriptor_ok _ _ _ HG Hpos) as [Hfd0 ->].
  assert (Hr : 0 <= fd0 < FFS_MAX_FILE_DESCRIPTORS)
    by (unfold FFS_MAX_FILE_DESCRIPTORS; lia).
  rewrite table_entry_ok in H by assumption. rewrite entry_put in H.
  cbn [bind] in H. rewrite dev_put, started_dev in H.
  destruct (LocateFileNode T fuel (dev w) name) as [found| |] eqn:HL;
    try discriminate.
  cbn [bind] in H.
  change (Z.land FFS_RDONLY FFS_CREATE =? 0) with true in H.
  change (negb (FFS_RDONLY =? 0)) with false in H. cbn [andb] in H.
  match type of H with
  | (if ?c then _ else _) = _ => destruct c eqn:Ec
  end.
  { injection H as <- _. unfold FFS_RC_FILE_DOES_NOT_EXIST in Hfd. lia. }
  injection H as <- <-.
  unfold close in Hc. rewrite sanity_check_ok in Hc; rewrite ?entry_put;
    try assumption; [|destruct found as [[S f]|]; cbn; discriminate].
  cbn [bind] in Hc. rewrite !entry_put in Hc.
  assert (E : forall e, WriteFnode e = 0 -> DeleteOldFile e = 0 ->
            forall w3,
              (let w4 := if negb (WriteFnode e =? 0)
                         then write_dev T w3 (FnodeSector e) sizeof_FFS_SECTOR_HEADER
                                (fnode_bytes (Fnode e)) sizeof_FFS_FILE_NODE
                         else w3 in
               bind (if negb (DeleteOldFile e =? 0)
                     then FreeSectors T fuel w4 (OldFnodeSector e) else Ret w4)
                    (fun w5 => Ret (0, FreeDescriptor fd0 w5)))
              = Ret (0, FreeDescriptor fd0 w3)).
  { intros e -> -> w3. reflexivity. }
  rewrite E in Hc by (destruct found as [[S f]|]; reflexivity).
  injection Hc as <-.
  match goal with
  | |- context [FreeDescriptor fd0 ?wx] => set (w1 := wx) in *
  end.
  set (w2 := FreeDescriptor fd0 w1).
  assert (Hi : initializationComplete (globals w2) = true).
  { unfold w2, w1, FreeDescriptor, put_entry, set_FileDescriptors, started. cbn.
    destruct (initializationComplete (globals w)) eqn:Ei; [exact Ei|reflexivity]. }
  assert (Hd2 : dev w2 = dev w).
  { unfold w2, w1, FreeDescriptor. rewrite !dev_put. apply started_dev. }
  assert (HG2 : GetDescriptor w2 = (fd0, put_entry w2 fd0 (set_InUse 1 zero_descriptor))).
  { unfold GetDescriptor in *.
    change (Z.to_nat FFS_MAX_FILE_DESCRIPTORS) with 2%nat in *.
    cbn [GetDescriptor_from] in *.
    destruct Hfd0 as [-> | ->].
    - unfold w2, FreeDescriptor. rewrite entry_put. reflexivity.
    - destruct (InUse (FileDescriptors (globals (started w)) 0) =? 0) eqn:E0;
        [injection HG as HG _; discriminate|].
      assert (E0' : FileDescriptors (globals w2) 0
                    = FileDescriptors (globals (started w)) 0) by reflexivity.
      rewrite E0', E0. change (0 + 1) with 1.
      unfold w2, FreeDescriptor. rewrite entry_put. reflexivity. }
  unfold open. rewrite Hi, HG2.
  destruct (Z.ltb_spec fd0 0); [lia|].
  rewrite table_entry_ok by assumption. rewrite entry_put. cbn [bind].
  rewrite dev_put, Hd2, HL. cbn [bind].
  change (Z.land FFS_RDONLY FFS_CREATE =? 0) with true.
  change (negb (FFS_RDONLY =? 0)) with false. cbn [andb].
  rewrite Ec. eexists. split; [reflexivity|].
  rewrite !dev_put, !entry_put. split; [exact Hd2|reflexivity].
Qed.

End Reopen.

(* ------------------------------------------------------------------ *)
(** ** Sector addressing and the descriptors of [open] *)

Lemma from_nth tbl :
  forall idx g k s rel,
    GetFlashSectionEntry_from tbl idx g = Some (k, s, rel) ->
    (idx <= k)%nat /\ nth_error tbl (k - idx) = Some s
    /\ FlashSection.Device s <> 255.
Proof.
  induction tbl as [|s0 rest IH]; intros idx g k s rel H; [discriminate|].
  cbn [GetFlashSectionEntry_from] in H.
  destruct (Z.eqb_spec (FlashSection.Device s0) 255) as [|Hd]; [discriminate|].
  destruct (g <? FlashSection.Count s0).
  - injection H as <- <- <-. rewrite Nat.sub_diag. auto.
  - apply IH in H. destruct H as (Hle & Hn & Hdev).
    split; [lia|]. split; [|exact Hdev].
    replace (k - idx)%nat with (S (k - S idx)) by lia. exact Hn.
Qed.

Lemma GetDescriptor_cases w g w0 :
  GetDescriptor w = (g, w0) ->
  (g = FFS_RC_TOO_MANY_OPEN_FILES /\ w0 = w
   /\ InUse (FileDescriptors (globals w) 0) <> 0
   /\ InUse (FileDescriptors (globals w) 1) <> 0)
  \/ (0 <= g < FFS_MAX_FILE_DESCRIPTORS
      /\ InUse (FileDescriptors (globals w) g) = 0
      /\ (forall i, 0 <= i < g -> InUse (FileDescriptors (globals w) i) <> 0)
      /\ w0 = put_entry w g (set_InUse 1 zero_descriptor)).
Proof.
  unfold GetDescriptor. change (Z.to_nat FFS_MAX_FILE_DESCRIPTORS) with 2%nat.
  cbn [GetDescriptor_from]. change (0 + 1) with 1. intros H.
  destruct (Z.eqb_spec (InUse (FileDescriptors (globals w) 0)) 0) as [H0|H0].
  - injection H as <- <-. right. unfold FFS_MAX_FILE_DESCRIPTORS.
    repeat split; try lia; auto.
  - destruct (Z.eqb_spec (InUse (FileDescriptors (globals w) 1)) 0) as [H1|H1].
    + injection H as <- <-. right. unfold FFS_MAX_FILE_DESCRIPTORS.
      repeat split; try lia; auto.
      intros i Hi. replace i with 0 by lia. exact H0.
    + injection H as <- <-. left. auto.
Qed.


Section Addressing.
Variable T : list FFS_FLASH_SECTION.

(** X19. [GetFlashSectionEntry] never maps two sector numbers to the
    same place: the entry it returns is an entry of the table before
    the end marker, the relative sector lies within that entry's count,
    and two sector numbers that get the same entry and the same
    relative sector are the same number. *)
Theorem GetFlashSectionEntry_no_aliasing
        (x y : Z) (k : nat) (s : FFS_FLASH_SECTION) (rel : Z)
        (k' : nat) (s' : FFS_FLASH_SECTION) (rel' : Z) :
  0 <= x < 2 ^ 32 -> 0 <= y < 2 ^ 32 ->
  GetFlashSectionEntry T x = Some (k, s, rel) ->
  GetFlashSectionEntry T y = Some (k', s', rel') ->
  nth_error T k = Some s
  /\ FlashSection.Device s <> 0xff
  /\ 0 <= rel < FlashSection.Count s
  /\ (k = k' -> rel = rel' -> x = y).
Proof.
  intros Hx Hy H1 H2.
  pose proof (from_nth _ _ _ _ _ _ H1) as (_ & Hn & Hd).
  rewrite Nat.sub_0_r in Hn.
  pose proof (from_in_table _ _ _ _ _ _ H1) as (_ & Hlt & _ & Hpos).
  split; [exact Hn|]. split; [exact Hd|]. split; [lia|].
  intros <- <-. eapply addr_inj; eassumption.
Qed.

Hypothesis Tok : table_ok T.


(** X21. A successful [open] takes the lowest free descriptor: the
    number returned is in the table, that entry was free and every
    entry before it in use; afterwards the entry is in use, positioned
    at the start of the file with nothing to write back yet, it holds
    the flags, and every other entry is as before. *)
Theorem open_takes_lowest_free_descriptor
        (fuel : nat) (name : list Z) (flags perms : Z) (w : world)
        (fd : Z) (w' : world) :
  open T fuel name flags perms w = Ret (fd, w') -> 0 <= fd ->
  fd < FFS_MAX_FILE_DESCRIPTORS
  /\ InUse (FileDescriptors (globals w) fd) = 0
  /\ (forall i, 0 <= i < fd -> InUse (FileDescriptors (globals w) i) <> 0)
  /\ InUse (FileDescriptors (globals w') fd) = 1
  /\ Position (FileDescriptors (globals w') fd) = 0
  /\ WriteFnode (FileDescriptors (globals w') fd) = 0
  /\ Flags (FileDescriptors (globals w') fd) = uchar flags
  /\ (forall i, i <> fd ->
        FileDescriptors (globals w') i = FileDescriptors (globals w) i).
Proof.
  intros H Hpos. unfold open in H. fold (started w) in H.
  destruct (GetDescriptor (started w)) as [g w0] eqn:HG.
  apply GetDescriptor_cases in HG. rewrite started_table in HG.
  destruct HG as [(-> & -> & H0 & H1)|(Hg & Hfree & Hlow & ->)].
  - cbn in H. injection H as <- <-. unfold FFS_RC_TOO_MANY_OPEN_FILES in Hpos. lia.
  - destruct (Z.ltb_spec g 0); [lia|].
    rewrite table_entry_ok in H by assumption. cbn [bind] in H.
    rewrite entry_put in H.
    destruct (LocateFileNode T fuel (dev (put_entry (started w) g
                                                    (set_InUse 1 zero_descriptor)))
                             name) as [found| |];
      try discriminate H.
    cbn [bind] in H. cbv zeta in H.
    match type of H with
    | (if ?c then _ else _) = _ => destruct c
    end.
    + injection H as <- <-. unfold FFS_RC_FILE_DOES_NOT_EXIST in Hpos. lia.
    + injection H as <- <-. rewrite entry_put.
      split; [lia|]. split; [exact Hfree|]. split; [exact Hlow|].
      assert (Hother : forall e i, i <> g ->
                FileDescriptors
                  (globals (put_entry
                              (put_entry (started w) g (set_InUse 1 zero_descriptor))
                              g e)) i
                = FileDescriptors (globals w) i).
      { intros e i Hi. unfold put_entry.
        cbn [globals set_FileDescriptors FileDescriptors].
        destruct (Z.eqb_spec i g); [contradiction|].
        rewrite started_table. reflexivity. }
      split; [|split; [|split; [|split; [|intros i Hi; apply Hother; exact Hi]]]];
        destruct found as [[S0 f0]|]; destruct (flags =? 0);
        cbn [FnodeSector set_FnodeSector set_Fnode set_InUse negb andb];
        try (destruct (S0 =? MINUS_ONE));
        try (destruct (MINUS_ONE =? MINUS_ONE));
        reflexivity.
Qed.

End Addressing.

Lemma GetFlashSectionEntry_no_aliasing_witness :
  nth_error small_table 0 = Some (FlashSection.mk 0 0 4 128)
  /\ FlashSection.Device (FlashSection.mk 0 0 4 128) <> 0xff
  /\ 0 <= 1 < FlashSection.Count (FlashSection.mk 0 0 4 128)
  /\ (0%nat = 0%nat -> 1 = 2 -> 1 = 2).
Proof.
  apply (GetFlashSectionEntry_no_aliasing small_table 1 2
           0%nat (FlashSection.mk 0 0 4 128) 1
           0%nat (FlashSection.mk 0 0 4 128) 2).
  - lia.
  - lia.
  - vm_compute. reflexivity.
  - vm_compute. reflexivity.
Defined.


Lemma open_takes_lowest_free_descriptor_witness :
  0 < FFS_MAX_FILE_DESCRIPTORS
  /\ InUse (FileDescriptors (globals volume_a) 0) = 0
  /\ (forall i, 0 <= i < 0 -> InUse (FileDescriptors (globals volume_a) i) <> 0)
  /\ InUse (FileDescriptors (globals volume_a_opened) 0) = 1
  /\ Position (FileDescriptors (globals volume_a_opened) 0) = 0
  /\ WriteFnode (FileDescriptors (globals volume_a_opened) 0) = 0
  /\ Flags (FileDescriptors (globals volume_a_opened) 0) = uchar FFS_RDONLY
  /\ (forall i, i <> 0 ->
        FileDescriptors (globals volume_a_opened) i
        = FileDescriptors (globals volume_a) i).
Proof.
  apply (open_takes_lowest_free_descriptor small_table 8 name_a FFS_RDONLY 0
           volume_a 0 volume_a_opened).
  - vm_compute. reflexivity.
  - lia.
Defined.

(* ------------------------------------------------------------------ *)
(** ** The properties on the volume holding file a *)





Lemma open_leaves_medium_witness : dev volume_a_recreated = dev volume_a.
Proof.
  apply (open_leaves_medium small_table 8 name_a FFS_CREATE 0 volume_a 0
           volume_a_recreated).
  vm_compute. reflexivity.
Defined.

Lemma open_with_full_table_witness :
  open small_table 8 name_b FFS_CREATE 0 volume_a_opened_twice
  = Ret (FFS_RC_TOO_MANY_OPEN_FILES, started volume_a_opened_twice).
Proof.
  apply (open_with_full_table small_table 8 name_b FFS_CREATE 0
           volume_a_opened_twice).
  - vm_compute. congruence.
  - vm_compute. congruence.
Defined.

Lemma free_descriptor_is_refused_witness :
  close small_table 8 1 volume_a_opened
  = Ret (FFS_RC_INVALID_FILE_DESCRIPTOR, volume_a_opened)
  /\ read small_table 8 1 [0; 0] 2 volume_a_opened
     = Ret (FFS_RC_INVALID_FILE_DESCRIPTOR, [0; 0], volume_a_opened)
  /\ write small_table 8 1 [0; 0] 2 volume_a_opened
     = Ret (FFS_RC_INVALID_FILE_DESCRIPTOR, volume_a_opened).
Proof.
  apply (free_descriptor_is_refused small_table 8 1 [0; 0] 2 volume_a_opened).
  - vm_compute. split; congruence.
  - vm_compute. reflexivity.
Defined.

Lemma close_after_reading_leaves_medium_witness :
  exists w2,
    close small_table 8 0 volume_a_opened = Ret (0, w2)
    /\ dev w2 = dev volume_a
    /\ InUse (FileDescriptors (globals w2) 0) = 0.
Proof.
  apply (close_after_reading_leaves_medium small_table 8 name_a 0 volume_a 0
           volume_a_opened).
  - vm_compute. reflexivity.
  - lia.
Defined.

Lemma read_stays_in_bounds_witness :
  dev volume_a_read = dev volume_a_opened
  /\ length [1; 2; 3; 0; 0] = length (repeat 0 5)
  /\ 3 <= 5
  /\ (0 <= 3 -> skipn (Z.to_nat 3) [1; 2; 3; 0; 0] = skipn (Z.to_nat 3) (repeat 0 5)).
Proof.
  apply (read_stays_in_bounds small_table 8 0 (repeat 0 5) 5 volume_a_opened 3
           [1; 2; 3; 0; 0] volume_a_read).
  - lia.
  - vm_compute. reflexivity.
Defined.




Lemma Erase_rewrites_status_words_only_witness :
  FileDescriptors (globals volume_a_erased) = FileDescriptors (globals volume_a)
  /\ (0 = 0 \/ (0 = FFS_RC_FILE_NOT_FOUND /\ dev volume_a_erased = dev volume_a))
  /\ (forall k r o, ~ (12 <= o < 16) ->
        cells (dev volume_a_erased) k r o = cells (dev volume_a) k r o)
  /\ (forall k r, cells (dev volume_a_erased) k r 13 = cells (dev volume_a) k r 13
                  \/ cells (dev volume_a_erased) k r 13 = FFS_SECTOR_HEADER_FREE_DIRTY).
Proof.
  apply (Erase_rewrites_status_words_only small_table 8 name_a volume_a 0
           volume_a_erased).
  vm_compute. reflexivity.
Defined.



Lemma Rename_return_codes_witness :
  FFS_RC_FILE_NOT_FOUND = 0
  \/ (FFS_RC_FILE_NOT_FOUND = FFS_RC_FILE_NOT_FOUND
      /\ started volume_a = started volume_a
      /\ LocateFileNode small_table 8 (dev volume_a) name_b = Ret None)
  \/ (FFS_RC_FILE_NOT_FOUND = FFS_RC_NEW_NAME_EXISTS
      /\ started volume_a = started volume_a
      /\ exists r, LocateFileNode small_table 8 (dev volume_a) name_a = Ret (Some r))
  \/ FFS_RC_FILE_NOT_FOUND = FFS_RC_OUT_OF_SPACE.
Proof.
  apply (Rename_return_codes small_table
           8 name_b name_a volume_a FFS_RC_FILE_NOT_FOUND (started volume_a)).
  vm_compute. reflexivity.
Defined.

Lemma reopen_after_close_witness :
  exists w3,
    open small_table 8 name_a FFS_RDONLY 0 volume_a_reclosed = Ret (0, w3)
    /\ dev w3 = dev volume_a
    /\ FileDescriptors (globals w3) 0 = FileDescriptors (globals volume_a_opened) 0.
Proof.
  apply (reopen_after_close small_table 8 name_a 0 volume_a 0
           volume_a_opened volume_a_reclosed).
  - vm_compute. reflexivity.
  - lia.
  - vm_compute. reflexivity.
Defined.

